(** * A shallow embedding of [homeassistant/components/voip/sip.py]

    The SIP endpoint of the [voip] component: a datagram protocol that
    parses an incoming INVITE, extracts the caller's RTP port and the
    address the caller used for us, and answers with a 200 OK carrying
    an SDP body.

    Python values are modelled as follows.
    - [str] is a list of Unicode code points ([Z]); [bytes] is a list
      of octets ([Z], 0..255).
    - an exception is a value of [exn]; a computation that may raise
      returns [result].
    - a [dict[str, str]] is an association list with unique keys that
      keeps insertion order, as Python's dict does.
    - the protocol object is a record holding its [transport]; the
      transport records the datagrams handed to [sendto].
    - the receive path runs in a small monad that collects the
      observable events (log records, [on_call] invocations) and may
      raise; [try]/[except] is a combinator of that monad.
    - what the interpreter's Unicode tables say beyond ASCII is a
      parameter ([UnicodeData]) of the functions that consult them. *)

From Stdlib Require Import ZArith List Bool Lia String Ascii.
From Stdlib Require Decimal DecimalZ.
Import ListNotations.
Local Open Scope Z_scope.

(** ** Strings, bytes and exceptions *)

Definition char := Z.
Definition str := list char.
Definition bytes := list Z.

(** An ASCII literal as a [str]. *)
Definition py (s : string) : str :=
  map (fun a => Z.of_N (N_of_ascii a)) (list_ascii_of_string s).
Arguments py s%_string.

Inductive exn : Type :=
| UnicodeDecodeError
| UnicodeEncodeError
| IndexError
| ValueError
| KeyError (key : str)
| AssertionError.

Inductive result (A : Type) : Type :=
| Ok (a : A)
| Raise (e : exn).
Arguments Ok {A} a.
Arguments Raise {A} e.

Definition rbind {A B} (m : result A) (f : A -> result B) : result B :=
  match m with
  | Ok a => f a
  | Raise e => Raise e
  end.

Declare Scope result_scope.
Delimit Scope result_scope with result.
Notation "x <- m ;; k" := (rbind m (fun x => k))
  (at level 61, m at next level, right associativity) : result_scope.
Notation "' p <- m ;; k" := (rbind m (fun x => let p := x in k))
  (at level 61, p pattern, m at next level, right associativity) : result_scope.
Local Open Scope result_scope.

Fixpoint str_eqb (a b : str) : bool :=
  match a, b with
  | [], [] => true
  | x :: a', y :: b' => (x =? y) && str_eqb a' b'
  | _, _ => false
  end.

(** ** The Unicode character database

    [str.lower] and the regular expression class [\d] consult tables of
    the interpreter's Unicode database, which are not part of the
    program.  ASCII is handled here; what the tables say beyond ASCII
    is taken as a parameter. *)

Record UnicodeData : Type := {
  (** [str.lower] on a string that holds a non-ASCII code point *)
  unicode_lower : str -> str;
  (** the value of a non-ASCII decimal digit (category Nd) *)
  unicode_decimal : char -> option Z
}.

(** Tables that know nothing beyond ASCII: enough to run the model on
    ASCII text, where the tables are never consulted. *)
Definition ascii_tables : UnicodeData :=
  {| unicode_lower := fun s => s; unicode_decimal := fun _ => None |}.

Definition is_ascii (c : char) : bool := (0 <=? c) && (c <? 128).

(** [str.isspace] per code point (Py_UNICODE_ISSPACE). *)
Definition is_space (c : char) : bool :=
  ((9 <=? c) && (c <=? 13)) || ((28 <=? c) && (c <=? 32))
  || (c =? 133) || (c =? 160) || (c =? 5760)
  || ((8192 <=? c) && (c <=? 8202))
  || (c =? 8232) || (c =? 8233) || (c =? 8239) || (c =? 8287)
  || (c =? 12288).

(** The line boundaries of [str.splitlines]. *)
Definition is_linebreak (c : char) : bool :=
  ((10 <=? c) && (c <=? 13)) || ((28 <=? c) && (c <=? 30))
  || (c =? 133) || (c =? 8232) || (c =? 8233).

Definition CR : char := 13.
Definition LF : char := 10.

Section Builtins.

Variable ucd : UnicodeData.

Definition ascii_lower (c : char) : char :=
  if (65 <=? c) && (c <=? 90) then c + 32 else c.

(** [str.lower]. *)
Definition lower (s : str) : str :=
  if forallb is_ascii s then map ascii_lower s else unicode_lower ucd s.

(** The digit value of a code point, [None] when it is no decimal
    digit: the class [\d] of [re] on [str] patterns, and the digits
    [int] accepts. *)
Definition digit_value (c : char) : option Z :=
  if is_ascii c then
    if (48 <=? c) && (c <=? 57) then Some (c - 48) else None
  else unicode_decimal ucd c.

Definition is_digit (c : char) : bool :=
  match digit_value c with Some _ => true | None => false end.

End Builtins.

(** [str.splitlines()]: a line ends at a line boundary, CR LF counts as
    one boundary, and a final boundary opens no further line. *)
Fixpoint splitlines (s : str) : list str :=
  match s with
  | [] => []
  | c :: s' =>
      if is_linebreak c then
        [] :: match s' with
              | d :: s'' =>
                  if (c =? CR) && (d =? LF) then splitlines s'' else splitlines s'
              | [] => []
              end
      else
        match splitlines s' with
        | [] => [[c]]
        | l :: ls => (c :: l) :: ls
        end
  end.

(** [str.lstrip()], [str.rstrip()], [str.strip()]. *)
Fixpoint lstrip (s : str) : str :=
  match s with
  | c :: s' => if is_space c then lstrip s' else s
  | [] => []
  end.

Definition rstrip (s : str) : str := rev (lstrip (rev s)).

Definition strip (s : str) : str := rstrip (lstrip s).

(** [str.split()] with no separator: the maximal runs of
    non-whitespace. *)
Fixpoint split (s : str) : list str :=
  match s with
  | [] => []
  | c :: s' =>
      if is_space c then split s'
      else
        match s' with
        | d :: _ =>
            if is_space d then [c] :: split s'
            else match split s' with
                 | t :: ts => (c :: t) :: ts
                 | [] => [[c]]
                 end
        | [] => [[c]]
        end
  end.

(** [s.split(sep, maxsplit=1)] for a one-character separator: one or
    two pieces. *)
Fixpoint split1 (sep : char) (s : str) : list str :=
  match s with
  | [] => [[]]
  | c :: s' =>
      if c =? sep then [[]; s']
      else match split1 sep s' with
           | [a] => [c :: a]
           | a :: rest => (c :: a) :: rest
           | [] => [[c]]
           end
  end.

(** [key, value = pieces]: unpacking into exactly two names. *)
Definition unpack2 {A} (l : list A) : result (A * A) :=
  match l with
  | [a; b] => Ok (a, b)
  | _ => Raise ValueError
  end.

(** [l[i]] on a list. *)
Definition getitem {A} (l : list A) (i : nat) : result A :=
  match nth_error l i with
  | Some a => Ok a
  | None => Raise IndexError
  end.

(** [sep.join(pieces)]. *)
Fixpoint join (sep : str) (pieces : list str) : str :=
  match pieces with
  | [] => []
  | [p] => p
  | p :: rest => p ++ sep ++ join sep rest
  end.

(** [s[n:]] for [0 <= n]. *)
Definition slice_from (n : Z) (s : str) : str := skipn (Z.to_nat n) s.

Definition len {A} (l : list A) : Z := Z.of_nat (List.length l).

(** ** UTF-8

    [bytes.decode()] and [str.encode()] with their defaults: UTF-8,
    errors="strict".  Overlong forms, surrogates and values above
    U+10FFFF are refused. *)

Definition is_cont (b : Z) : bool := (128 <=? b) && (b <=? 191).

Definition is_surrogate (c : char) : bool := (55296 <=? c) && (c <=? 57343).

Fixpoint decode (data : bytes) : result str :=
  match data with
  | [] => Ok []
  | b0 :: r0 =>
      if (0 <=? b0) && (b0 <? 128) then
        s <- decode r0 ;; Ok (b0 :: s)
      else if (194 <=? b0) && (b0 <=? 223) then
        match r0 with
        | b1 :: r1 =>
            if is_cont b1 then
              s <- decode r1 ;; Ok ((b0 - 192) * 64 + (b1 - 128) :: s)
            else Raise UnicodeDecodeError
        | _ => Raise UnicodeDecodeError
        end
      else if (224 <=? b0) && (b0 <=? 239) then
        match r0 with
        | b1 :: b2 :: r2 =>
            let c := (b0 - 224) * 4096 + (b1 - 128) * 64 + (b2 - 128) in
            if is_cont b1 && is_cont b2 && (2048 <=? c) && negb (is_surrogate c) then
              s <- decode r2 ;; Ok (c :: s)
            else Raise UnicodeDecodeError
        | _ => Raise UnicodeDecodeError
        end
      else if (240 <=? b0) && (b0 <=? 244) then
        match r0 with
        | b1 :: b2 :: b3 :: r3 =>
            let c := (b0 - 240) * 262144 + (b1 - 128) * 4096
                     + (b2 - 128) * 64 + (b3 - 128) in
            if is_cont b1 && is_cont b2 && is_cont b3
               && (65536 <=? c) && (c <=? 1114111) then
              s <- decode r3 ;; Ok (c :: s)
            else Raise UnicodeDecodeError
        | _ => Raise UnicodeDecodeError
        end
      else Raise UnicodeDecodeError
  end.

(** A [str] holds code points 0..0x10FFFF; a surrogate cannot be
    encoded. *)
Definition encode_char (c : char) : result bytes :=
  if (0 <=? c) && (c <? 128) then Ok [c]
  else if (128 <=? c) && (c <? 2048) then Ok [192 + c / 64; 128 + c mod 64]
  else if is_surrogate c then Raise UnicodeEncodeError
  else if (2048 <=? c) && (c <? 65536) then
    Ok [224 + c / 4096; 128 + (c / 64) mod 64; 128 + c mod 64]
  else if (65536 <=? c) && (c <=? 1114111) then
    Ok [240 + c / 262144; 128 + (c / 4096) mod 64;
        128 + (c / 64) mod 64; 128 + c mod 64]
  else Raise UnicodeEncodeError.

Fixpoint encode (s : str) : result bytes :=
  match s with
  | [] => Ok []
  | c :: s' => b <- encode_char c ;; r <- encode s' ;; Ok (b ++ r)
  end.

(** ** Integers and text *)

(** The interpreter's default [sys.int_max_str_digits]. *)
Definition int_max_str_digits : Z := 4300.

Fixpoint str_of_uint (u : Decimal.uint) : str :=
  match u with
  | Decimal.Nil => []
  | Decimal.D0 u => 48 :: str_of_uint u
  | Decimal.D1 u => 49 :: str_of_uint u
  | Decimal.D2 u => 50 :: str_of_uint u
  | Decimal.D3 u => 51 :: str_of_uint u
  | Decimal.D4 u => 52 :: str_of_uint u
  | Decimal.D5 u => 53 :: str_of_uint u
  | Decimal.D6 u => 54 :: str_of_uint u
  | Decimal.D7 u => 55 :: str_of_uint u
  | Decimal.D8 u => 56 :: str_of_uint u
  | Decimal.D9 u => 57 :: str_of_uint u
  end.

(** [str(n)] for an int, as an f-string field [{n}] renders it. *)
Definition str_of_int (n : Z) : str :=
  match Z.to_int n with
  | Decimal.Pos u => str_of_uint u
  | Decimal.Neg u => 45 :: str_of_uint u
  end.

(** [f"{n}"] for an int of any size: the conversion is refused beyond
    [int_max_str_digits] digits.  (A length, as [len(body)], is below
    the limit and is rendered with [str_of_int].) *)
Definition format_int (n : Z) : result str :=
  if 10 ^ int_max_str_digits <=? Z.abs n then Raise ValueError
  else Ok (str_of_int n).

Section Int.

Variable ucd : UnicodeData.

(** The digits of an integer literal: digits, single underscores only
    between digits.  Returns the value and the number of digits. *)
Fixpoint int_digits (s : str) (acc n : Z) (after_digit : bool) : option (Z * Z) :=
  match s with
  | [] => if after_digit then Some (acc, n) else None
  | c :: s' =>
      if c =? 95 then
        if after_digit then int_digits s' acc n false else None
      else
        match digit_value ucd c with
        | Some d => int_digits s' (acc * 10 + d) (n + 1) true
        | None => None
        end
  end.

(** [int(s)] for a token [s] of [str.split()]; such a token holds no
    whitespace, so the blanks [int] would skip at either end do not
    occur. *)
Definition int_of_str (s : str) : result Z :=
  let '(sign, digits) :=
    match s with
    | 43 :: r => (1, r)
    | 45 :: r => (-1, r)
    | _ => (1, s)
    end in
  match int_digits digits 0 0 false with
  | Some (v, n) =>
      if int_max_str_digits <? n then Raise ValueError else Ok (sign * v)
  | None => Raise ValueError
  end.

End Int.

(** ** Module constants *)

Definition SIP_PORT : Z := 5060.
Definition _CRLF : str := [CR; LF].
Definition _SDP_USERNAME : str := py "homeassistant".
(** ["".join(str(ord(c)) for c in "hass")] *)
Definition _SDP_ID : str := List.concat (map str_of_int (py "hass")).
Definition _OPUS_PAYLOAD : str := py "123".

(** ** The pattern [_SIP_IP]

    [^<sip:(\d{1,3}\.\d{1,3}\.\d{1,3}\.\d{1,3}):\d+>(;.+)?$], applied
    with [match]; the result is group 1. *)

Section SipIp.

Variable ucd : UnicodeData.

Fixpoint span_digits (s : str) : str * str :=
  match s with
  | c :: s' =>
      if is_digit ucd c then
        let '(d, r) := span_digits s' in (c :: d, r)
      else ([], s)
  | [] => ([], [])
  end.

(** [\d{lo,hi}] followed by the literal [next], which is no digit: the
    run of digits at the head is what the greedy repetition takes, and
    no shorter choice can succeed. *)
Definition re_digits_then (lo hi : Z) (next : char) (s : str) : option (str * str) :=
  let '(d, r) := span_digits s in
  match r with
  | c :: r' =>
      if (c =? next) && (lo <=? len d) && (len d <=? hi) then Some (d, r')
      else None
  | [] => None
  end.

Fixpoint strip_prefix (p s : str) : option str :=
  match p, s with
  | [], _ => Some s
  | x :: p', y :: s' => if x =? y then strip_prefix p' s' else None
  | _ :: _, [] => None
  end.

(** [$]: the end of the string, or just before a final newline. *)
Definition re_eol (s : str) : bool :=
  match s with
  | [] => true
  | [c] => c =? LF
  | _ => false
  end.

(** [.*$]: [.] is any character but the newline. *)
Fixpoint re_dots_eol (s : str) : bool :=
  match s with
  | [] => true
  | c :: s' => if c =? LF then re_eol s else re_dots_eol s'
  end.

(** [(;.+)?$] *)
Definition re_params_eol (s : str) : bool :=
  match s with
  | 59 :: c :: s' => negb (c =? LF) && re_dots_eol s'
  | _ => re_eol s
  end.

Definition _SIP_IP_match (s : str) : option str :=
  match strip_prefix (py "<sip:") s with
  | None => None
  | Some r0 =>
  match re_digits_then 1 3 46 r0 with
  | None => None
  | Some (o1, r1) =>
  match re_digits_then 1 3 46 r1 with
  | None => None
  | Some (o2, r2) =>
  match re_digits_then 1 3 46 r2 with
  | None => None
  | Some (o3, r3) =>
  match re_digits_then 1 3 58 r3 with
  | None => None
  | Some (o4, r4) =>
  match re_digits_then 1 (len r4) 62 r4 with
  | None => None
  | Some (_, r5) =>
      if re_params_eol r5
      then Some (o1 ++ [46] ++ o2 ++ [46] ++ o3 ++ [46] ++ o4)
      else None
  end end end end end end.

End SipIp.

(** ** Dictionaries

    A [dict[str, str]]: assigning to a key that is present replaces its
    value in place, assigning to a new key appends. *)

Definition dict := list (str * str).

Fixpoint dict_set (k v : str) (d : dict) : dict :=
  match d with
  | [] => [(k, v)]
  | (k', v') :: d' =>
      if str_eqb k' k then (k', v) :: d' else (k', v') :: dict_set k v d'
  end.

Fixpoint dict_get (k : str) (d : dict) : option str :=
  match d with
  | [] => None
  | (k', v') :: d' => if str_eqb k' k then Some v' else dict_get k d'
  end.

(** [d[k]] *)
Definition dict_getitem (d : dict) (k : str) : result str :=
  match dict_get k d with
  | Some v => Ok v
  | None => Raise (KeyError k)
  end.

Definition keys (d : dict) : list str := map fst d.

(** ** The protocol object and what it produces *)

Record CallInfo : Type := {
  caller_ip : str;
  caller_sip_port : Z;
  caller_rtp_port : Z;
  server_ip : str;
  headers : dict
}.

(** A peer address as the event loop hands it over: [(host, port)]. *)
Definition address : Type := str * Z.

(** The datagram transport, by what was handed to [sendto]. *)
Record Transport : Type := {
  sent : list (bytes * address)
}.

Definition sendto (t : Transport) (data : bytes) (addr : address) : Transport :=
  {| sent := sent t ++ [(data, addr)] |}.

(** [self]; the [hass] handle is stored and never read. *)
Record SIPDatagramProtocol : Type := {
  transport : option Transport
}.

Definition __init__ : SIPDatagramProtocol := {| transport := None |}.

Definition connection_made (self : SIPDatagramProtocol) (t : Transport)
  : SIPDatagramProtocol :=
  {| transport := Some t |}.

(** What an invocation of [datagram_received] does that can be seen
    from outside. *)
Inductive event : Type :=
| LogDebugIncoming (ip : str) (port : Z)
| LogDebugServerIp (ip : str)
| LogException (e : exn)
| OnCall (call_info : CallInfo).

(** A computation that emits events and then returns or raises. *)
Definition M (A : Type) : Type := result A * list event.

Definition ret {A} (a : A) : M A := (Ok a, []).

Definition lift {A} (r : result A) : M A := (r, []).

Definition emit (ev : event) : M unit := (Ok tt, [ev]).

Definition mbind {A B} (m : M A) (f : A -> M B) : M B :=
  match m with
  | (Ok a, es) => let '(r, es') := f a in (r, es ++ es')
  | (Raise e, es) => (Raise e, es)
  end.

(** [try: m  except Exception: h] *)
Definition try_except {A} (m : M A) (h : exn -> M A) : M A :=
  match m with
  | (Ok a, es) => (Ok a, es)
  | (Raise e, es) => let '(r, es') := h e in (r, es ++ es')
  end.

Declare Scope M_scope.
Delimit Scope M_scope with M.
Notation "x <- m ;; k" := (mbind m (fun x => k))
  (at level 61, m at next level, right associativity) : M_scope.
Notation "' p <- m ;; k" := (mbind m (fun x => let p := x in k))
  (at level 61, p pattern, m at next level, right associativity) : M_scope.

(** The invitations handed to [on_call], in order. *)
Fixpoint calls (es : list event) : list CallInfo :=
  match es with
  | [] => []
  | OnCall ci :: es' => ci :: calls es'
  | _ :: es' => calls es'
  end.

(** Truth value of a [str | None]. *)
Definition truthy (s : option str) : bool :=
  match s with
  | Some (_ :: _) => true
  | _ => false
  end.

Definition nonempty (s : str) : bool :=
  match s with
  | [] => false
  | _ :: _ => true
  end.

Section Protocol.

Variable ucd : UnicodeData.

(** *** [_parse_sip] *)

(** The loop [for i, line in enumerate(lines)], from index [i] on. *)
Fixpoint _parse_sip_loop (i : nat) (lines : list str)
    (method : option str) (headers : dict) (offset : Z)
  : result (option str * dict * Z) :=
  match lines with
  | [] => Ok (method, headers, offset)
  | line :: rest =>
      let offset :=
        if nonempty line then offset + len line + len _CRLF else offset in
      if (i =? 0)%nat then
        method <- getitem (split line) 0 ;;
        _parse_sip_loop (S i) rest (Some method) headers offset
      else if negb (nonempty line) then
        Ok (method, headers, offset)
      else
        '(key, value) <- unpack2 (split1 58 line) ;;
        _parse_sip_loop (S i) rest method
          (dict_set (lower ucd key) (strip value) headers) offset
  end.

Definition _parse_sip (message : str) : result (option str * dict * str) :=
  let lines := splitlines message in
  '(method, headers, offset) <- _parse_sip_loop 0 lines None [] 0 ;;
  let body := slice_from offset message in
  Ok (method, headers, body).

(** *** [datagram_received] *)

(** One round of [for line in body_lines]. *)
Definition scan_line (line : str) (caller_rtp_port : option Z)
  : result (option Z) :=
  let line := strip line in
  if nonempty line then
    '(key, value) <- unpack2 (split1 61 line) ;;
    if str_eqb key (py "m") then
      let parts := split value in
      p0 <- getitem parts 0 ;;
      if str_eqb p0 (py "audio") then
        p1 <- getitem parts 1 ;;
        port <- int_of_str ucd p1 ;;
        Ok (Some port)
      else Ok caller_rtp_port
    else Ok caller_rtp_port
  else Ok caller_rtp_port.

Fixpoint scan_body (body_lines : list str) (caller_rtp_port : option Z)
  : result (option Z) :=
  match body_lines with
  | [] => Ok caller_rtp_port
  | line :: rest =>
      caller_rtp_port <- scan_line line caller_rtp_port ;;
      scan_body rest caller_rtp_port
  end.

(** [assert x is not None] *)
Definition assert_some {A} (x : option A) : result A :=
  match x with
  | Some a => Ok a
  | None => Raise AssertionError
  end.

(** The base class's [on_call] does nothing; the invocation is
    recorded. *)
Definition on_call (call_info : CallInfo) : M unit := emit (OnCall call_info).

(** The body of the [try]. *)
Definition datagram_received_try (data : bytes) (addr : address) : M unit :=
  (message <- lift (decode data) ;;
   '(method, headers, body) <- lift (_parse_sip message) ;;
   if truthy method
      && negb (str_eqb (lower ucd (match method with Some m => m | None => [] end))
                       (py "invite"))
   then ret tt
   else
     let '(caller_ip, caller_sip_port) := addr in
     _ <- emit (LogDebugIncoming caller_ip caller_sip_port) ;;
     let body_lines := splitlines body in
     caller_rtp_port <- lift (scan_body body_lines None) ;;
     caller_rtp_port <- lift (assert_some caller_rtp_port) ;;
     to <- lift (dict_getitem headers (py "to")) ;;
     server_ip <- lift (assert_some (_SIP_IP_match ucd to)) ;;
     _ <- emit (LogDebugServerIp server_ip) ;;
     on_call {| caller_ip := caller_ip;
                caller_sip_port := caller_sip_port;
                caller_rtp_port := caller_rtp_port;
                server_ip := server_ip;
                headers := headers |})%M.

Definition datagram_received (data : bytes) (addr : address) : M unit :=
  try_except (datagram_received_try data addr)
             (fun e => emit (LogException e)).

End Protocol.

(** *** [answer] *)

Definition body_lines (server_ip port : str) : list str :=
  [ py "v=0";
    py "o=" ++ _SDP_USERNAME ++ py " " ++ _SDP_ID ++ py " 1 IN IP4 " ++ server_ip;
    py "s=" ++ _SDP_USERNAME ++ py " 1.0";
    py "c=IN IP4 " ++ server_ip;
    py "t=0 0";
    py "m=audio " ++ port ++ py " RTP/AVP " ++ _OPUS_PAYLOAD;
    py "a=rtpmap:" ++ _OPUS_PAYLOAD ++ py " opus/48000/2";
    py "a=ptime:20";
    py "a=maxptime:150";
    py "a=sendrecv";
    _CRLF ].

Definition answer_body (server_ip : str) (server_rtp_port : Z) : result str :=
  port <- format_int server_rtp_port ;;
  Ok (join _CRLF (body_lines server_ip port)).

(** The dict literal [response_headers], with each value as the
    f-string [f"{key}: {value}"] renders it. *)
Definition response_headers (headers : dict) (body : str) : result dict :=
  via <- dict_getitem headers (py "via") ;;
  from <- dict_getitem headers (py "from") ;;
  to <- dict_getitem headers (py "to") ;;
  call_id <- dict_getitem headers (py "call-id") ;;
  cseq <- dict_getitem headers (py "cseq") ;;
  contact <- dict_getitem headers (py "contact") ;;
  Ok [ (py "Via", via);
       (py "From", from);
       (py "To", to);
       (py "Call-ID", call_id);
       (py "Content-Type", py "application/sdp");
       (py "Content-Length", str_of_int (len body));
       (py "CSeq", cseq);
       (py "Contact", contact);
       (py "User-Agent", _SDP_USERNAME ++ py " 1.0");
       (py "Allow", py "INVITE, ACK, BYE, CANCEL, OPTIONS") ].

(** [f"{key}: {value}"] *)
Definition format_header '((key, value) : str * str) : str :=
  key ++ py ": " ++ value.

Definition response_lines (response_headers : dict) : list str :=
  [py "SIP/2.0 200 OK"] ++ map format_header response_headers ++ [_CRLF].

Definition response_str (response_headers : dict) (body : str) : str :=
  join _CRLF (response_lines response_headers) ++ body.

(** The datagram [answer] hands to the transport. *)
Definition response_bytes (headers : dict) (server_ip : str)
    (server_rtp_port : Z) : result bytes :=
  body <- answer_body server_ip server_rtp_port ;;
  hs <- response_headers headers body ;;
  encode (response_str hs body).

Definition answer (self : SIPDatagramProtocol) (headers : dict)
    (caller_ip : str) (caller_sip_port : Z)
    (server_ip : str) (server_rtp_port : Z)
  : result unit * SIPDatagramProtocol :=
  match transport self with
  | None => (Raise AssertionError, self)
  | Some t =>
      match response_bytes headers server_ip server_rtp_port with
      | Ok data =>
          (Ok tt,
           {| transport := Some (sendto t data (caller_ip, caller_sip_port)) |})
      | Raise e => (Raise e, self)
      end
  end.

(** * Vocabulary of the statements

    Notions the properties below are stated with; none of them is part
    of the program. *)

(** What [datagram_received] hands to [on_call], read off the pure
    steps of the receive path. *)
Definition invitation (ucd : UnicodeData) (data : bytes) (addr : address)
  : list CallInfo :=
  match decode data with
  | Raise _ => []
  | Ok message =>
      match _parse_sip ucd message with
      | Raise _ => []
      | Ok (method, headers, body) =>
          if truthy method
             && negb (str_eqb (lower ucd (match method with Some m => m | None => [] end))
                              (py "invite"))
          then []
          else
            match scan_body ucd (splitlines body) None with
            | Ok (Some rtp) =>
                match dict_get (py "to") headers with
                | Some to =>
                    match _SIP_IP_match ucd to with
                    | Some ip =>
                        [ {| caller_ip := fst addr;
                             caller_sip_port := snd addr;
                             caller_rtp_port := rtp;
                             server_ip := ip;
                             headers := headers |} ]
                    | None => []
                    end
                | None => []
                end
            | _ => []
            end
      end
  end.

(** The codec's [Parse] on a datagram: decode, then [_parse_sip]. *)
Definition parse_datagram (ucd : UnicodeData) (data : bytes)
  : result (option str * dict * str) :=
  message <- decode data ;; _parse_sip ucd message.

Definition no_linebreak (l : str) : Prop :=
  forallb (fun c => negb (is_linebreak c)) l = true.

(** Lines of text, each followed by CR LF. *)
Definition crlf_lines (lines : list str) : str :=
  List.concat (map (fun l => l ++ _CRLF) lines).

(** The lines [_parse_sip] reads as headers: those after the first
    line, up to the first empty one. *)
Fixpoint take_nonempty (lines : list str) : list str :=
  match lines with
  | l :: rest => if nonempty l then l :: take_nonempty rest else []
  | [] => []
  end.

Definition header_lines (message : str) : list str :=
  take_nonempty (tl (splitlines message)).

(** [line] reads [name:raw], the name ending at the first colon; [key]
    is the name in lower case and [value] is [raw] trimmed. *)
Definition header_line (ucd : UnicodeData) (line key value : str) : Prop :=
  exists name raw,
    line = name ++ 58 :: raw /\ ~ In 58 name
    /\ key = lower ucd name /\ value = strip raw.

(** [value] is what the last header line named [key] gives. *)
Definition last_header (ucd : UnicodeData) (hlines : list str) (key value : str)
  : Prop :=
  exists before line after,
    hlines = before ++ line :: after
    /\ header_line ucd line key value
    /\ forall l v, In l after -> ~ header_line ucd l key v.

(** The header a line contributes, as a function. *)
Definition header_of (ucd : UnicodeData) (line : str) : option (str * str) :=
  match split1 58 line with
  | [name; raw] => Some (lower ucd name, strip raw)
  | _ => None
  end.

Fixpoint last_of (ucd : UnicodeData) (hlines : list str) (key : str)
    (dflt : option str) : option str :=
  match hlines with
  | [] => dflt
  | l :: rest =>
      last_of ucd rest key
        match header_of ucd l with
        | Some (k, v) => if str_eqb k key then Some v else dflt
        | None => dflt
        end
  end.

Definition parsed_headers (r : result (option str * dict * str)) : option dict :=
  match r with
  | Ok (_, headers, _) => Some headers
  | Raise _ => None
  end.

(** A stripped body line is an audio media line: its key is [m] and the
    first token of its value is [audio]. *)
Definition is_audio_media (line : str) : bool :=
  match split1 61 line with
  | [key; value] =>
      str_eqb key (py "m")
      && match split value with
         | p0 :: _ => str_eqb p0 (py "audio")
         | [] => false
         end
  | _ => false
  end.

(** The second token of the value of a [key=value] line. *)
Definition media_port_token (line : str) : option str :=
  match split1 61 line with
  | [_; value] => nth_error (split value) 1
  | _ => None
  end.

(** A stripped body line the scan gets past: it is empty, or it reads
    [key=value]; the value of an [m] line has a first token, and when
    that token is [audio] a second one that [int] accepts. *)
Definition well_formed_line (ucd : UnicodeData) (line : str) : bool :=
  match line with
  | [] => true
  | _ :: _ =>
      match split1 61 line with
      | [key; value] =>
          if str_eqb key (py "m") then
            match split value with
            | [] => false
            | p0 :: ps =>
                if str_eqb p0 (py "audio") then
                  match ps with
                  | p1 :: _ =>
                      match int_of_str ucd p1 with
                      | Ok _ => true
                      | Raise _ => false
                      end
                  | [] => false
                  end
                else true
            end
          else true
      | _ => false
      end
  end.

(** The method is [invite] in any letter case, or absent. *)
Definition is_invite (ucd : UnicodeData) (method : option str) : Prop :=
  match method with
  | None => True
  | Some m => lower ucd m = py "invite"
  end.

(** The characters of a rendered int. *)
Definition is_int_char (c : char) : bool :=
  (c =? 45) || ((48 <=? c) && (c <=? 57)).

(** A header value as [_parse_sip] yields it: trimmed, and free of
    line boundaries. *)
Definition header_value (v : str) : Prop := strip v = v /\ no_linebreak v.

Definition starts_clean (s : str) : Prop :=
  match s with
  | [] => True
  | c :: _ => is_space c = false
  end.

(** A Unicode scalar value: a code point that is no surrogate. *)
Definition is_scalar (c : char) : bool :=
  (0 <=? c) && (c <=? 1114111) && negb (is_surrogate c).

(** One to three decimal digits. *)
Definition is_octet (ucd : UnicodeData) (o : str) : Prop :=
  forallb (is_digit ucd) o = true /\ 1 <= len o <= 3.

(** Lines of text, each followed by a bare LF. *)
Definition lf_lines (lines : list str) : str :=
  List.concat (map (fun l => l ++ [LF]) lines).

(** The value of a run of decimal digits read after [acc]. *)
Fixpoint uint_val (u : Decimal.uint) (acc : Z) : Z :=
  match u with
  | Decimal.Nil => acc
  | Decimal.D0 u => uint_val u (acc * 10)
  | Decimal.D1 u => uint_val u (acc * 10 + 1)
  | Decimal.D2 u => uint_val u (acc * 10 + 2)
  | Decimal.D3 u => uint_val u (acc * 10 + 3)
  | Decimal.D4 u => uint_val u (acc * 10 + 4)
  | Decimal.D5 u => uint_val u (acc * 10 + 5)
  | Decimal.D6 u => uint_val u (acc * 10 + 6)
  | Decimal.D7 u => uint_val u (acc * 10 + 7)
  | Decimal.D8 u => uint_val u (acc * 10 + 8)
  | Decimal.D9 u => uint_val u (acc * 10 + 9)
  end.

(** The headers [answer] reads, in the order it reads them. *)
Definition required_headers : list str :=
  [py "via"; py "from"; py "to"; py "call-id"; py "cseq"; py "contact"].

(** The first of them that the mapping lacks. *)
Definition first_missing_header (headers : dict) : option str :=
  find (fun k => match dict_get k headers with
                 | None => true
                 | Some _ => false
                 end) required_headers.

(** * Sample messages *)

Definition invite_example : str :=
  py "INVITE sip:user@192.0.2.10 SIP/2.0" ++ _CRLF
  ++ py "Via: SIP/2.0/UDP 192.0.2.20:5060" ++ _CRLF
  ++ py "To: <sip:192.0.2.10:5060>;tag=abc" ++ _CRLF
  ++ _CRLF
  ++ py "v=0" ++ _CRLF
  ++ py "m=audio 49170 RTP/AVP 0" ++ _CRLF.

Definition datagram_with_bad_body_line : bytes :=
  py "INVITE sip:user@192.0.2.10 SIP/2.0" ++ _CRLF
  ++ py "To: <sip:192.0.2.10:5060>;tag=abc" ++ _CRLF
  ++ _CRLF
  ++ py "m=audio 49170 RTP/AVP 0" ++ _CRLF
  ++ py "garbage" ++ _CRLF.

Definition headers_example : dict :=
  [ (py "via", py "SIP/2.0/UDP 192.0.2.20:5060");
    (py "from", py "<sip:caller@192.0.2.20>;tag=1");
    (py "to", py "<sip:192.0.2.10:5060>;tag=abc");
    (py "call-id", py "a84b4c76e66710");
    (py "cseq", py "1 INVITE");
    (py "contact", py "<sip:caller@192.0.2.20:5060>") ].

Definition response_example : str :=
  py "SIP/2.0 200 OK" ++ _CRLF ++ py "Via: x" ++ _CRLF ++ _CRLF.

Definition message_with_body : str :=
  py "INVITE sip:a SIP/2.0" ++ _CRLF ++ py "To: b" ++ _CRLF
  ++ _CRLF ++ py "body".

Definition upper_via_example : str :=
  py "INVITE sip:a SIP/2.0" ++ _CRLF ++ py "VIA: foo" ++ _CRLF ++ _CRLF.

Definition lower_via_example : str :=
  py "INVITE sip:a SIP/2.0" ++ _CRLF ++ py "via: foo" ++ _CRLF ++ _CRLF.

Definition duplicate_via_example : str :=
  py "INVITE sip:a SIP/2.0" ++ _CRLF
  ++ py "Via: one" ++ _CRLF
  ++ py "To: b" ++ _CRLF
  ++ py "VIA:  two " ++ _CRLF
  ++ _CRLF.

Definition to_header_example : str := py "<sip:192.0.2.10:5060>;tag=abc".

Definition datagram_two_media_lines : bytes :=
  py "INVITE sip:user@192.0.2.10 SIP/2.0" ++ _CRLF
  ++ py "To: <sip:192.0.2.10:5060>;tag=abc" ++ _CRLF
  ++ _CRLF
  ++ py "m=audio 49170 RTP/AVP 0" ++ _CRLF
  ++ py "m=audio 5004 RTP/AVP 0" ++ _CRLF.

Definition call_two_media_lines : CallInfo :=
  {| caller_ip := py "192.0.2.20";
     caller_sip_port := 5060;
     caller_rtp_port := 5004;
     server_ip := py "192.0.2.10";
     headers := [(py "to", to_header_example)] |}.

Definition bound_protocol : SIPDatagramProtocol :=
  connection_made __init__ {| sent := [] |}.

Definition answered_protocol : SIPDatagramProtocol :=
  snd (answer bound_protocol headers_example (py "192.0.2.20") 5060
         (py "192.0.2.10") 5004).

(** The address 1.2.3.4 written with the digits U+0661..U+0664. *)
Definition arabic_indic_address : str := [1633; 46; 1634; 46; 1635; 46; 1636].

(** Tables that know, beyond ASCII, the decimal digits U+0660..U+0669
    (ARABIC-INDIC DIGIT ZERO to NINE, category Nd), with the values the
    Unicode database gives them. *)
Definition arabic_indic_tables : UnicodeData :=
  {| unicode_lower := fun s => s;
     unicode_decimal := fun c =>
       if (1632 <=? c) && (c <=? 1641) then Some (c - 1632) else None |}.

(** An invitation whose [To] header writes the address with those
    digits, as the bytes on the wire: U+0661 is D9 A1 in UTF-8, and so
    on. *)
Definition invite_to_arabic_indic : bytes :=
  py "INVITE sip:user@example.com SIP/2.0" ++ _CRLF
  ++ py "Via: SIP/2.0/UDP 192.0.2.20:5060" ++ _CRLF
  ++ py "From: <sip:caller@192.0.2.20>;tag=1" ++ _CRLF
  ++ py "To: <sip:"
  ++ [217; 161; 46; 217; 162; 46; 217; 163; 46; 217; 164]
  ++ py ":5060>" ++ _CRLF
  ++ py "Call-ID: a84b4c76e66710" ++ _CRLF
  ++ py "CSeq: 1 INVITE" ++ _CRLF
  ++ py "Contact: <sip:caller@192.0.2.20:5060>" ++ _CRLF
  ++ _CRLF
  ++ py "v=0" ++ _CRLF
  ++ py "m=audio 49170 RTP/AVP 0" ++ _CRLF.

Definition call_to_arabic_indic : CallInfo :=
  {| caller_ip := py "192.0.2.20";
     caller_sip_port := 5060;
     caller_rtp_port := 49170;
     server_ip := arabic_indic_address;
     headers :=
       [ (py "via", py "SIP/2.0/UDP 192.0.2.20:5060");
         (py "from", py "<sip:caller@192.0.2.20>;tag=1");
         (py "to", py "<sip:" ++ arabic_indic_address ++ py ":5060>");
         (py "call-id", py "a84b4c76e66710");
         (py "cseq", py "1 INVITE");
         (py "contact", py "<sip:caller@192.0.2.20:5060>") ] |}.

Definition bye_example : bytes :=
  py "BYE sip:user@192.0.2.10 SIP/2.0" ++ _CRLF
  ++ py "To: <sip:192.0.2.10:5060>;tag=abc" ++ _CRLF
  ++ _CRLF
  ++ py "m=audio 49170 RTP/AVP 0" ++ _CRLF.

Definition invite_without_media : bytes :=
  py "INVITE sip:user@192.0.2.10 SIP/2.0" ++ _CRLF
  ++ py "To: <sip:192.0.2.10:5060>;tag=abc" ++ _CRLF
  ++ _CRLF
  ++ py "v=0" ++ _CRLF
  ++ py "m=video 49170 RTP/AVP 0" ++ _CRLF.

Definition datagram_with_bad_port : bytes :=
  py "INVITE sip:user@192.0.2.10 SIP/2.0" ++ _CRLF
  ++ py "To: <sip:192.0.2.10:5060>;tag=abc" ++ _CRLF
  ++ _CRLF
  ++ py "m=audio 49170 RTP/AVP 0" ++ _CRLF
  ++ py "m=audio 4917O RTP/AVP 0" ++ _CRLF
  ++ py "m=audio 5004 RTP/AVP 0" ++ _CRLF.

Definition invite_with_port_out_of_range : bytes :=
  py "invite sip:user@192.0.2.10 SIP/2.0" ++ _CRLF
  ++ py "To: <sip:999.0.2.10:5060>" ++ _CRLF
  ++ _CRLF
  ++ py "v=0" ++ _CRLF
  ++ py "m=audio 5004 RTP/AVP 0" ++ _CRLF
  ++ py "m=audio -70000 RTP/AVP 0" ++ _CRLF
  ++ py "a=sendrecv" ++ _CRLF.

Definition invite_to_host_name : bytes :=
  py "INVITE sip:user@example.com SIP/2.0" ++ _CRLF
  ++ py "To: <sip:user@example.com>" ++ _CRLF
  ++ _CRLF
  ++ py "m=audio 49170 RTP/AVP 0" ++ _CRLF.

Definition invite_without_to : bytes :=
  py "INVITE sip:user@example.com SIP/2.0" ++ _CRLF
  ++ py "To : <sip:192.0.2.10:5060>" ++ _CRLF
  ++ _CRLF
  ++ py "m=audio 49170 RTP/AVP 0" ++ _CRLF.

Definition message_without_blank_line : str :=
  py "INVITE sip:a SIP/2.0" ++ [LF] ++ py "To: b" ++ _CRLF ++ py "Via: c".

Definition headers_without_call_id : dict :=
  [ (py "via", py "SIP/2.0/UDP 192.0.2.20:5060");
    (py "from", py "<sip:caller@192.0.2.20>;tag=1");
    (py "to", py "<sip:192.0.2.10:5060>;tag=abc");
    (py "contact", py "<sip:caller@192.0.2.20:5060>") ].

Definition response_to_arabic_indic : bytes :=
  match response_bytes headers_example arabic_indic_address 5004 with
  | Ok data => data
  | Raise _ => []
  end.

Definition invite_with_dialog_headers : bytes :=
  py "INVITE sip:user@192.0.2.10 SIP/2.0" ++ _CRLF
  ++ py "Via: SIP/2.0/UDP 192.0.2.20:5060;branch=z9hG4bK776" ++ _CRLF
  ++ py "From: <sip:caller@192.0.2.20>;tag=1928301774" ++ _CRLF
  ++ py "To: <sip:192.0.2.10:5060>" ++ _CRLF
  ++ py "Call-ID: a84b4c76e66710@192.0.2.20" ++ _CRLF
  ++ py "CSeq: 314159 INVITE" ++ _CRLF
  ++ py "Contact: <sip:caller@192.0.2.20:5060>" ++ _CRLF
  ++ _CRLF
  ++ py "v=0" ++ _CRLF
  ++ py "m=audio 49170 RTP/AVP 0" ++ _CRLF.

Definition dialog_headers : dict :=
  [ (py "via", py "SIP/2.0/UDP 192.0.2.20:5060;branch=z9hG4bK776");
    (py "from", py "<sip:caller@192.0.2.20>;tag=1928301774");
    (py "to", py "<sip:192.0.2.10:5060>");
    (py "call-id", py "a84b4c76e66710@192.0.2.20");
    (py "cseq", py "314159 INVITE");
    (py "contact", py "<sip:caller@192.0.2.20:5060>") ].

(** * Properties *)

(** ** The built-ins on sample inputs *)

Example splitlines_ex :
  splitlines (py "a" ++ [CR; LF; CR; LF] ++ py "b" ++ [LF]) = [py "a"; []; py "b"]
  /\ splitlines [LF; CR] = [[]; []] /\ splitlines [CR; LF] = [[]].
Proof. repeat split; reflexivity. Qed.

Example split_ex :
  split (py " a" ++ [28] ++ py "b c ") = [py "a"; py "b"; py "c"]
  /\ split1 61 (py "a=b=c") = [py "a"; py "b=c"]
  /\ split1 61 (py "a") = [py "a"] /\ split1 61 (py "=") = [[]; []].
Proof. repeat split; reflexivity. Qed.

Example sip_ip_ex :
  _SIP_IP_match ascii_tables (py "<sip:192.0.2.10:5060>;tag=abc") = Some (py "192.0.2.10")
  /\ _SIP_IP_match ascii_tables (py "<sip:1.2.3.4:5>") = Some (py "1.2.3.4")
  /\ _SIP_IP_match ascii_tables (py "<sip:1.2.3.4:5>;") = None
  /\ _SIP_IP_match ascii_tables (py "<sip:1234.2.3.4:5>") = None
  /\ _SIP_IP_match ascii_tables (py "<sip:1.2.3.4:5>x") = None
  /\ _SIP_IP_match ascii_tables (py "<sip:1.2.3.4:5>;a" ++ [LF]) = Some (py "1.2.3.4")
  /\ _SIP_IP_match ascii_tables (py "<sip:1.2.3.4:5>;a" ++ [LF; LF]) = None
  /\ _SIP_IP_match ascii_tables (py "<sip:1.2.3.4:5>;a" ++ [LF] ++ py "b") = None
  /\ _SIP_IP_match ascii_tables (py "<sip:1.2.3.4:5>;" ++ [LF]) = None.
Proof. repeat split; reflexivity. Qed.

Example int_ex :
  int_of_str ascii_tables (py "49170") = Ok 49170
  /\ int_of_str ascii_tables (py "-5") = Ok (-5)
  /\ int_of_str ascii_tables (py "1_0") = Ok 10
  /\ int_of_str ascii_tables (py "1__0") = Raise ValueError
  /\ int_of_str ascii_tables (py "_1") = Raise ValueError
  /\ int_of_str ascii_tables (py "1_") = Raise ValueError
  /\ int_of_str ascii_tables (py "+") = Raise ValueError
  /\ int_of_str ascii_tables (py "") = Raise ValueError
  /\ _SDP_ID = py "10497115115"
  /\ str_of_int 0 = py "0" /\ str_of_int (-12) = py "-12".
Proof. repeat split; reflexivity. Qed.

Example utf8_ex :
  decode [192; 128] = Raise UnicodeDecodeError
  /\ decode [237; 160; 128] = Raise UnicodeDecodeError
  /\ decode [244; 144; 128; 128] = Raise UnicodeDecodeError
  /\ decode [255] = Raise UnicodeDecodeError
  /\ decode [226; 130] = Raise UnicodeDecodeError
  /\ decode [194; 128] = Ok [128]
  /\ decode [226; 130; 172] = Ok [8364]
  /\ encode [8364; 1633; 128512] = Ok [226; 130; 172; 217; 161; 240; 159; 152; 128]
  /\ decode [226; 130; 172; 217; 161; 240; 159; 152; 128] = Ok [8364; 1633; 128512]
  /\ encode [55296] = Raise UnicodeEncodeError.
Proof. repeat split; reflexivity. Qed.

Example parse_ex :
  _parse_sip ascii_tables invite_example
  = Ok (Some (py "INVITE"),
        [(py "via", py "SIP/2.0/UDP 192.0.2.20:5060");
         (py "to", py "<sip:192.0.2.10:5060>;tag=abc")],
        _CRLF ++ py "v=0" ++ _CRLF ++ py "m=audio 49170 RTP/AVP 0" ++ _CRLF).
Proof. reflexivity. Qed.

Example received_ex :
  datagram_received ascii_tables invite_example (py "192.0.2.20", 5060)
  = (Ok tt,
     [LogDebugIncoming (py "192.0.2.20") 5060;
      LogDebugServerIp (py "192.0.2.10");
      OnCall {| caller_ip := py "192.0.2.20"; caller_sip_port := 5060;
                caller_rtp_port := 49170; server_ip := py "192.0.2.10";
                headers := [(py "via", py "SIP/2.0/UDP 192.0.2.20:5060");
                            (py "to", py "<sip:192.0.2.10:5060>;tag=abc")] |}]).
Proof. reflexivity. Qed.

(** ** Basic facts about the modelled built-ins *)

Lemma str_eqb_eq (a b : str) : str_eqb a b = true <-> a = b.
Proof.
  revert b; induction a as [|x a IH]; intros [|y b]; simpl; split;
    try congruence; try discriminate.
  - intros H. apply andb_true_iff in H as [Hx Hab].
    apply Z.eqb_eq in Hx. apply IH in Hab. congruence.
  - intros H. injection H as -> ->. rewrite Z.eqb_refl. simpl. now apply IH.
Qed.

Lemma str_eqb_refl (a : str) : str_eqb a a = true.
Proof. now apply str_eqb_eq. Qed.

Lemma str_eqb_neq (a b : str) : str_eqb a b = false <-> a <> b.
Proof.
  split.
  - intros H E. apply str_eqb_eq in E. congruence.
  - intros H. destruct (str_eqb a b) eqn:E; [|reflexivity].
    apply str_eqb_eq in E. contradiction.
Qed.

Lemma datagram_received_calls (ucd : UnicodeData) (data : bytes) (addr : address) :
  calls (snd (datagram_received ucd data addr)) = invitation ucd data addr.
Proof.
  unfold datagram_received, datagram_received_try, invitation, try_except.
  destruct addr as [ip port].
  destruct (decode data) as [message|e]; simpl; [|reflexivity].
  destruct (_parse_sip ucd message) as [[[method headers] body]|e]; simpl;
    [|reflexivity].
  destruct (truthy method && _); simpl; [reflexivity|].
  destruct (scan_body ucd (splitlines body) None) as [[rtp|]|e]; simpl;
    try reflexivity.
  unfold dict_getitem.
  destruct (dict_get (py "to") headers) as [to|]; simpl; [|reflexivity].
  destruct (_SIP_IP_match ucd to) as [ip'|]; simpl; reflexivity.
Qed.

Lemma datagram_received_returns (ucd : UnicodeData) (data : bytes) (addr : address) :
  exists es, datagram_received ucd data addr = (Ok tt, es).
Proof.
  unfold datagram_received, try_except.
  destruct (datagram_received_try ucd data addr) as [[[]|e] es]; simpl; eauto.
Qed.

Lemma decode_raises_upto (n : nat) :
  forall data e, (List.length data <= n)%nat ->
    decode data = Raise e -> e = UnicodeDecodeError.
Proof.
  induction n as [|n IH]; intros data e Hn.
  - destruct data; [discriminate|simpl in Hn; lia].
  - destruct data as [|b0 r0]; simpl; [discriminate|].
    assert (Hrec : forall r c, (List.length r <= n)%nat ->
              rbind (decode r) (fun s => Ok (c :: s)) = Raise e ->
              e = UnicodeDecodeError).
    { intros r c Hlt H. destruct (decode r) eqn:E; simpl in H; [discriminate|].
      injection H as <-. eapply IH; eauto. }
    simpl in Hn.
    repeat match goal with
    | |- context [if ?b then _ else _] => destruct b
    | |- context [match ?l with [] => _ | _ :: _ => _ end] =>
        destruct l; simpl in Hn
    end; try (intros H; injection H as <-; reflexivity);
    intros H; eapply Hrec; try exact H; lia.
Qed.

Lemma decode_raises (data : bytes) (e : exn) :
  decode data = Raise e -> e = UnicodeDecodeError.
Proof. apply (decode_raises_upto (List.length data)); lia. Qed.

(** ** The receive path is total *)

(** C2: for every byte sequence and every source address,
    [datagram_received] returns normally: whatever is raised inside is
    caught and logged.  When the bytes are not valid UTF-8 text,
    parsing fails with a decode error and [on_call] is not invoked. *)
Theorem datagram_received_never_raises
    (ucd : UnicodeData) (data : bytes) (addr : address) :
  (exists es, datagram_received ucd data addr = (Ok tt, es))
  /\ (forall e, decode data = Raise e ->
        parse_datagram ucd data = Raise UnicodeDecodeError
        /\ datagram_received ucd data addr
           = (Ok tt, [LogException UnicodeDecodeError])
        /\ calls (snd (datagram_received ucd data addr)) = []).
Proof.
  split; [apply datagram_received_returns|].
  intros e He. pose proof (decode_raises _ _ He) as ->.
  unfold parse_datagram, datagram_received, datagram_received_try.
  rewrite He. simpl. repeat split; reflexivity.
Qed.

(** ** A body line without [=] *)

Lemma split1_without_sep (sep : char) (s : str) :
  ~ In sep s -> split1 sep s = [s].
Proof.
  induction s as [|c s IH]; simpl; intros H; [reflexivity|].
  destruct (Z.eqb_spec c sep) as [->|Hne]; [exfalso; auto|].
  rewrite IH by tauto. reflexivity.
Qed.

Lemma scan_line_without_eq (ucd : UnicodeData) (line : str) (acc : option Z) :
  nonempty (strip line) = true -> ~ In 61 (strip line) ->
  scan_line ucd line acc = Raise ValueError.
Proof.
  intros Hne Hno. unfold scan_line. rewrite Hne.
  rewrite split1_without_sep by assumption. reflexivity.
Qed.

Lemma scan_body_raises (ucd : UnicodeData) (lines : list str) (line : str) :
  In line lines -> nonempty (strip line) = true -> ~ In 61 (strip line) ->
  forall acc, exists e, scan_body ucd lines acc = Raise e.
Proof.
  intros Hin Hne Hno.
  induction lines as [|l lines IH]; [contradiction|].
  intros acc. simpl. destruct Hin as [->|Hin].
  - rewrite scan_line_without_eq by assumption. simpl. eauto.
  - destruct (scan_line ucd l acc) as [acc'|e]; simpl; [|eauto].
    apply IH; assumption.
Qed.

(** C10: when the body of a parsed datagram has a line that, once
    stripped, is not empty and holds no [=], [on_call] is not invoked,
    whatever else the body holds (a valid [m=audio] line included) and
    whatever the method is. *)
Theorem body_line_without_eq_drops_datagram
    (ucd : UnicodeData) (data : bytes) (addr : address)
    (message : str) (method : option str) (headers : dict) (body line : str) :
  decode data = Ok message ->
  _parse_sip ucd message = Ok (method, headers, body) ->
  In line (splitlines body) ->
  nonempty (strip line) = true ->
  ~ In 61 (strip line) ->
  calls (snd (datagram_received ucd data addr)) = [].
Proof.
  intros Hd Hp Hin Hne Hno.
  rewrite datagram_received_calls. unfold invitation. rewrite Hd, Hp.
  destruct (truthy method && _); [reflexivity|].
  destruct (scan_body_raises ucd _ _ Hin Hne Hno None) as [e ->].
  reflexivity.
Qed.

Lemma body_line_without_eq_witness :
  calls (snd (datagram_received ascii_tables datagram_with_bad_body_line
                (py "192.0.2.20", 5060))) = [].
Proof.
  apply (body_line_without_eq_drops_datagram ascii_tables
           datagram_with_bad_body_line (py "192.0.2.20", 5060)
           datagram_with_bad_body_line (Some (py "INVITE"))
           [(py "to", py "<sip:192.0.2.10:5060>;tag=abc")]
           (_CRLF ++ py "m=audio 49170 RTP/AVP 0" ++ _CRLF ++ py "garbage" ++ _CRLF)
           (py "garbage")).
  - reflexivity.
  - reflexivity.
  - vm_compute. tauto.
  - reflexivity.
  - vm_compute. intros H.
    repeat (destruct H as [H|H]; [discriminate H|]). exact H.
Defined.

(** ** [answer] *)

(** C7: with no transport bound, [answer] raises the assertion error to
    its caller and the protocol object is left as it was: nothing is
    sent. *)
Theorem answer_without_transport
    (self : SIPDatagramProtocol) (headers : dict)
    (caller_ip : str) (caller_sip_port : Z) (server_ip : str) (server_rtp_port : Z) :
  transport self = None ->
  answer self headers caller_ip caller_sip_port server_ip server_rtp_port
  = (Raise AssertionError, self).
Proof. intros H. unfold answer. rewrite H. reflexivity. Qed.

Lemma answer_without_transport_witness :
  answer __init__ [] (py "192.0.2.20") 5060 (py "192.0.2.10") 5004
  = (Raise AssertionError, __init__).
Proof. apply answer_without_transport. reflexivity. Defined.

(** C9: the datagram [answer] sends is a function of its arguments
    alone.  From any two states of the protocol object with a bound
    transport (in particular the states before a first and before a
    second call), the same arguments either send the same bytes to the
    same address, or raise the same exception and send nothing. *)
Theorem answer_deterministic
    (self1 self2 : SIPDatagramProtocol) (t1 t2 : Transport) (headers : dict)
    (caller_ip : str) (caller_sip_port : Z) (server_ip : str) (server_rtp_port : Z) :
  transport self1 = Some t1 ->
  transport self2 = Some t2 ->
  (exists data,
      answer self1 headers caller_ip caller_sip_port server_ip server_rtp_port
      = (Ok tt, {| transport := Some {| sent := sent t1 ++ [(data, (caller_ip, caller_sip_port))] |} |})
      /\ answer self2 headers caller_ip caller_sip_port server_ip server_rtp_port
         = (Ok tt, {| transport := Some {| sent := sent t2 ++ [(data, (caller_ip, caller_sip_port))] |} |}))
  \/ (exists e,
      answer self1 headers caller_ip caller_sip_port server_ip server_rtp_port
      = (Raise e, self1)
      /\ answer self2 headers caller_ip caller_sip_port server_ip server_rtp_port
         = (Raise e, self2)).
Proof.
  intros H1 H2. unfold answer. rewrite H1, H2.
  destruct (response_bytes headers server_ip server_rtp_port) as [data|e].
  - left. exists data. split; reflexivity.
  - right. exists e. split; reflexivity.
Qed.

Lemma answer_deterministic_witness :
  let self1 := connection_made __init__ {| sent := [] |} in
  let self2 := snd (answer self1 headers_example (py "192.0.2.20") 5060
                      (py "192.0.2.10") 5004) in
  exists t2, transport self2 = Some t2 /\ List.length (sent t2) = 1%nat /\
  ((exists data,
      answer self1 headers_example (py "192.0.2.20") 5060 (py "192.0.2.10") 5004
      = (Ok tt, {| transport := Some {| sent := [] ++ [(data, (py "192.0.2.20", 5060))] |} |})
      /\ answer self2 headers_example (py "192.0.2.20") 5060 (py "192.0.2.10") 5004
         = (Ok tt, {| transport := Some {| sent := sent t2 ++ [(data, (py "192.0.2.20", 5060))] |} |}))
  \/ (exists e,
      answer self1 headers_example (py "192.0.2.20") 5060 (py "192.0.2.10") 5004
      = (Raise e, self1)
      /\ answer self2 headers_example (py "192.0.2.20") 5060 (py "192.0.2.10") 5004
         = (Raise e, self2))).
Proof.
  intros self1 self2.
  destruct (transport self2) as [t2|] eqn:E; [|vm_compute in E; discriminate E].
  exists t2. split; [reflexivity|]. split.
  - vm_compute in E. injection E as <-. reflexivity.
  - apply (answer_deterministic self1 self2 {| sent := [] |} t2);
      [reflexivity | exact E].
Defined.

(** ** The method returned by [_parse_sip] *)

Lemma splitlines_nil (s : str) : splitlines s = [] -> s = [].
Proof.
  destruct s as [|c s]; simpl; [reflexivity|].
  destruct (is_linebreak c); [discriminate|].
  destruct (splitlines s); discriminate.
Qed.

Lemma _parse_sip_loop_keeps_method (ucd : UnicodeData) (lines : list str) :
  forall i method headers offset method' headers' offset',
    _parse_sip_loop ucd (S i) lines method headers offset
    = Ok (method', headers', offset') ->
    method' = method.
Proof.
  induction lines as [|line rest IH]; intros i m hs off m' hs' off'; simpl.
  - congruence.
  - destruct (negb (nonempty line)); [congruence|].
    destruct (unpack2 (split1 58 line)) as [[key value]|e]; simpl;
      [|discriminate].
    apply IH.
Qed.

(** C6, as the code has it: the method is the first
    whitespace-delimited token of the first line, whatever kind of
    message it is; for a response whose first line is the status line
    [SIP/2.0 200 OK] that token is [SIP/2.0].  The method is absent
    only for the empty message. *)
Theorem parse_method_is_first_token
    (ucd : UnicodeData) (message : str)
    (method : option str) (headers : dict) (body : str) :
  _parse_sip ucd message = Ok (method, headers, body) ->
  (method = None <-> message = [])
  /\ (forall line rest, splitlines message = line :: rest ->
        exists tok toks, split line = tok :: toks /\ method = Some tok)
  /\ (forall rest, splitlines message = py "SIP/2.0 200 OK" :: rest ->
        method = Some (py "SIP/2.0")).
Proof.
  unfold _parse_sip. intros H.
  destruct (splitlines message) as [|line rest] eqn:E.
  - simpl in H. injection H as <- _ _.
    apply splitlines_nil in E. subst message.
    repeat split; intros; try discriminate; reflexivity.
  - simpl in H.
    destruct (split line) as [|tok toks] eqn:Es; simpl in H; [discriminate|].
    destruct (_parse_sip_loop ucd 1 rest (Some tok) [] _)
      as [[[m hs] off]|e] eqn:El; simpl in H; [|discriminate].
    apply _parse_sip_loop_keeps_method in El. subst m.
    injection H as <- _ _.
    assert (message <> []) by (intros ->; discriminate E).
    repeat split; intros; try congruence; try tauto.
    + injection H0 as <- <-. eauto.
    + injection H0 as -> _. vm_compute in Es. injection Es as <- _. reflexivity.
Qed.

Lemma parse_method_witness :
  (Some (py "SIP/2.0") = None <-> response_example = [])
  /\ (forall line rest, splitlines response_example = line :: rest ->
        exists tok toks, split line = tok :: toks /\ Some (py "SIP/2.0") = Some tok)
  /\ (forall rest, splitlines response_example = py "SIP/2.0 200 OK" :: rest ->
        Some (py "SIP/2.0") = Some (py "SIP/2.0")).
Proof.
  apply (parse_method_is_first_token ascii_tables response_example
           (Some (py "SIP/2.0")) [(py "via", py "x")] _CRLF).
  reflexivity.
Defined.

(** C6 as stated fails: parsing a response yields a method. *)
Lemma response_method_not_absent :
  exists method headers body,
    _parse_sip ascii_tables response_example = Ok (method, headers, body)
    /\ method = Some (py "SIP/2.0") /\ method <> None.
Proof.
  exists (Some (py "SIP/2.0")), [(py "via", py "x")], _CRLF.
  repeat split; try reflexivity. discriminate.
Qed.

(** ** The body returned by [_parse_sip] *)

Lemma splitlines_line_crlf (l rest : str) :
  no_linebreak l -> splitlines (l ++ _CRLF ++ rest) = l :: splitlines rest.
Proof.
  unfold no_linebreak. induction l as [|c l IH]; intros H.
  - reflexivity.
  - simpl in H. apply andb_true_iff in H as [Hc Hl].
    apply negb_true_iff in Hc.
    change ((c :: l) ++ _CRLF ++ rest) with (c :: (l ++ _CRLF ++ rest)).
    cbn [splitlines]. rewrite Hc, (IH Hl). reflexivity.
Qed.

Lemma splitlines_crlf_lines (lines : list str) (rest : str) :
  Forall no_linebreak lines ->
  splitlines (crlf_lines lines ++ rest) = lines ++ splitlines rest.
Proof.
  induction 1 as [|l lines Hl _ IH]; [reflexivity|].
  unfold crlf_lines in *. simpl.
  rewrite <- !app_assoc. rewrite splitlines_line_crlf by assumption.
  now rewrite IH.
Qed.

Lemma len_app {A} (a b : list A) : len (a ++ b) = len a + len b.
Proof. unfold len. rewrite length_app. lia. Qed.

Lemma len_crlf_lines_cons (l : str) (lines : list str) :
  len (crlf_lines (l :: lines)) = len l + len _CRLF + len (crlf_lines lines).
Proof. unfold crlf_lines. simpl. rewrite <- app_assoc, !len_app. lia. Qed.

Lemma slice_from_len_app (a b : str) : slice_from (len a) (a ++ b) = b.
Proof.
  unfold slice_from, len. rewrite Nat2Z.id.
  induction a; simpl; auto.
Qed.

Lemma _parse_sip_loop_offset (ucd : UnicodeData) (hlines : list str) :
  forall i method headers offset tail method' headers' offset',
    Forall (fun l => nonempty l = true) hlines ->
    _parse_sip_loop ucd (S i) (hlines ++ [] :: tail) method headers offset
    = Ok (method', headers', offset') ->
    offset' = offset + len (crlf_lines hlines).
Proof.
  induction hlines as [|l hlines IH];
    intros i m hs off tail m' hs' off' Hne Hloop.
  - simpl in Hloop. injection Hloop as _ _ <-. unfold crlf_lines, len. simpl. lia.
  - inversion Hne as [|? ? Hl Hrest]; subst.
    rewrite <- app_comm_cons in Hloop. cbn [_parse_sip_loop] in Hloop.
    rewrite Hl in Hloop. cbn [Nat.eqb negb] in Hloop.
    destruct (unpack2 (split1 58 l)) as [[key value]|e]; simpl in Hloop;
      [|discriminate].
    apply IH in Hloop; [|assumption].
    rewrite len_crlf_lines_cons. lia.
Qed.

(** C3, as the code has it: when the lines before the first blank line
    are not empty and each ends in CR LF, the body returned for an
    accepted message starts at the blank line's own CR LF; it is that
    separator followed by everything after it, unchanged. *)
Theorem parse_body_starts_at_blank_line
    (ucd : UnicodeData) (first : str) (hlines : list str) (rest : str)
    (method : option str) (headers : dict) (body : str) :
  Forall (fun l => nonempty l = true /\ no_linebreak l) (first :: hlines) ->
  _parse_sip ucd (crlf_lines (first :: hlines) ++ _CRLF ++ rest)
  = Ok (method, headers, body) ->
  body = _CRLF ++ rest.
Proof.
  intros Hall. unfold _parse_sip.
  assert (Hnl : Forall no_linebreak (first :: hlines))
    by (eapply Forall_impl; [|exact Hall]; simpl; tauto).
  assert (Hne : Forall (fun l => nonempty l = true) (first :: hlines))
    by (eapply Forall_impl; [|exact Hall]; simpl; tauto).
  rewrite splitlines_crlf_lines by assumption.
  change (_CRLF ++ rest) with ([] ++ _CRLF ++ rest).
  rewrite (splitlines_line_crlf [] rest) by reflexivity.
  inversion Hne as [|? ? Hf Hh]; subst.
  rewrite <- app_comm_cons. cbn [_parse_sip_loop Nat.eqb]. rewrite Hf.
  destruct (getitem (split first) 0) as [tok|e]; simpl; [|discriminate].
  destruct (_parse_sip_loop ucd 1 _ _ _ _) as [[[m hs] off]|e] eqn:El;
    simpl; [|discriminate].
  apply _parse_sip_loop_offset in El; [|assumption].
  intros H. injection H as _ _ <-. subst off.
  match goal with
  | |- slice_from ?n _ = _ =>
      replace n with (len (crlf_lines (first :: hlines)))
        by (rewrite len_crlf_lines_cons; lia)
  end.
  apply (slice_from_len_app (crlf_lines (first :: hlines)) (_CRLF ++ rest)).
Qed.

Lemma parse_body_witness :
  exists method headers body,
    _parse_sip ascii_tables message_with_body = Ok (method, headers, body)
    /\ body = _CRLF ++ py "body".
Proof.
  exists (Some (py "INVITE")), [(py "to", py "b")], (_CRLF ++ py "body").
  split; [reflexivity|].
  apply (parse_body_starts_at_blank_line ascii_tables
           (py "INVITE sip:a SIP/2.0") [py "To: b"] (py "body")
           (Some (py "INVITE")) [(py "to", py "b")] (_CRLF ++ py "body")).
  - repeat constructor.
  - reflexivity.
Defined.

(** C3 as stated fails: the body returned is not what follows the
    blank line, it begins with the separator. *)
Lemma parse_body_keeps_separator :
  _parse_sip ascii_tables message_with_body
  = Ok (Some (py "INVITE"), [(py "to", py "b")], _CRLF ++ py "body")
  /\ _CRLF ++ py "body" <> py "body".
Proof. split; [reflexivity | discriminate]. Qed.

(** ** The header mapping *)

Lemma split1_cases (sep : char) (s : str) :
  (split1 sep s = [s] /\ ~ In sep s)
  \/ (exists a b, split1 sep s = [a; b] /\ s = a ++ sep :: b /\ ~ In sep a).
Proof.
  induction s as [|c s IH]; simpl.
  - left. split; [reflexivity|tauto].
  - destruct (Z.eqb_spec c sep) as [->|Hne].
    + right. exists [], s. repeat split; auto.
    + destruct IH as [[-> Hno]|(a & b & -> & -> & Hno)].
      * left. split; [reflexivity|]. intros [?|?]; auto.
      * right. exists (c :: a), b. repeat split; auto.
        intros [?|?]; auto.
Qed.

Lemma split1_at_first (sep : char) (a b : str) :
  ~ In sep a -> split1 sep (a ++ sep :: b) = [a; b].
Proof.
  induction a as [|c a IH]; simpl; intros H.
  - now rewrite Z.eqb_refl.
  - destruct (Z.eqb_spec c sep) as [->|Hne]; [exfalso; auto|].
    rewrite IH by tauto. reflexivity.
Qed.

Lemma unpack2_ok {A} (l : list A) (a b : A) :
  unpack2 l = Ok (a, b) <-> l = [a; b].
Proof.
  split; [|now intros ->].
  destruct l as [|x [|y [|z l]]]; simpl; intros H; try discriminate.
  now injection H as -> ->.
Qed.

Lemma header_line_iff (ucd : UnicodeData) (line key value : str) :
  header_line ucd line key value <-> header_of ucd line = Some (key, value).
Proof.
  unfold header_line, header_of. split.
  - intros (name & raw & -> & Hno & -> & ->).
    now rewrite split1_at_first.
  - destruct (split1_cases 58 line) as [[-> _]|(a & b & -> & -> & Hno)].
    + discriminate.
    + intros H. injection H as <- <-. exists a, b. auto.
Qed.

Lemma last_of_spec (ucd : UnicodeData) (key value : str) (hlines : list str) :
  forall dflt,
    last_of ucd hlines key dflt = Some value <->
    last_header ucd hlines key value
    \/ (dflt = Some value /\ forall l v, In l hlines -> ~ header_line ucd l key v).
Proof.
  unfold last_header.
  induction hlines as [|l rest IH]; intros dflt; simpl.
  - split.
    + intros ->. right. split; [reflexivity|tauto].
    + intros [(before & line & after & H & _)|[-> _]]; [|reflexivity].
      destruct before; discriminate.
  - rewrite IH. clear IH. split.
    + intros [(before & line & after & -> & Hl & Hafter)|[Hd Hnone]].
      * left. exists (l :: before), line, after. auto.
      * destruct (header_of ucd l) as [[k v]|] eqn:Eh.
        -- destruct (str_eqb k key) eqn:Ek.
           ++ apply str_eqb_eq in Ek. subst k. injection Hd as ->.
              left. exists [], l, rest. repeat split; auto.
              now apply header_line_iff.
           ++ right. split; [assumption|].
              intros l' v' [<-|Hin]; [|now apply Hnone].
              rewrite header_line_iff, Eh. intros H. injection H as -> _.
              rewrite str_eqb_refl in Ek. discriminate.
        -- right. split; [assumption|].
           intros l' v' [<-|Hin]; [|now apply Hnone].
           rewrite header_line_iff, Eh. discriminate.
    + intros [(before & line & after & Heq & Hl & Hafter)|[-> Hnone]].
      * destruct before as [|b before]; simpl in Heq; injection Heq as <- ->.
        -- right. apply header_line_iff in Hl. rewrite Hl, str_eqb_refl.
           split; [reflexivity|assumption].
        -- left. exists before, line, after. auto.
      * right. split; [|intros; apply Hnone; auto].
        destruct (header_of ucd l) as [[k v]|] eqn:Eh; [|reflexivity].
        destruct (str_eqb k key) eqn:Ek; [|reflexivity].
        apply str_eqb_eq in Ek. subst k.
        exfalso. apply (Hnone l v); [now left|now apply header_line_iff].
Qed.

Lemma dict_get_set (k v q : str) (d : dict) :
  dict_get q (dict_set k v d) = if str_eqb k q then Some v else dict_get q d.
Proof.
  induction d as [|[k0 v0] d IH]; simpl; [reflexivity|].
  destruct (str_eqb k0 k) eqn:E0; simpl.
  - apply str_eqb_eq in E0. subst k0. now destruct (str_eqb k q).
  - rewrite IH. destruct (str_eqb k0 q) eqn:E1; [|reflexivity].
    apply str_eqb_eq in E1. subst k0.
    destruct (str_eqb k q) eqn:E2; [|reflexivity].
    apply str_eqb_eq in E2. subst k. rewrite str_eqb_refl in E0. discriminate.
Qed.

Lemma in_keys_dict_set (k v q : str) (d : dict) :
  In q (keys (dict_set k v d)) -> q = k \/ In q (keys d).
Proof.
  induction d as [|[k0 v0] d IH]; simpl.
  - intros [<-|[]]. now left.
  - destruct (str_eqb k0 k); simpl; [tauto|].
    intros [<-|H]; [tauto|]. apply IH in H. tauto.
Qed.

Lemma NoDup_keys_dict_set (k v : str) (d : dict) :
  NoDup (keys d) -> NoDup (keys (dict_set k v d)).
Proof.
  induction d as [|[k0 v0] d IH]; simpl; intros H.
  - constructor; [tauto|constructor].
  - inversion H as [|? ? Hnotin Hnd]; subst.
    destruct (str_eqb k0 k) eqn:E; simpl.
    + constructor; assumption.
    + constructor; [|now apply IH].
      intros Hin. apply in_keys_dict_set in Hin as [->|Hin]; [|contradiction].
      rewrite str_eqb_refl in E. discriminate.
Qed.

Lemma _parse_sip_loop_headers (ucd : UnicodeData) (lines : list str) :
  forall i method headers offset method' headers' offset',
    _parse_sip_loop ucd (S i) lines method headers offset
    = Ok (method', headers', offset') ->
    (forall key, dict_get key headers'
                 = last_of ucd (take_nonempty lines) key (dict_get key headers))
    /\ (NoDup (keys headers) -> NoDup (keys headers')).
Proof.
  induction lines as [|line rest IH]; intros i m hs off m' hs' off'; simpl.
  - intros H. injection H as _ <- _. auto.
  - destruct (nonempty line); simpl.
    + destruct (unpack2 (split1 58 line)) as [[key value]|e] eqn:Eu; simpl;
        [|discriminate].
      apply unpack2_ok in Eu. intros H. apply IH in H as [Hget Hnd].
      split.
      * intros q. rewrite Hget. unfold header_of. rewrite Eu.
        now rewrite dict_get_set.
      * intros Hhs. apply Hnd. now apply NoDup_keys_dict_set.
    + intros H. injection H as _ <- _. auto.
Qed.

Lemma _parse_sip_headers (ucd : UnicodeData) (message : str)
    (method : option str) (headers : dict) (body : str) :
  _parse_sip ucd message = Ok (method, headers, body) ->
  NoDup (keys headers)
  /\ forall key, dict_get key headers
                 = last_of ucd (header_lines message) key None.
Proof.
  unfold _parse_sip, header_lines.
  destruct (splitlines message) as [|first rest]; simpl.
  - intros H. injection H as _ <- _. split; [constructor|reflexivity].
  - destruct (getitem (split first) 0) as [tok|e]; simpl; [|discriminate].
    destruct (_parse_sip_loop ucd 1 rest _ _ _) as [[[m hs] off]|e] eqn:El;
      simpl; [|discriminate].
    intros H. injection H as _ <- _.
    apply _parse_sip_loop_headers in El as [Hget Hnd].
    split; [apply Hnd; constructor | exact Hget].
Qed.

(** C8: in the mapping returned by [_parse_sip] the keys are unique,
    and a key holds a value exactly when that value comes from the
    last header line whose name, in lower case, is the key; the value
    is the text after the first colon, trimmed.  So [VIA: foo] and
    [via: foo] both give key [via] the value [foo]. *)
Theorem parse_headers_lowercase_trimmed_last_wins
    (ucd : UnicodeData) (message : str)
    (method : option str) (headers : dict) (body : str) :
  _parse_sip ucd message = Ok (method, headers, body) ->
  NoDup (keys headers)
  /\ (forall key value,
        dict_get key headers = Some value
        <-> last_header ucd (header_lines message) key value)
  /\ parsed_headers (_parse_sip ucd upper_via_example) = Some [(py "via", py "foo")]
  /\ parsed_headers (_parse_sip ucd lower_via_example) = Some [(py "via", py "foo")].
Proof.
  intros H. apply _parse_sip_headers in H as [Hnd Hget].
  split; [exact Hnd|]. split; [|split; reflexivity].
  intros key value. rewrite Hget, last_of_spec. split; [|tauto].
  intros [Hl|[Hd _]]; [exact Hl | discriminate].
Qed.

Lemma parse_headers_witness :
  _parse_sip ascii_tables duplicate_via_example
  = Ok (Some (py "INVITE"), [(py "via", py "two"); (py "to", py "b")], _CRLF)
  /\ NoDup (keys [(py "via", py "two"); (py "to", py "b")])
  /\ (forall key value,
        dict_get key [(py "via", py "two"); (py "to", py "b")] = Some value
        <-> last_header ascii_tables (header_lines duplicate_via_example) key value)
  /\ parsed_headers (_parse_sip ascii_tables upper_via_example)
     = Some [(py "via", py "foo")]
  /\ parsed_headers (_parse_sip ascii_tables lower_via_example)
     = Some [(py "via", py "foo")].
Proof.
  split; [reflexivity|].
  apply (parse_headers_lowercase_trimmed_last_wins ascii_tables
           duplicate_via_example (Some (py "INVITE"))
           [(py "via", py "two"); (py "to", py "b")] _CRLF).
  reflexivity.
Defined.

(** ** The caller's RTP port *)

Lemma scan_line_audio (ucd : UnicodeData) (line : str) (acc r : option Z) :
  is_audio_media (strip line) = true ->
  scan_line ucd line acc = Ok r ->
  exists tok port,
    media_port_token (strip line) = Some tok
    /\ int_of_str ucd tok = Ok port /\ r = Some port.
Proof.
  unfold is_audio_media, media_port_token, scan_line.
  destruct (nonempty (strip line)) eqn:En.
  - destruct (split1 61 (strip line)) as [|key [|value [|x l]]]; try discriminate.
    simpl. intros H. apply andb_true_iff in H as [Hk Hp]. rewrite Hk.
    destruct (split value) as [|p0 ps]; [discriminate|]. simpl.
    rewrite Hp. unfold getitem. simpl.
    destruct ps as [|p1 ps]; simpl; [discriminate|].
    destruct (int_of_str ucd p1) as [port|e] eqn:Ei; simpl; [|discriminate].
    intros H. injection H as <-. exists p1, port. auto.
  - destruct (strip line); [|discriminate]. discriminate.
Qed.

Lemma scan_line_other (ucd : UnicodeData) (line : str) (acc r : option Z) :
  is_audio_media (strip line) = false ->
  scan_line ucd line acc = Ok r ->
  r = acc.
Proof.
  unfold is_audio_media, scan_line. intros Ha Hs.
  destruct (nonempty (strip line)); [|congruence].
  destruct (split1 61 (strip line)) as [|key [|value [|x l]]];
    try discriminate Hs.
  simpl in Ha, Hs. destruct (str_eqb key (py "m")); simpl in Ha; [|congruence].
  destruct (split value) as [|p0 ps]; [discriminate Hs|]. simpl in Hs.
  rewrite Ha in Hs. congruence.
Qed.

Lemma scan_line_well_formed (ucd : UnicodeData) (line : str) (acc : option Z) :
  well_formed_line ucd (strip line) = true ->
  exists r, scan_line ucd line acc = Ok r.
Proof.
  unfold well_formed_line, scan_line.
  destruct (strip line) as [|c l] eqn:Es; [simpl; eauto|].
  cbn [nonempty].
  destruct (split1 61 (c :: l)) as [|key [|value [|x l']]]; try discriminate.
  simpl. destruct (str_eqb key (py "m")); [|eauto].
  destruct (split value) as [|p0 ps]; [discriminate|]. simpl.
  destruct (str_eqb p0 (py "audio")); [|eauto].
  destruct ps as [|p1 ps]; [discriminate|]. simpl.
  destruct (int_of_str ucd p1); simpl; [eauto|discriminate].
Qed.

Lemma scan_body_app (ucd : UnicodeData) (a b : list str) (acc : option Z) :
  scan_body ucd (a ++ b) acc = rbind (scan_body ucd a acc) (scan_body ucd b).
Proof.
  revert acc. induction a as [|l a IH]; intros acc; simpl; [reflexivity|].
  destruct (scan_line ucd l acc); simpl; auto.
Qed.

Lemma scan_body_other (ucd : UnicodeData) (lines : list str) :
  (forall l, In l lines -> is_audio_media (strip l) = false) ->
  forall acc r, scan_body ucd lines acc = Ok r -> r = acc.
Proof.
  induction lines as [|l lines IH]; intros Hno acc r; simpl; [congruence|].
  destruct (scan_line ucd l acc) as [acc'|e] eqn:El; simpl; [|discriminate].
  apply scan_line_other in El; [|apply Hno; now left]. subst acc'.
  apply IH. intros; apply Hno; now right.
Qed.

Lemma scan_body_well_formed (ucd : UnicodeData) (lines : list str) :
  (forall l, In l lines -> well_formed_line ucd (strip l) = true) ->
  forall acc, exists r, scan_body ucd lines acc = Ok r.
Proof.
  induction lines as [|l lines IH]; intros Hwf acc; simpl; [eauto|].
  destruct (scan_line_well_formed ucd l acc) as [r ->]; [apply Hwf; now left|].
  simpl. apply IH. intros; apply Hwf; now right.
Qed.

Lemma map_strip_split (lines before after : list str) (line : str) :
  map strip lines = before ++ line :: after ->
  exists lb l0 la,
    lines = lb ++ l0 :: la
    /\ map strip lb = before /\ strip l0 = line /\ map strip la = after.
Proof.
  revert before. induction lines as [|l lines IH]; intros before H.
  - destruct before; discriminate.
  - destruct before as [|b before]; simpl in H; injection H as Hl Hrest.
    + exists [], l, lines. auto.
    + apply IH in Hrest as (lb & l0 & la & -> & <- & <- & <-).
      exists (l :: lb), l0, la. simpl. rewrite Hl. auto.
Qed.

Lemma scan_body_last_audio (ucd : UnicodeData)
    (lines before after : list str) (line : str) (acc r : option Z) :
  map strip lines = before ++ line :: after ->
  is_audio_media line = true ->
  (forall l, In l after -> is_audio_media l = false) ->
  scan_body ucd lines acc = Ok r ->
  exists tok port,
    media_port_token line = Some tok
    /\ int_of_str ucd tok = Ok port /\ r = Some port.
Proof.
  intros Hmap Haudio Hafter Hscan.
  apply map_strip_split in Hmap as (lb & l0 & la & -> & _ & <- & <-).
  rewrite scan_body_app in Hscan.
  destruct (scan_body ucd lb acc) as [acc1|e]; simpl in Hscan; [|discriminate].
  destruct (scan_line ucd l0 acc1) as [acc2|e] eqn:El; simpl in Hscan;
    [|discriminate].
  apply scan_line_audio in El as (tok & port & Ht & Hi & ->); [|assumption].
  apply scan_body_other in Hscan.
  - subst r. eauto.
  - intros l Hin. apply Hafter. now apply in_map.
Qed.

(** C4, as the code has it: when the body holds several audio media
    lines, the invitation handed to [on_call] carries the port of the
    LAST of them: the integer read from that line's second token. *)
Theorem media_port_is_last_audio_line
    (ucd : UnicodeData) (data : bytes) (addr : address)
    (message : str) (method : option str) (headers : dict) (body : str)
    (before after : list str) (line : str) (call_info : CallInfo) :
  decode data = Ok message ->
  _parse_sip ucd message = Ok (method, headers, body) ->
  map strip (splitlines body) = before ++ line :: after ->
  is_audio_media line = true ->
  (forall l, In l after -> is_audio_media l = false) ->
  In call_info (calls (snd (datagram_received ucd data addr))) ->
  exists tok,
    media_port_token line = Some tok
    /\ int_of_str ucd tok = Ok (caller_rtp_port call_info).
Proof.
  intros Hd Hp Hmap Haudio Hafter.
  rewrite datagram_received_calls. unfold invitation. rewrite Hd, Hp.
  destruct (truthy method && _); [contradiction|].
  destruct (scan_body ucd (splitlines body) None) as [[rtp|]|e] eqn:Es;
    try contradiction.
  destruct (dict_get (py "to") headers) as [to|]; [|contradiction].
  destruct (_SIP_IP_match ucd to) as [ip|]; [|contradiction].
  intros [<-|[]]. simpl.
  destruct (scan_body_last_audio ucd _ _ _ _ _ _ Hmap Haudio Hafter Es)
    as (tok & port & Ht & Hi & Hr).
  injection Hr as ->. eauto.
Qed.

Lemma media_port_witness :
  exists tok,
    media_port_token (py "m=audio 5004 RTP/AVP 0") = Some tok
    /\ int_of_str ascii_tables tok = Ok (caller_rtp_port call_two_media_lines).
Proof.
  apply (media_port_is_last_audio_line ascii_tables
           datagram_two_media_lines (py "192.0.2.20", 5060)
           datagram_two_media_lines (Some (py "INVITE"))
           [(py "to", to_header_example)]
           (_CRLF ++ py "m=audio 49170 RTP/AVP 0" ++ _CRLF
            ++ py "m=audio 5004 RTP/AVP 0" ++ _CRLF)
           [[]; py "m=audio 49170 RTP/AVP 0"] []
           (py "m=audio 5004 RTP/AVP 0") call_two_media_lines).
  - reflexivity.
  - reflexivity.
  - reflexivity.
  - reflexivity.
  - intros l [].
  - left. reflexivity.
Defined.

(** C4 as stated fails: with two audio media lines, the port handed on
    is the second line's, not the first's. *)
Lemma media_port_is_not_first_audio_line :
  parse_datagram ascii_tables datagram_two_media_lines
  = Ok (Some (py "INVITE"), [(py "to", to_header_example)],
        _CRLF ++ py "m=audio 49170 RTP/AVP 0" ++ _CRLF
        ++ py "m=audio 5004 RTP/AVP 0" ++ _CRLF)
  /\ is_audio_media (py "m=audio 49170 RTP/AVP 0") = true
  /\ is_audio_media (py "m=audio 5004 RTP/AVP 0") = true
  /\ media_port_token (py "m=audio 49170 RTP/AVP 0") = Some (py "49170")
  /\ calls (snd (datagram_received ascii_tables datagram_two_media_lines
                   (py "192.0.2.20", 5060)))
     = [call_two_media_lines]
  /\ caller_rtp_port call_two_media_lines <> 49170.
Proof. repeat split; try reflexivity. discriminate. Qed.

(** ** A well-formed invitation *)

Lemma is_invite_passes (ucd : UnicodeData) (method : option str) :
  is_invite ucd method ->
  truthy method
  && negb (str_eqb (lower ucd (match method with Some m => m | None => [] end))
                   (py "invite")) = false.
Proof.
  destruct method as [m|]; simpl; [|reflexivity].
  intros ->. rewrite str_eqb_refl. apply andb_false_r.
Qed.

(** C1, as the code has it: a datagram that decodes and parses to an
    invitation whose [to] header is [<sip:192.0.2.10:5060>;tag=abc]
    and whose body has [m=audio 49170 RTP/AVP 0] as its last audio
    media line, every other body line being well formed, makes
    [datagram_received] invoke [on_call] exactly once, with
    [caller_rtp_port = 49170] and [server_ip = "192.0.2.10"]. *)
Theorem invitation_emitted_once
    (ucd : UnicodeData) (data : bytes) (ip : str) (port : Z)
    (message : str) (method : option str) (headers : dict) (body : str)
    (before after : list str) :
  decode data = Ok message ->
  _parse_sip ucd message = Ok (method, headers, body) ->
  is_invite ucd method ->
  dict_get (py "to") headers = Some (py "<sip:192.0.2.10:5060>;tag=abc") ->
  map strip (splitlines body)
  = before ++ py "m=audio 49170 RTP/AVP 0" :: after ->
  (forall l, In l before -> well_formed_line ucd l = true) ->
  (forall l, In l after ->
     well_formed_line ucd l = true /\ is_audio_media l = false) ->
  calls (snd (datagram_received ucd data (ip, port)))
  = [ {| caller_ip := ip;
         caller_sip_port := port;
         caller_rtp_port := 49170;
         server_ip := py "192.0.2.10";
         headers := headers |} ].
Proof.
  intros Hd Hp Hinv Hto Hmap Hbefore Hafter.
  rewrite datagram_received_calls. unfold invitation.
  rewrite Hd, Hp, (is_invite_passes _ _ Hinv), Hto.
  apply map_strip_split in Hmap as (lb & l0 & la & -> & <- & Hl0 & <-).
  rewrite scan_body_app.
  destruct (scan_body_well_formed ucd lb) with (acc := @None Z) as [acc1 ->].
  { intros l Hin. apply Hbefore. now apply in_map. }
  cbn [rbind scan_body].
  assert (Hline : scan_line ucd l0 acc1 = Ok (Some 49170)).
  { unfold scan_line. rewrite Hl0. reflexivity. }
  rewrite Hline. cbn [rbind].
  destruct (scan_body_well_formed ucd la) with (acc := Some 49170) as [r Hr].
  { intros l Hin. apply Hafter. now apply in_map. }
  rewrite Hr. apply scan_body_other in Hr.
  - subst r. reflexivity.
  - intros l Hin. apply Hafter. now apply in_map.
Qed.

Lemma invitation_emitted_witness :
  calls (snd (datagram_received ascii_tables invite_example (py "192.0.2.20", 5060)))
  = [ {| caller_ip := py "192.0.2.20";
         caller_sip_port := 5060;
         caller_rtp_port := 49170;
         server_ip := py "192.0.2.10";
         headers := [(py "via", py "SIP/2.0/UDP 192.0.2.20:5060");
                     (py "to", py "<sip:192.0.2.10:5060>;tag=abc")] |} ].
Proof.
  apply (invitation_emitted_once ascii_tables invite_example
           (py "192.0.2.20") 5060 invite_example (Some (py "INVITE"))
           [(py "via", py "SIP/2.0/UDP 192.0.2.20:5060");
            (py "to", py "<sip:192.0.2.10:5060>;tag=abc")]
           (_CRLF ++ py "v=0" ++ _CRLF ++ py "m=audio 49170 RTP/AVP 0" ++ _CRLF)
           [[]; py "v=0"] []).
  - reflexivity.
  - reflexivity.
  - reflexivity.
  - reflexivity.
  - reflexivity.
  - intros l [<-|[<-|[]]]; reflexivity.
  - intros l [].
Defined.

(** C1 as stated fails: the body holds the line
    [m=audio 49170 RTP/AVP 0] and the [to] header is as required, yet a
    further line without [=] leaves [on_call] uninvoked, and a later
    audio media line changes the port. *)
Lemma invitation_not_always_emitted :
  (parse_datagram ascii_tables datagram_with_bad_body_line
   = Ok (Some (py "INVITE"), [(py "to", to_header_example)],
         _CRLF ++ py "m=audio 49170 RTP/AVP 0" ++ _CRLF ++ py "garbage" ++ _CRLF)
   /\ In (py "m=audio 49170 RTP/AVP 0")
         (splitlines (_CRLF ++ py "m=audio 49170 RTP/AVP 0" ++ _CRLF
                      ++ py "garbage" ++ _CRLF))
   /\ calls (snd (datagram_received ascii_tables datagram_with_bad_body_line
                    (py "192.0.2.20", 5060))) = [])
  /\ (parse_datagram ascii_tables datagram_two_media_lines
      = Ok (Some (py "INVITE"), [(py "to", to_header_example)],
            _CRLF ++ py "m=audio 49170 RTP/AVP 0" ++ _CRLF
            ++ py "m=audio 5004 RTP/AVP 0" ++ _CRLF)
      /\ In (py "m=audio 49170 RTP/AVP 0")
            (splitlines (_CRLF ++ py "m=audio 49170 RTP/AVP 0" ++ _CRLF
                         ++ py "m=audio 5004 RTP/AVP 0" ++ _CRLF))
      /\ map caller_rtp_port
           (calls (snd (datagram_received ascii_tables datagram_two_media_lines
                          (py "192.0.2.20", 5060))))
         = [5004]).
Proof.
  repeat split; try reflexivity; right; left; reflexivity.
Qed.

(** ** UTF-8 round trip *)

Lemma decode_1 (b0 : Z) (r : bytes) :
  0 <= b0 < 128 ->
  decode (b0 :: r) = rbind (decode r) (fun s => Ok (b0 :: s)).
Proof.
  intros H. cbn [decode].
  replace ((0 <=? b0) && (b0 <? 128)) with true by lia. reflexivity.
Qed.

Lemma decode_2 (b0 b1 : Z) (r : bytes) :
  194 <= b0 <= 223 -> 128 <= b1 <= 191 ->
  decode (b0 :: b1 :: r)
  = rbind (decode r) (fun s => Ok ((b0 - 192) * 64 + (b1 - 128) :: s)).
Proof.
  intros H0 H1. remember (b1 :: r) as r0 eqn:Er. cbn [decode].
  replace ((0 <=? b0) && (b0 <? 128)) with false by lia.
  replace ((194 <=? b0) && (b0 <=? 223)) with true by lia.
  subst r0. unfold is_cont.
  replace ((128 <=? b1) && (b1 <=? 191)) with true by lia. reflexivity.
Qed.

Lemma decode_3 (b0 b1 b2 : Z) (r : bytes) :
  224 <= b0 <= 239 -> 128 <= b1 <= 191 -> 128 <= b2 <= 191 ->
  let c := (b0 - 224) * 4096 + (b1 - 128) * 64 + (b2 - 128) in
  2048 <= c -> (c < 55296 \/ 57343 < c) ->
  decode (b0 :: b1 :: b2 :: r) = rbind (decode r) (fun s => Ok (c :: s)).
Proof.
  intros H0 H1 H2 c Hc Hs. remember (b1 :: b2 :: r) as r0 eqn:Er. cbn [decode].
  replace ((0 <=? b0) && (b0 <? 128)) with false by lia.
  replace ((194 <=? b0) && (b0 <=? 223)) with false by lia.
  replace ((224 <=? b0) && (b0 <=? 239)) with true by lia.
  subst r0. cbv zeta. fold c. unfold is_cont, is_surrogate.
  replace ((128 <=? b1) && (b1 <=? 191)) with true by lia.
  replace ((128 <=? b2) && (b2 <=? 191)) with true by lia.
  replace (2048 <=? c) with true by lia.
  replace ((55296 <=? c) && (c <=? 57343)) with false by lia.
  reflexivity.
Qed.

Lemma decode_4 (b0 b1 b2 b3 : Z) (r : bytes) :
  240 <= b0 <= 244 -> 128 <= b1 <= 191 -> 128 <= b2 <= 191 ->
  128 <= b3 <= 191 ->
  let c := (b0 - 240) * 262144 + (b1 - 128) * 4096
           + (b2 - 128) * 64 + (b3 - 128) in
  65536 <= c <= 1114111 ->
  decode (b0 :: b1 :: b2 :: b3 :: r) = rbind (decode r) (fun s => Ok (c :: s)).
Proof.
  intros H0 H1 H2 H3 c Hc. remember (b1 :: b2 :: b3 :: r) as r0 eqn:Er.
  cbn [decode].
  replace ((0 <=? b0) && (b0 <? 128)) with false by lia.
  replace ((194 <=? b0) && (b0 <=? 223)) with false by lia.
  replace ((224 <=? b0) && (b0 <=? 239)) with false by lia.
  replace ((240 <=? b0) && (b0 <=? 244)) with true by lia.
  subst r0. cbv zeta. fold c. unfold is_cont.
  replace ((128 <=? b1) && (b1 <=? 191)) with true by lia.
  replace ((128 <=? b2) && (b2 <=? 191)) with true by lia.
  replace ((128 <=? b3) && (b3 <=? 191)) with true by lia.
  replace (65536 <=? c) with true by lia.
  replace (c <=? 1114111) with true by lia.
  reflexivity.
Qed.

Lemma Ok_inj {A} (a b : A) : Ok a = Ok b -> a = b.
Proof. intros H. now injection H. Qed.

Ltac eval_tests_in H :=
  repeat match type of H with
  | context [?a <=? ?b] =>
      first [ replace (a <=? b) with true in H by lia
            | replace (a <=? b) with false in H by lia ]
  | context [?a <? ?b] =>
      first [ replace (a <? b) with true in H by lia
            | replace (a <? b) with false in H by lia ]
  end;
  cbn [andb] in H.

Lemma decode_encode_char (c : char) (b r : bytes) :
  encode_char c = Ok b ->
  decode (b ++ r) = rbind (decode r) (fun s => Ok (c :: s)).
Proof.
  unfold encode_char, is_surrogate. intros Henc.
  assert (Hcases : c < 0 \/ 0 <= c < 128 \/ 128 <= c < 2048
                   \/ 2048 <= c < 55296 \/ 57343 < c < 65536
                   \/ 55296 <= c <= 57343
                   \/ 65536 <= c <= 1114111 \/ 1114111 < c) by lia.
  destruct Hcases as [H|[H|[H|[H|[H|[H|[H|H]]]]]]];
    eval_tests_in Henc; try discriminate Henc;
    apply Ok_inj in Henc; subst b; cbv [app].
  - apply decode_1. lia.
  - rewrite decode_2 by (Z.to_euclidean_division_equations; lia).
    replace ((192 + c / 64 - 192) * 64 + (128 + c mod 64 - 128)) with c
      by (Z.to_euclidean_division_equations; lia).
    reflexivity.
  - assert (Hc : (224 + c / 4096 - 224) * 4096
                 + (128 + (c / 64) mod 64 - 128) * 64
                 + (128 + c mod 64 - 128) = c)
      by (Z.to_euclidean_division_equations; lia).
    rewrite decode_3; rewrite ?Hc;
      try (Z.to_euclidean_division_equations; lia).
    reflexivity.
  - assert (Hc : (224 + c / 4096 - 224) * 4096
                 + (128 + (c / 64) mod 64 - 128) * 64
                 + (128 + c mod 64 - 128) = c)
      by (Z.to_euclidean_division_equations; lia).
    rewrite decode_3; rewrite ?Hc;
      try (Z.to_euclidean_division_equations; lia).
    reflexivity.
  - assert (Hc : (240 + c / 262144 - 240) * 262144
                 + (128 + (c / 4096) mod 64 - 128) * 4096
                 + (128 + (c / 64) mod 64 - 128) * 64
                 + (128 + c mod 64 - 128) = c)
      by (Z.to_euclidean_division_equations; lia).
    rewrite decode_4; rewrite ?Hc;
      try (Z.to_euclidean_division_equations; lia).
    reflexivity.
Qed.

Lemma decode_encode (s : str) (data : bytes) :
  encode s = Ok data -> decode data = Ok s.
Proof.
  revert data. induction s as [|c s IH]; intros data; simpl.
  - intros H. injection H as <-. reflexivity.
  - destruct (encode_char c) as [b|e] eqn:Ec; simpl; [|discriminate].
    destruct (encode s) as [r|e]; simpl; [|discriminate].
    intros H. injection H as <-.
    rewrite (decode_encode_char _ _ _ Ec), (IH r eq_refl). reflexivity.
Qed.

Lemma encode_ascii (s : str) :
  forallb is_ascii s = true -> encode s = Ok s.
Proof.
  induction s as [|c s IH]; simpl; [reflexivity|].
  intros H. apply andb_true_iff in H as [Hc Hs].
  unfold encode_char. unfold is_ascii in Hc. rewrite Hc. simpl.
  rewrite (IH Hs). reflexivity.
Qed.

(** ** Formatting and parsing back *)

Lemma join_terminated (sep : str) (l : list str) :
  l <> [] ->
  join sep (l ++ [sep]) = List.concat (map (fun x => x ++ sep) l) ++ sep.
Proof.
  induction l as [|a l IH]; [congruence|]. intros _.
  destruct l as [|b l].
  - simpl. now rewrite app_nil_r, <- app_assoc.
  - change (join sep ((a :: b :: l) ++ [sep]))
      with (a ++ sep ++ join sep ((b :: l) ++ [sep])).
    rewrite IH by discriminate.
    change (map (fun x => x ++ sep) (a :: b :: l))
      with ((a ++ sep) :: map (fun x => x ++ sep) (b :: l)).
    cbn [List.concat]. now rewrite <- !app_assoc.
Qed.

Lemma forallb_join (p : char -> bool) (sep : str) (ls : list str) :
  forallb p sep = true ->
  Forall (fun l => forallb p l = true) ls ->
  forallb p (join sep ls) = true.
Proof.
  intros Hsep. induction 1 as [|l ls Hl Hls IH]; [reflexivity|].
  destruct ls as [|l' ls]; [exact Hl|].
  change (join sep (l :: l' :: ls)) with (l ++ sep ++ join sep (l' :: ls)).
  now rewrite !forallb_app, Hl, Hsep, IH.
Qed.

Lemma forallb_imp (p q : char -> bool) (s : str) :
  (forall c, p c = true -> q c = true) ->
  forallb p s = true -> forallb q s = true.
Proof.
  intros Hpq. induction s as [|c s IH]; simpl; [reflexivity|].
  intros H. apply andb_true_iff in H as [Hc Hs].
  now rewrite (Hpq c Hc), (IH Hs).
Qed.

Lemma no_linebreak_app (a b : str) :
  no_linebreak a -> no_linebreak b -> no_linebreak (a ++ b).
Proof. unfold no_linebreak. intros Ha Hb. now rewrite forallb_app, Ha, Hb. Qed.

Lemma lstrip_space (c : char) (s : str) :
  is_space c = true -> lstrip (c :: s) = lstrip s.
Proof. intros H. cbn [lstrip]. now rewrite H. Qed.

Lemma strip_space (c : char) (s : str) :
  is_space c = true -> strip (c :: s) = strip s.
Proof. intros H. unfold strip. now rewrite lstrip_space. Qed.

Lemma lstrip_no_space (s : str) :
  forallb (fun c => negb (is_space c)) s = true -> lstrip s = s.
Proof.
  destruct s as [|c s]; simpl; [reflexivity|].
  intros H. apply andb_true_iff in H as [Hc _].
  apply negb_true_iff in Hc. now rewrite Hc.
Qed.

Lemma strip_no_space (s : str) :
  forallb (fun c => negb (is_space c)) s = true -> strip s = s.
Proof.
  intros H. unfold strip, rstrip. rewrite (lstrip_no_space s H).
  rewrite lstrip_no_space; [apply rev_involutive|].
  apply forallb_forall. intros c Hc. apply in_rev in Hc.
  rewrite forallb_forall in H. now apply H.
Qed.

Lemma str_of_uint_chars (u : Decimal.uint) :
  forallb is_int_char (str_of_uint u) = true.
Proof. induction u; simpl; auto. Qed.

Lemma str_of_int_chars (n : Z) : forallb is_int_char (str_of_int n) = true.
Proof.
  unfold str_of_int. destruct (Z.to_int n); simpl; apply str_of_uint_chars.
Qed.

Lemma str_of_int_ascii (n : Z) : forallb is_ascii (str_of_int n) = true.
Proof.
  apply (forallb_imp is_int_char); [|apply str_of_int_chars].
  unfold is_int_char, is_ascii. intros c H. lia.
Qed.

Lemma str_of_int_no_linebreak (n : Z) : no_linebreak (str_of_int n).
Proof.
  apply (forallb_imp is_int_char); [|apply str_of_int_chars].
  unfold is_int_char, is_linebreak. intros c H. lia.
Qed.

Lemma str_of_int_stripped (n : Z) : strip (str_of_int n) = str_of_int n.
Proof.
  apply strip_no_space.
  apply (forallb_imp is_int_char); [|apply str_of_int_chars].
  unfold is_int_char, is_space. intros c H. lia.
Qed.

Lemma nonempty_with_colon (name raw : str) : nonempty (name ++ 58 :: raw) = true.
Proof. destruct name; reflexivity. Qed.

Lemma _parse_sip_loop_step (ucd : UnicodeData) (i : nat) (name raw : str)
    (rest : list str) (method : option str) (headers : dict) (offset : Z) :
  ~ In 58 name ->
  _parse_sip_loop ucd (S i) ((name ++ 58 :: raw) :: rest) method headers offset
  = _parse_sip_loop ucd (S (S i)) rest method
      (dict_set (lower ucd name) (strip raw) headers)
      (offset + len (name ++ 58 :: raw) + len _CRLF).
Proof.
  intros Hno. cbn [_parse_sip_loop Nat.eqb].
  rewrite nonempty_with_colon, split1_at_first by assumption.
  reflexivity.
Qed.

Lemma _parse_sip_loop_formatted (ucd : UnicodeData) (pairs : dict) :
  forall i method headers offset tail,
    Forall (fun kv => ~ In 58 (fst kv) /\ strip (snd kv) = snd kv) pairs ->
    _parse_sip_loop ucd (S i) (map format_header pairs ++ [] :: tail)
      method headers offset
    = Ok (method,
          fold_left (fun d kv => dict_set (lower ucd (fst kv)) (snd kv) d)
                    pairs headers,
          offset + len (crlf_lines (map format_header pairs))).
Proof.
  induction pairs as [|[k v] pairs IH]; intros i m d off tail Hall.
  - cbn [map app _parse_sip_loop Nat.eqb nonempty negb fold_left].
    f_equal. f_equal. unfold crlf_lines, len. simpl. lia.
  - inversion Hall as [|? ? [Hk Hv] Hrest]; subst. simpl in Hk, Hv.
    cbn [map app fold_left fst snd].
    change (format_header (k, v)) with (k ++ 58 :: 32 :: v).
    rewrite _parse_sip_loop_step by assumption.
    rewrite IH by assumption.
    rewrite strip_space by reflexivity. rewrite Hv.
    f_equal. f_equal.
    rewrite len_crlf_lines_cons. lia.
Qed.

Lemma _parse_sip_formatted (ucd : UnicodeData) (status tok : str)
    (toks : list str) (pairs : dict) (body : str) :
  no_linebreak status ->
  split status = tok :: toks ->
  Forall (fun kv => ~ In 58 (fst kv) /\ strip (snd kv) = snd kv) pairs ->
  Forall (fun kv => no_linebreak (fst kv) /\ no_linebreak (snd kv)) pairs ->
  _parse_sip ucd
    (join _CRLF ([status] ++ map format_header pairs ++ [_CRLF]) ++ body)
  = Ok (Some tok,
        fold_left (fun d kv => dict_set (lower ucd (fst kv)) (snd kv) d)
                  pairs [],
        _CRLF ++ body).
Proof.
  intros Hstatus Htok Hpairs Hnl.
  assert (Hne : nonempty status = true)
    by (destruct status; [discriminate Htok|reflexivity]).
  change ([status] ++ map format_header pairs ++ [_CRLF])
    with ((status :: map format_header pairs) ++ [_CRLF]).
  rewrite join_terminated by discriminate.
  fold (crlf_lines (status :: map format_header pairs)).
  rewrite <- app_assoc. unfold _parse_sip.
  rewrite splitlines_crlf_lines.
  2:{ constructor; [assumption|]. clear Hpairs.
      induction Hnl as [|[k v] ps [Hk Hv] _ IH]; constructor; [|exact IH].
      change (format_header (k, v)) with (k ++ py ": " ++ v).
      cbn [fst snd] in *.
      apply no_linebreak_app; [assumption|].
      apply no_linebreak_app; [reflexivity|assumption]. }
  change (_CRLF ++ body) with ([] ++ _CRLF ++ body) at 1.
  rewrite (splitlines_line_crlf [] body) by reflexivity.
  rewrite <- app_comm_cons. cbn [_parse_sip_loop Nat.eqb].
  rewrite Hne, Htok. cbn [getitem nth_error rbind].
  rewrite _parse_sip_loop_formatted by assumption. cbn [rbind].
  match goal with
  | |- context [slice_from ?n _] =>
      replace n with (len (crlf_lines (status :: map format_header pairs)))
        by (rewrite len_crlf_lines_cons; lia)
  end.
  now rewrite slice_from_len_app.
Qed.

Lemma body_ascii (server_ip port : str) :
  forallb is_ascii server_ip = true ->
  forallb is_ascii port = true ->
  forallb is_ascii (join _CRLF (body_lines server_ip port)) = true.
Proof.
  intros Hip Hport. apply forallb_join; [reflexivity|].
  unfold body_lines.
  repeat constructor; rewrite ?forallb_app, ?Hip, ?Hport; reflexivity.
Qed.

(** The datagram built by [answer], decoded and parsed back. *)
Lemma response_bytes_round_trip
    (ucd : UnicodeData) (headers : dict) (via from to call_id contact : str)
    (server_ip : str) (server_rtp_port : Z) (data : bytes) :
  dict_get (py "via") headers = Some via ->
  dict_get (py "from") headers = Some from ->
  dict_get (py "to") headers = Some to ->
  dict_get (py "call-id") headers = Some call_id ->
  dict_get (py "cseq") headers = Some (py "1 INVITE") ->
  dict_get (py "contact") headers = Some contact ->
  header_value via -> header_value from -> header_value to ->
  header_value call_id -> header_value contact ->
  forallb is_ascii server_ip = true ->
  response_bytes headers server_ip server_rtp_port = Ok data ->
  exists method parsed rest body body_bytes,
    parse_datagram ucd data = Ok (method, parsed, rest)
    /\ dict_get (py "via") parsed = Some via
    /\ dict_get (py "from") parsed = Some from
    /\ dict_get (py "to") parsed = Some to
    /\ dict_get (py "call-id") parsed = Some call_id
    /\ dict_get (py "cseq") parsed = Some (py "1 INVITE")
    /\ dict_get (py "contact") parsed = Some contact
    /\ answer_body server_ip server_rtp_port = Ok body
    /\ encode body = Ok body_bytes
    /\ dict_get (py "content-length") parsed = Some (str_of_int (len body_bytes)).
Proof.
  intros Hvia Hfrom Hto Hcall Hcseq Hcontact
         [Sv Lv] [Sf Lf] [St Lt] [Sc Lc] [Sk Lk] Hip Hresp.
  unfold response_bytes, answer_body, format_int in *.
  destruct (10 ^ int_max_str_digits <=? Z.abs server_rtp_port);
    [discriminate Hresp|].
  cbn [rbind] in *.
  set (body := join _CRLF (body_lines server_ip (str_of_int server_rtp_port)))
    in *.
  unfold response_headers, dict_getitem in Hresp.
  rewrite Hvia, Hfrom, Hto, Hcall, Hcseq, Hcontact in Hresp.
  cbn [rbind] in Hresp. apply decode_encode in Hresp.
  assert (Hbody : forallb is_ascii body = true)
    by (apply body_ascii; [assumption | apply str_of_int_ascii]).
  eexists. eexists. eexists. exists body, body.
  split.
  { unfold parse_datagram. rewrite Hresp. cbn [rbind].
    unfold response_str, response_lines.
    apply (_parse_sip_formatted ucd _ (py "SIP/2.0") [py "200"; py "OK"]).
    - reflexivity.
    - reflexivity.
    - repeat constructor; cbn [fst snd];
        try assumption; try reflexivity;
        try apply str_of_int_stripped;
        try (vm_compute; intuition discriminate).
    - repeat constructor; cbn [fst snd];
        try assumption; try reflexivity; apply str_of_int_no_linebreak. }
  repeat split; try reflexivity.
  now apply encode_ascii.
Qed.

(** Where the round trip holds in full: let the header values be as
    [_parse_sip] yields them (trimmed, no line boundary) and the local
    address be ASCII.  Then the datagram a successful [answer] hands to
    the transport decodes and parses to a mapping that holds [via],
    [from], [to], [call-id], [cseq] ([1 INVITE]) and [contact]
    unchanged, and whose [content-length] is the byte length of the
    encoded body in decimal. *)
Theorem answer_response_round_trip
    (ucd : UnicodeData) (self self' : SIPDatagramProtocol) (t : Transport)
    (headers : dict) (via from to call_id contact : str)
    (caller_ip : str) (caller_sip_port : Z)
    (server_ip : str) (server_rtp_port : Z) :
  dict_get (py "via") headers = Some via ->
  dict_get (py "from") headers = Some from ->
  dict_get (py "to") headers = Some to ->
  dict_get (py "call-id") headers = Some call_id ->
  dict_get (py "cseq") headers = Some (py "1 INVITE") ->
  dict_get (py "contact") headers = Some contact ->
  header_value via -> header_value from -> header_value to ->
  header_value call_id -> header_value contact ->
  forallb is_ascii server_ip = true ->
  transport self = Some t ->
  answer self headers caller_ip caller_sip_port server_ip server_rtp_port
  = (Ok tt, self') ->
  exists data method parsed rest body body_bytes,
    transport self'
    = Some {| sent := sent t ++ [(data, (caller_ip, caller_sip_port))] |}
    /\ parse_datagram ucd data = Ok (method, parsed, rest)
    /\ dict_get (py "via") parsed = Some via
    /\ dict_get (py "from") parsed = Some from
    /\ dict_get (py "to") parsed = Some to
    /\ dict_get (py "call-id") parsed = Some call_id
    /\ dict_get (py "cseq") parsed = Some (py "1 INVITE")
    /\ dict_get (py "contact") parsed = Some contact
    /\ answer_body server_ip server_rtp_port = Ok body
    /\ encode body = Ok body_bytes
    /\ dict_get (py "content-length") parsed = Some (str_of_int (len body_bytes)).
Proof.
  intros Hvia Hfrom Hto Hcall Hcseq Hcontact Vv Vf Vt Vc Vk Hip Ht Hans.
  unfold answer in Hans. rewrite Ht in Hans.
  destruct (response_bytes headers server_ip server_rtp_port)
    as [data|e] eqn:Hresp; [|discriminate Hans].
  apply pair_equal_spec in Hans as [_ <-].
  destruct (response_bytes_round_trip ucd headers via from to call_id contact
              server_ip server_rtp_port data)
    as (method & parsed & rest & body & body_bytes & Hround);
    try assumption.
  exists data, method, parsed, rest, body, body_bytes.
  split; [reflexivity | exact Hround].
Qed.

Lemma answer_round_trip_witness :
  exists data method parsed rest body body_bytes,
    transport answered_protocol
    = Some {| sent := [] ++ [(data, (py "192.0.2.20", 5060))] |}
    /\ parse_datagram ascii_tables data = Ok (method, parsed, rest)
    /\ dict_get (py "via") parsed = Some (py "SIP/2.0/UDP 192.0.2.20:5060")
    /\ dict_get (py "from") parsed = Some (py "<sip:caller@192.0.2.20>;tag=1")
    /\ dict_get (py "to") parsed = Some (py "<sip:192.0.2.10:5060>;tag=abc")
    /\ dict_get (py "call-id") parsed = Some (py "a84b4c76e66710")
    /\ dict_get (py "cseq") parsed = Some (py "1 INVITE")
    /\ dict_get (py "contact") parsed = Some (py "<sip:caller@192.0.2.20:5060>")
    /\ answer_body (py "192.0.2.10") 5004 = Ok body
    /\ encode body = Ok body_bytes
    /\ dict_get (py "content-length") parsed = Some (str_of_int (len body_bytes)).
Proof.
  apply (answer_response_round_trip ascii_tables
           bound_protocol answered_protocol {| sent := [] |} headers_example
           (py "SIP/2.0/UDP 192.0.2.20:5060")
           (py "<sip:caller@192.0.2.20>;tag=1")
           (py "<sip:192.0.2.10:5060>;tag=abc")
           (py "a84b4c76e66710")
           (py "<sip:caller@192.0.2.20:5060>")
           (py "192.0.2.20") 5060 (py "192.0.2.10") 5004);
    try reflexivity; split; reflexivity.
Defined.

(** C5: the round trip fails on an address the receive path itself
    hands out.  An invitation whose [To] header writes our address
    with the digits U+0661..U+0664 is accepted, since [\d] takes any
    decimal digit, and [on_call] gets that address as [server_ip].
    Answering with the headers and the address of that call sends a
    datagram whose six dialog headers parse back unchanged, but whose
    [Content-Length] is 192, the number of characters of the body
    ([len(body)] on the [str]), while the body that follows it on the
    wire is 200 bytes of UTF-8. *)
Theorem answer_content_length_is_not_byte_length :
  datagram_received arabic_indic_tables invite_to_arabic_indic
    (py "192.0.2.20", 5060)
  = (Ok tt,
     [ LogDebugIncoming (py "192.0.2.20") 5060;
       LogDebugServerIp arabic_indic_address;
       OnCall call_to_arabic_indic ])
  /\ exists data parsed body body_bytes,
       answer bound_protocol (headers call_to_arabic_indic)
         (caller_ip call_to_arabic_indic) (caller_sip_port call_to_arabic_indic)
         (server_ip call_to_arabic_indic) 5004
       = (Ok tt, {| transport := Some (sendto {| sent := [] |} data
                                         (py "192.0.2.20", 5060)) |})
       /\ parse_datagram arabic_indic_tables data
          = Ok (Some (py "SIP/2.0"), parsed, _CRLF ++ body)
       /\ dict_get (py "via") parsed
          = dict_get (py "via") (headers call_to_arabic_indic)
       /\ dict_get (py "from") parsed
          = dict_get (py "from") (headers call_to_arabic_indic)
       /\ dict_get (py "to") parsed
          = dict_get (py "to") (headers call_to_arabic_indic)
       /\ dict_get (py "call-id") parsed
          = dict_get (py "call-id") (headers call_to_arabic_indic)
       /\ dict_get (py "cseq") parsed = Some (py "1 INVITE")
       /\ dict_get (py "contact") parsed
          = dict_get (py "contact") (headers call_to_arabic_indic)
       /\ answer_body (server_ip call_to_arabic_indic) 5004 = Ok body
       /\ encode body = Ok body_bytes
       /\ dict_get (py "content-length") parsed = Some (py "192")
       /\ len body = 192
       /\ len body_bytes = 200.
Proof.
  split; [vm_compute; reflexivity|].
  destruct (response_bytes (headers call_to_arabic_indic)
              arabic_indic_address 5004)
    as [data|e] eqn:Hd; [|vm_compute in Hd; discriminate Hd].
  destruct (parse_datagram arabic_indic_tables data)
    as [[[method parsed] rest]|e] eqn:Hp.
  2:{ vm_compute in Hd. injection Hd as <-. vm_compute in Hp. discriminate Hp. }
  destruct (answer_body arabic_indic_address 5004) as [body|e] eqn:Hb;
    [|vm_compute in Hb; discriminate Hb].
  destruct (encode body) as [body_bytes|e] eqn:He.
  2:{ vm_compute in Hb. injection Hb as <-. vm_compute in He. discriminate He. }
  exists data, parsed, body, body_bytes.
  split.
  { unfold answer. cbn [transport bound_protocol connection_made server_ip
                        headers call_to_arabic_indic].
    change (transport bound_protocol) with (Some {| sent := [] |}).
    cbn [server_ip headers call_to_arabic_indic] in Hd. rewrite Hd.
    reflexivity. }
  cbn [server_ip call_to_arabic_indic]. rewrite Hb, He.
  vm_compute in Hd. injection Hd as <-.
  vm_compute in Hp. injection Hp as <- <- <-.
  vm_compute in Hb. injection Hb as <-.
  vm_compute in He. injection He as <-.
  repeat split; vm_compute; reflexivity.
Qed.

(** ** What [_parse_sip] yields as header values *)

Lemma in_take_nonempty (l : str) (lines : list str) :
  In l (take_nonempty lines) -> In l lines.
Proof.
  induction lines as [|x lines IH]; simpl; [tauto|].
  destruct (nonempty x); simpl; [|tauto]. intros [H|H]; auto.
Qed.

Lemma in_tl {A} (x : A) (l : list A) : In x (tl l) -> In x l.
Proof. destruct l; simpl; auto. Qed.

Lemma splitlines_no_linebreak_upto (n : nat) :
  forall s, (List.length s <= n)%nat ->
    forall l, In l (splitlines s) -> no_linebreak l.
Proof.
  induction n as [|n IH]; intros s Hn l.
  - destruct s; [contradiction|simpl in Hn; lia].
  - destruct s as [|c s]; [contradiction|]. simpl in Hn.
    cbn [splitlines]. destruct (is_linebreak c) eqn:Ec.
    + intros [<-|Hin]; [reflexivity|].
      destruct s as [|d s']; [contradiction|].
      destruct ((c =? CR) && (d =? LF)); (eapply IH; [|exact Hin]);
        simpl in Hn |- *; lia.
    + destruct (splitlines s) as [|l0 ls] eqn:Es.
      * intros [<-|[]]. unfold no_linebreak. simpl. now rewrite Ec.
      * intros [<-|Hin].
        -- unfold no_linebreak. simpl. rewrite Ec. simpl.
           apply (IH s); [lia|]. rewrite Es. now left.
        -- apply (IH s); [lia|]. rewrite Es. now right.
Qed.

Lemma splitlines_no_linebreak (s l : str) :
  In l (splitlines s) -> no_linebreak l.
Proof. apply (splitlines_no_linebreak_upto (List.length s)). lia. Qed.

(** [lstrip] cuts a run of blanks off the front. *)
Lemma lstrip_spec (s : str) :
  exists ws, s = ws ++ lstrip s /\ forallb is_space ws = true.
Proof.
  induction s as [|c s (ws & Hs & Hws)]; simpl.
  - exists []. auto.
  - destruct (is_space c) eqn:Ec.
    + exists (c :: ws). simpl. rewrite Ec, Hws. split; [congruence|reflexivity].
    + exists []. auto.
Qed.

Lemma lstrip_starts_clean (s : str) : starts_clean (lstrip s).
Proof.
  induction s as [|c s IH]; simpl; [exact I|].
  destruct (is_space c) eqn:Ec; [exact IH|exact Ec].
Qed.

Lemma lstrip_clean (s : str) : starts_clean s -> lstrip s = s.
Proof. destruct s as [|c s]; simpl; [reflexivity|]. now intros ->. Qed.

Lemma rstrip_spec (s : str) :
  exists ws, s = rstrip s ++ ws /\ forallb is_space ws = true.
Proof.
  unfold rstrip. destruct (lstrip_spec (rev s)) as (ws & Hs & Hws).
  exists (rev ws). split.
  - rewrite <- rev_app_distr, <- Hs. symmetry. apply rev_involutive.
  - apply forallb_forall. intros c Hc. apply in_rev in Hc.
    rewrite forallb_forall in Hws. now apply Hws.
Qed.

Lemma rstrip_starts_clean (s : str) : starts_clean s -> starts_clean (rstrip s).
Proof.
  destruct (rstrip_spec s) as (ws & Hs & _).
  destruct (rstrip s) as [|c r]; [intros; exact I|].
  rewrite Hs. simpl. auto.
Qed.

Lemma rstrip_idempotent (s : str) : rstrip (rstrip s) = rstrip s.
Proof.
  unfold rstrip. rewrite rev_involutive.
  now rewrite (lstrip_clean _ (lstrip_starts_clean (rev s))).
Qed.

Lemma strip_idempotent (s : str) : strip (strip s) = strip s.
Proof.
  unfold strip.
  rewrite (lstrip_clean (rstrip (lstrip s)))
    by apply rstrip_starts_clean, lstrip_starts_clean.
  apply rstrip_idempotent.
Qed.

Lemma strip_keeps (p : char -> bool) (s : str) :
  forallb p s = true -> forallb p (strip s) = true.
Proof.
  unfold strip. intros H.
  destruct (lstrip_spec s) as (ws & Hs & _).
  destruct (rstrip_spec (lstrip s)) as (ws' & Hs' & _).
  rewrite Hs, Hs', !forallb_app in H.
  apply andb_true_iff in H as [_ H]. now apply andb_true_iff in H as [H _].
Qed.

(** Every value of the mapping [_parse_sip] returns is trimmed and
    holds no line boundary. *)
Lemma parsed_values_are_header_values (ucd : UnicodeData) (message : str)
    (method : option str) (headers : dict) (body : str) :
  _parse_sip ucd message = Ok (method, headers, body) ->
  forall key value, dict_get key headers = Some value -> header_value value.
Proof.
  intros Hp key value Hget.
  apply _parse_sip_headers in Hp as [_ Hlast].
  rewrite Hlast in Hget. apply last_of_spec in Hget as [Hl|[Hd _]];
    [|discriminate Hd].
  destruct Hl as (before & line & after & Hlines & Hline & _).
  destruct Hline as (name & raw & -> & _ & _ & ->).
  split; [apply strip_idempotent|].
  apply strip_keeps.
  assert (Hin : In (name ++ 58 :: raw) (splitlines message)).
  { apply (in_tl _ (splitlines message)).
    apply (in_take_nonempty _ (tl (splitlines message))).
    fold (header_lines message). rewrite Hlines. apply in_elt. }
  apply splitlines_no_linebreak in Hin. unfold no_linebreak in Hin.
  rewrite forallb_app in Hin. apply andb_true_iff in Hin as [_ Hin].
  exact Hin.
Qed.

(** ** Text that can be encoded *)

Lemma ascii_is_scalar (c : char) : is_ascii c = true -> is_scalar c = true.
Proof. unfold is_ascii, is_scalar, is_surrogate. lia. Qed.

Lemma encode_char_scalar (c : char) :
  is_scalar c = true -> exists b, encode_char c = Ok b.
Proof.
  unfold encode_char, is_scalar, is_surrogate. intros H.
  assert (Hcases : 0 <= c < 128 \/ 128 <= c < 2048 \/ 2048 <= c < 55296
                   \/ 57343 < c < 65536 \/ 65536 <= c <= 1114111) by lia.
  destruct Hcases as [Hc|[Hc|[Hc|[Hc|Hc]]]];
    repeat match goal with
    | |- context [?a <=? ?b] =>
        first [ replace (a <=? b) with true by lia
              | replace (a <=? b) with false by lia ]
    | |- context [?a <? ?b] =>
        first [ replace (a <? b) with true by lia
              | replace (a <? b) with false by lia ]
    end; cbn [andb]; eexists; reflexivity.
Qed.

Lemma encode_total (s : str) :
  forallb is_scalar s = true -> exists data, encode s = Ok data.
Proof.
  induction s as [|c s IH]; simpl; [eauto|].
  intros H. apply andb_true_iff in H as [Hc Hs].
  destruct (encode_char_scalar c Hc) as [b ->].
  destruct (IH Hs) as [r ->]. simpl. eauto.
Qed.

Lemma decode_scalar_upto (n : nat) :
  forall data s, (List.length data <= n)%nat ->
    decode data = Ok s -> forallb is_scalar s = true.
Proof.
  induction n as [|n IH]; intros data s Hn.
  - destruct data; [|simpl in Hn; lia]. simpl. intros H.
    apply Ok_inj in H. now subst s.
  - destruct data as [|b0 r0]; cbn [decode].
    { intros H. apply Ok_inj in H. now subst s. }
    assert (Hrec : forall r c, (List.length r <= n)%nat ->
              is_scalar c = true ->
              rbind (decode r) (fun s => Ok (c :: s)) = Ok s ->
              forallb is_scalar s = true).
    { intros r c Hlen Hc H. destruct (decode r) as [s'|e] eqn:E;
        simpl in H; [|discriminate H].
      apply Ok_inj in H. subst s. simpl. rewrite Hc. simpl.
      eapply IH; eauto. }
    simpl in Hn.
    destruct ((0 <=? b0) && (b0 <? 128)) eqn:E1.
    { apply Hrec; [lia|]. unfold is_scalar, is_surrogate. lia. }
    destruct ((194 <=? b0) && (b0 <=? 223)) eqn:E2.
    { destruct r0 as [|b1 r1]; [discriminate|].
      unfold is_cont. destruct ((128 <=? b1) && (b1 <=? 191)) eqn:E3;
        [|discriminate].
      apply Hrec; [simpl in Hn; lia|]. unfold is_scalar, is_surrogate. lia. }
    destruct ((224 <=? b0) && (b0 <=? 239)) eqn:E3.
    { destruct r0 as [|b1 [|b2 r2]]; try discriminate. cbv zeta.
      destruct (is_cont b1 && is_cont b2 && _ && negb _) eqn:E4;
        [|discriminate].
      apply Hrec; [simpl in Hn; lia|].
      unfold is_cont, is_scalar, is_surrogate in *. lia. }
    destruct ((240 <=? b0) && (b0 <=? 244)) eqn:E4; [|discriminate].
    destruct r0 as [|b1 [|b2 [|b3 r3]]]; try discriminate. cbv zeta.
    destruct (is_cont b1 && is_cont b2 && is_cont b3 && _ && _) eqn:E5;
      [|discriminate].
    apply Hrec; [simpl in Hn; lia|].
    unfold is_cont, is_scalar, is_surrogate in *. lia.
Qed.

(** Decoded text holds scalar values only. *)
Lemma decode_scalar (data : bytes) (s : str) :
  decode data = Ok s -> forallb is_scalar s = true.
Proof. apply (decode_scalar_upto (List.length data)). lia. Qed.

Lemma splitlines_keeps_upto (p : char -> bool) (n : nat) :
  forall s, (List.length s <= n)%nat -> forallb p s = true ->
    forall l, In l (splitlines s) -> forallb p l = true.
Proof.
  induction n as [|n IH]; intros s Hn Hs l.
  - destruct s; [contradiction|simpl in Hn; lia].
  - destruct s as [|c s]; [contradiction|]. simpl in Hn, Hs.
    apply andb_true_iff in Hs as [Hc Hs].
    cbn [splitlines]. destruct (is_linebreak c).
    + intros [<-|Hin]; [reflexivity|].
      destruct s as [|d s']; [contradiction|].
      simpl in Hs. apply andb_true_iff in Hs as [Hd Hs'].
      destruct ((c =? CR) && (d =? LF)).
      * apply (IH s'); [simpl in Hn; lia|exact Hs'|exact Hin].
      * apply (IH (d :: s')); [lia| |exact Hin]. simpl. now rewrite Hd.
    + destruct (splitlines s) as [|l0 ls] eqn:Es.
      * intros [<-|[]]. simpl. now rewrite Hc.
      * intros [<-|Hin].
        -- simpl. rewrite Hc. simpl.
           apply (IH s); [lia|exact Hs|]. rewrite Es. now left.
        -- apply (IH s); [lia|exact Hs|]. rewrite Es. now right.
Qed.

Lemma splitlines_keeps (p : char -> bool) (s l : str) :
  forallb p s = true -> In l (splitlines s) -> forallb p l = true.
Proof.
  intros Hs Hin.
  now apply (splitlines_keeps_upto p (List.length s) s (Nat.le_refl _) Hs).
Qed.

(** A value of the mapping is the trimmed text after the first colon
    of a line of the message. *)
Lemma parsed_value_origin (ucd : UnicodeData) (message : str)
    (method : option str) (headers : dict) (body : str) :
  _parse_sip ucd message = Ok (method, headers, body) ->
  forall key value, dict_get key headers = Some value ->
    exists name raw,
      In (name ++ 58 :: raw) (splitlines message) /\ value = strip raw.
Proof.
  intros Hp key value Hget.
  apply _parse_sip_headers in Hp as [_ Hlast].
  rewrite Hlast in Hget. apply last_of_spec in Hget as [Hl|[Hd _]];
    [|discriminate Hd].
  destruct Hl as (before & line & after & Hlines & Hline & _).
  destruct Hline as (name & raw & -> & _ & _ & ->).
  exists name, raw. split; [|reflexivity].
  apply (in_tl _ (splitlines message)).
  apply (in_take_nonempty _ (tl (splitlines message))).
  fold (header_lines message). rewrite Hlines. apply in_elt.
Qed.

Lemma parsed_values_keep (p : char -> bool) (ucd : UnicodeData)
    (message : str) (method : option str) (headers : dict) (body : str) :
  _parse_sip ucd message = Ok (method, headers, body) ->
  forallb p message = true ->
  forall key value, dict_get key headers = Some value ->
    forallb p value = true.
Proof.
  intros Hp Hm key value Hget.
  destruct (parsed_value_origin _ _ _ _ _ Hp key value Hget)
    as (name & raw & Hin & ->).
  apply strip_keeps. apply (splitlines_keeps p _ _ Hm) in Hin.
  rewrite forallb_app in Hin. apply andb_true_iff in Hin as [_ Hin].
  simpl in Hin. now apply andb_true_iff in Hin as [_ Hin].
Qed.

Lemma ascii_text_is_scalar (s : str) :
  forallb is_ascii s = true -> forallb is_scalar s = true.
Proof. apply forallb_imp, ascii_is_scalar. Qed.

Lemma format_int_ok (n : Z) :
  Z.abs n < 10 ^ int_max_str_digits -> format_int n = Ok (str_of_int n).
Proof.
  intros H. unfold format_int.
  apply Z.leb_gt in H. now rewrite H.
Qed.

Lemma udp_port_formats (port : Z) :
  0 <= port <= 65535 -> format_int port = Ok (str_of_int port).
Proof.
  intros H. apply format_int_ok.
  assert (Hpow : (65535 <? 10 ^ int_max_str_digits) = true)
    by (vm_compute; reflexivity).
  apply Z.ltb_lt in Hpow. rewrite Z.abs_eq by lia.
  eapply Z.le_lt_trans; [apply H|exact Hpow].
Qed.

(** When the transport is bound, the six headers are there, all text
    is valid and the port can be rendered, [answer] hands exactly one
    datagram to the transport, addressed to the caller. *)
Lemma answer_sends
    (self : SIPDatagramProtocol) (t : Transport) (headers : dict)
    (via from to call_id cseq contact : str)
    (caller_ip : str) (caller_sip_port : Z)
    (server_ip : str) (server_rtp_port : Z) :
  transport self = Some t ->
  dict_get (py "via") headers = Some via ->
  dict_get (py "from") headers = Some from ->
  dict_get (py "to") headers = Some to ->
  dict_get (py "call-id") headers = Some call_id ->
  dict_get (py "cseq") headers = Some cseq ->
  dict_get (py "contact") headers = Some contact ->
  forallb is_scalar via = true -> forallb is_scalar from = true ->
  forallb is_scalar to = true -> forallb is_scalar call_id = true ->
  forallb is_scalar cseq = true -> forallb is_scalar contact = true ->
  forallb is_scalar server_ip = true ->
  Z.abs server_rtp_port < 10 ^ int_max_str_digits ->
  exists data,
    response_bytes headers server_ip server_rtp_port = Ok data
    /\ answer self headers caller_ip caller_sip_port server_ip server_rtp_port
       = (Ok tt, {| transport := Some (sendto t data (caller_ip, caller_sip_port)) |}).
Proof.
  intros Ht Hvia Hfrom Hto Hcall Hcseq Hcontact Sv Sf St Sc Sq Sk Sip Hport.
  assert (Hsp : forallb is_scalar (str_of_int server_rtp_port) = true)
    by apply ascii_text_is_scalar, str_of_int_ascii.
  assert (Hex : exists data,
            response_bytes headers server_ip server_rtp_port = Ok data).
  { unfold response_bytes, answer_body. rewrite format_int_ok by assumption.
    cbn [rbind]. unfold response_headers, dict_getitem.
    rewrite Hvia, Hfrom, Hto, Hcall, Hcseq, Hcontact. cbn [rbind].
    apply encode_total. unfold response_str.
    rewrite forallb_app. apply andb_true_intro. split.
    - apply forallb_join; [reflexivity|].
      unfold response_lines. cbn [map app format_header].
      repeat constructor; rewrite ?forallb_app;
        repeat (apply andb_true_intro; split);
        try assumption; try reflexivity.
      apply ascii_text_is_scalar, str_of_int_ascii.
    - apply forallb_join; [reflexivity|].
      unfold body_lines.
      repeat constructor; rewrite ?forallb_app;
        repeat (apply andb_true_intro; split);
        try assumption; reflexivity. }
  destruct Hex as [data Hdata]. exists data. split; [exact Hdata|].
  unfold answer. now rewrite Ht, Hdata.
Qed.

(** ** From an inbound datagram to the answer and back

    The headers of any datagram the codec accepts meet what the round
    trip asks of them: answering with them succeeds, and the reply
    parses back to the same dialog headers. *)
Corollary answer_to_parsed_datagram
    (ucd : UnicodeData) (inbound : bytes)
    (method0 : option str) (headers : dict) (body0 : str)
    (self : SIPDatagramProtocol) (t : Transport)
    (via from to call_id contact : str)
    (caller_ip : str) (caller_sip_port : Z)
    (server_ip : str) (server_rtp_port : Z) :
  parse_datagram ucd inbound = Ok (method0, headers, body0) ->
  dict_get (py "via") headers = Some via ->
  dict_get (py "from") headers = Some from ->
  dict_get (py "to") headers = Some to ->
  dict_get (py "call-id") headers = Some call_id ->
  dict_get (py "cseq") headers = Some (py "1 INVITE") ->
  dict_get (py "contact") headers = Some contact ->
  forallb is_ascii server_ip = true ->
  0 <= server_rtp_port <= 65535 ->
  transport self = Some t ->
  exists data method parsed rest body body_bytes,
    answer self headers caller_ip caller_sip_port server_ip server_rtp_port
    = (Ok tt, {| transport := Some (sendto t data (caller_ip, caller_sip_port)) |})
    /\ parse_datagram ucd data = Ok (method, parsed, rest)
    /\ dict_get (py "via") parsed = Some via
    /\ dict_get (py "from") parsed = Some from
    /\ dict_get (py "to") parsed = Some to
    /\ dict_get (py "call-id") parsed = Some call_id
    /\ dict_get (py "cseq") parsed = Some (py "1 INVITE")
    /\ dict_get (py "contact") parsed = Some contact
    /\ answer_body server_ip server_rtp_port = Ok body
    /\ encode body = Ok body_bytes
    /\ dict_get (py "content-length") parsed = Some (str_of_int (len body_bytes)).
Proof.
  intros Hin Hvia Hfrom Hto Hcall Hcseq Hcontact Hip Hport Ht.
  unfold parse_datagram in Hin.
  destruct (decode inbound) as [message|e] eqn:Hd; [|discriminate Hin].
  cbn [rbind] in Hin. apply decode_scalar in Hd.
  pose proof (parsed_values_are_header_values _ _ _ _ _ Hin) as Hval.
  pose proof (parsed_values_keep is_scalar _ _ _ _ _ Hin Hd) as Hsc.
  destruct (answer_sends self t headers via from to call_id (py "1 INVITE")
              contact caller_ip caller_sip_port server_ip server_rtp_port)
    as (data & Hresp & Hans); eauto using ascii_text_is_scalar.
  { apply Z.leb_gt. pose proof (udp_port_formats _ Hport) as Hf.
    unfold format_int in Hf.
    destruct (10 ^ int_max_str_digits <=? Z.abs server_rtp_port);
      [discriminate Hf|reflexivity]. }
  destruct (response_bytes_round_trip ucd headers via from to call_id contact
              server_ip server_rtp_port data)
    as (method & parsed & rest & body & body_bytes & Hround); eauto.
  exists data, method, parsed, rest, body, body_bytes. auto.
Qed.

(** * Further properties *)

(** ** What the receive path does with a datagram *)

Lemma split_tokens_nonempty (s t : str) : In t (split s) -> t <> [].
Proof.
  revert t. induction s as [|c s IH]; intros t; cbn [split]; [contradiction|].
  destruct (is_space c); [apply IH|].
  destruct s as [|d s']; [intros [<-|[]]; discriminate|].
  destruct (is_space d).
  - intros [<-|Hin]; [discriminate|now apply IH].
  - destruct (split (d :: s')) as [|t0 ts].
    + intros [<-|[]]. discriminate.
    + intros [<-|Hin]; [discriminate|]. apply IH. now right.
Qed.

Lemma _parse_sip_method_token (ucd : UnicodeData) (message : str)
    (method : option str) (headers : dict) (body : str) :
  _parse_sip ucd message = Ok (method, headers, body) ->
  match method with
  | None => message = []
  | Some m =>
      exists line rest toks,
        splitlines message = line :: rest /\ split line = m :: toks
  end.
Proof.
  unfold _parse_sip. intros H.
  destruct (splitlines message) as [|line rest] eqn:E.
  - simpl in H. injection H as <- _ _. now apply splitlines_nil.
  - cbn [_parse_sip_loop Nat.eqb] in H.
    destruct (split line) as [|tok toks] eqn:Es; [discriminate H|].
    cbn [getitem nth_error rbind] in H.
    destruct (_parse_sip_loop ucd 1 rest (Some tok) [] _)
      as [[[m hs] off]|e] eqn:El; cbn [rbind] in H; [|discriminate H].
    apply _parse_sip_loop_keeps_method in El. subst m.
    injection H as <- _ _. eauto.
Qed.

(** X1: a datagram whose request method is present and is not
    [invite] in any letter case is dropped without a trace: no
    [on_call], no log record, whatever its headers and body hold. *)
Theorem other_method_is_ignored
    (ucd : UnicodeData) (data : bytes) (addr : address)
    (message method : str) (headers : dict) (body : str) :
  decode data = Ok message ->
  _parse_sip ucd message = Ok (Some method, headers, body) ->
  lower ucd method <> py "invite" ->
  datagram_received ucd data addr = (Ok tt, []).
Proof.
  intros Hd Hp Hm.
  destruct (_parse_sip_method_token _ _ _ _ _ Hp)
    as (line & rest & toks & _ & Hs).
  assert (Hne : method <> [])
    by (apply (split_tokens_nonempty line); rewrite Hs; now left).
  unfold datagram_received, datagram_received_try, try_except.
  rewrite Hd. cbn [lift mbind app]. rewrite Hp. cbn [lift mbind app].
  apply str_eqb_neq in Hm. rewrite Hm.
  destruct method; [congruence|]. reflexivity.
Qed.

Lemma other_method_witness :
  datagram_received ascii_tables bye_example (py "192.0.2.20", 5060)
  = (Ok tt, []).
Proof.
  apply (other_method_is_ignored ascii_tables bye_example
           (py "192.0.2.20", 5060) bye_example (py "BYE")
           [(py "to", to_header_example)]
           (_CRLF ++ py "m=audio 49170 RTP/AVP 0" ++ _CRLF)).
  - reflexivity.
  - reflexivity.
  - discriminate.
Defined.

(** X2: every datagram leaves one of four traces: nothing (another
    method), one exception record (the datagram did not decode or
    parse), the incoming-call record and one exception record (the
    port or our address could not be extracted), or the two debug
    records and one [on_call] that carries the source address.  So
    [on_call] is invoked at most once, and never together with an
    exception record. *)
Theorem datagram_received_traces
    (ucd : UnicodeData) (data : bytes) (ip : str) (port : Z) :
  let es := snd (datagram_received ucd data (ip, port)) in
  es = []
  \/ (exists e, es = [LogException e])
  \/ (exists e, es = [LogDebugIncoming ip port; LogException e])
  \/ (exists ci,
        es = [LogDebugIncoming ip port; LogDebugServerIp (server_ip ci);
              OnCall ci]
        /\ caller_ip ci = ip /\ caller_sip_port ci = port).
Proof.
  unfold datagram_received, datagram_received_try, try_except.
  destruct (decode data) as [message|e]; cbn [lift mbind app emit snd];
    [|right; left; eauto].
  destruct (_parse_sip ucd message) as [[[method headers] body]|e];
    cbn [lift mbind app emit snd]; [|right; left; eauto].
  destruct (truthy method && _); [left; reflexivity|].
  cbn [lift mbind app emit snd].
  destruct (scan_body ucd (splitlines body) None) as [[rtp|]|e];
    cbn [lift mbind app emit snd assert_some];
    try (right; right; left; eauto; fail).
  unfold dict_getitem.
  destruct (dict_get (py "to") headers) as [to|];
    cbn [lift mbind app emit snd];
    try (right; right; left; eauto; fail).
  destruct (_SIP_IP_match ucd to) as [sip|];
    cbn [lift mbind app emit snd assert_some on_call];
    try (right; right; left; eauto; fail).
  right. right. right.
  match goal with |- context [OnCall ?c] => exists c end.
  repeat split.
Qed.

(** X3: when no body line is an audio media line, [on_call] is not
    invoked; if besides the datagram is an invitation and every body
    line is well formed, what is recorded is the failed assertion on
    the port. *)
Theorem no_audio_media_line_drops_datagram
    (ucd : UnicodeData) (data : bytes) (ip : str) (port : Z)
    (message : str) (method : option str) (headers : dict) (body : str) :
  decode data = Ok message ->
  _parse_sip ucd message = Ok (method, headers, body) ->
  (forall l, In l (splitlines body) -> is_audio_media (strip l) = false) ->
  calls (snd (datagram_received ucd data (ip, port))) = []
  /\ (is_invite ucd method ->
      (forall l, In l (splitlines body) ->
         well_formed_line ucd (strip l) = true) ->
      datagram_received ucd data (ip, port)
      = (Ok tt, [LogDebugIncoming ip port; LogException AssertionError])).
Proof.
  intros Hd Hp Hno. split.
  - rewrite datagram_received_calls. unfold invitation. rewrite Hd, Hp.
    destruct (truthy method && _); [reflexivity|].
    destruct (scan_body ucd (splitlines body) None) as [[rtp|]|e] eqn:Es;
      try reflexivity.
    apply (scan_body_other ucd _ Hno) in Es. discriminate Es.
  - intros Hinv Hwf.
    unfold datagram_received, datagram_received_try, try_except.
    rewrite Hd. cbn [lift mbind app]. rewrite Hp. cbn [lift mbind app].
    rewrite (is_invite_passes _ _ Hinv).
    destruct (scan_body_well_formed ucd _ Hwf None) as [r Hr].
    pose proof (scan_body_other ucd _ Hno _ _ Hr) as ->.
    cbn [emit lift mbind app]. rewrite Hr. reflexivity.
Qed.

Lemma no_audio_media_line_witness :
  calls (snd (datagram_received ascii_tables invite_without_media
                (py "192.0.2.20", 5060))) = []
  /\ datagram_received ascii_tables invite_without_media (py "192.0.2.20", 5060)
     = (Ok tt, [LogDebugIncoming (py "192.0.2.20") 5060;
                LogException AssertionError]).
Proof.
  destruct (no_audio_media_line_drops_datagram ascii_tables invite_without_media
              (py "192.0.2.20") 5060 invite_without_media (Some (py "INVITE"))
              [(py "to", to_header_example)]
              (_CRLF ++ py "v=0" ++ _CRLF ++ py "m=video 49170 RTP/AVP 0" ++ _CRLF))
    as [Hcalls Htrace].
  - reflexivity.
  - reflexivity.
  - intros l [<-|[<-|[<-|[]]]]; reflexivity.
  - split; [exact Hcalls|]. apply Htrace.
    + reflexivity.
    + intros l [<-|[<-|[<-|[]]]]; reflexivity.
Defined.

(** ** The pattern [_SIP_IP] *)

Lemma strip_prefix_spec (p s r : str) :
  strip_prefix p s = Some r -> s = p ++ r.
Proof.
  revert s. induction p as [|x p IH]; intros s; cbn [strip_prefix].
  - intros H. injection H as ->. reflexivity.
  - destruct s as [|y s]; [discriminate|].
    destruct (Z.eqb_spec x y) as [->|_]; [|discriminate].
    intros H. apply IH in H. now subst s.
Qed.

Lemma span_digits_spec (ucd : UnicodeData) (s d r : str) :
  span_digits ucd s = (d, r) ->
  s = d ++ r /\ forallb (is_digit ucd) d = true.
Proof.
  revert d r. induction s as [|c s IH]; intros d r; cbn [span_digits].
  - intros H. injection H as <- <-. auto.
  - destruct (is_digit ucd c) eqn:Ec.
    + destruct (span_digits ucd s) as [d' r'] eqn:Es.
      intros H. injection H as <- <-.
      destruct (IH d' r' eq_refl) as [-> Hd].
      cbn [forallb app]. rewrite Ec, Hd. auto.
    + intros H. injection H as <- <-. auto.
Qed.

Lemma span_digits_app (ucd : UnicodeData) (d : str) (c : char) (r : str) :
  forallb (is_digit ucd) d = true -> is_digit ucd c = false ->
  span_digits ucd (d ++ c :: r) = (d, c :: r).
Proof.
  intros Hd Hc. induction d as [|x d IH]; cbn [app span_digits].
  - now rewrite Hc.
  - cbn [forallb] in Hd. apply andb_true_iff in Hd as [Hx Hd].
    now rewrite Hx, (IH Hd).
Qed.

Lemma re_digits_then_spec (ucd : UnicodeData) (lo hi : Z) (next : char)
    (s d r : str) :
  re_digits_then ucd lo hi next s = Some (d, r) ->
  s = d ++ next :: r
  /\ forallb (is_digit ucd) d = true /\ lo <= len d <= hi.
Proof.
  unfold re_digits_then.
  destruct (span_digits ucd s) as [d' r'] eqn:Es.
  apply span_digits_spec in Es as [-> Hd].
  destruct r' as [|c r']; [discriminate|].
  destruct ((c =? next) && (lo <=? len d') && (len d' <=? hi)) eqn:E;
    [|discriminate].
  intros H. injection H as <- <-.
  repeat split; try assumption; try lia.
  f_equal. f_equal. lia.
Qed.

Lemma re_digits_then_complete (ucd : UnicodeData) (lo hi : Z) (next : char)
    (d r : str) :
  forallb (is_digit ucd) d = true -> is_digit ucd next = false ->
  lo <= len d <= hi ->
  re_digits_then ucd lo hi next (d ++ next :: r) = Some (d, r).
Proof.
  intros Hd Hn Hlen. unfold re_digits_then.
  rewrite span_digits_app by assumption.
  now replace ((next =? next) && (lo <=? len d) && (len d <=? hi))
    with true by lia.
Qed.

Lemma re_dots_eol_without_newline (s : str) :
  ~ In LF s -> re_dots_eol s = true.
Proof.
  induction s as [|c s IH]; cbn [re_dots_eol]; [reflexivity|].
  intros H. destruct (Z.eqb_spec c LF) as [->|_]; [elim H; now left|].
  apply IH. intros Hin. apply H. now right.
Qed.

Lemma _SIP_IP_match_shape (ucd : UnicodeData) (s ip : str) :
  _SIP_IP_match ucd s = Some ip ->
  exists o1 o2 o3 o4 port params,
    s = py "<sip:" ++ ip ++ [58] ++ port ++ [62] ++ params
    /\ ip = o1 ++ [46] ++ o2 ++ [46] ++ o3 ++ [46] ++ o4
    /\ is_octet ucd o1 /\ is_octet ucd o2
    /\ is_octet ucd o3 /\ is_octet ucd o4
    /\ forallb (is_digit ucd) port = true /\ 1 <= len port
    /\ re_params_eol params = true.
Proof.
  unfold _SIP_IP_match.
  destruct (strip_prefix (py "<sip:") s) as [r0|] eqn:E0; [|discriminate].
  apply strip_prefix_spec in E0.
  destruct (re_digits_then ucd 1 3 46 r0) as [[o1 r1]|] eqn:E1; [|discriminate].
  apply re_digits_then_spec in E1 as (-> & D1 & L1).
  destruct (re_digits_then ucd 1 3 46 r1) as [[o2 r2]|] eqn:E2; [|discriminate].
  apply re_digits_then_spec in E2 as (-> & D2 & L2).
  destruct (re_digits_then ucd 1 3 46 r2) as [[o3 r3]|] eqn:E3; [|discriminate].
  apply re_digits_then_spec in E3 as (-> & D3 & L3).
  destruct (re_digits_then ucd 1 3 58 r3) as [[o4 r4]|] eqn:E4; [|discriminate].
  apply re_digits_then_spec in E4 as (-> & D4 & L4).
  destruct (re_digits_then ucd 1 (len r4) 62 r4) as [[port r5]|] eqn:E5;
    [|discriminate].
  apply re_digits_then_spec in E5 as (E5 & D5 & L5).
  destruct (re_params_eol r5) eqn:E6; [|discriminate].
  intros H. injection H as <-.
  exists o1, o2, o3, o4, port, r5. subst s.
  repeat split; try assumption; try lia; try apply L5.
  rewrite E5.
  repeat (rewrite <- app_assoc || rewrite <- app_comm_cons).
  reflexivity.
Qed.

(** X4: when [on_call] is invoked its argument carries the source
    address and the parsed headers, and its [server_ip] is cut out of a
    [to] header of the form [<sip:A.B.C.D:PORT>...]: four groups of one
    to three digits joined by dots, followed by a colon, at least one
    digit and [>].  No group is checked against 255. *)
Theorem invitation_shape
    (ucd : UnicodeData) (data : bytes) (addr : address) (ci : CallInfo) :
  In ci (calls (snd (datagram_received ucd data addr))) ->
  exists method body o1 o2 o3 o4 port params,
    parse_datagram ucd data = Ok (method, headers ci, body)
    /\ caller_ip ci = fst addr /\ caller_sip_port ci = snd addr
    /\ dict_get (py "to") (headers ci)
       = Some (py "<sip:" ++ server_ip ci ++ [58] ++ port ++ [62] ++ params)
    /\ server_ip ci = o1 ++ [46] ++ o2 ++ [46] ++ o3 ++ [46] ++ o4
    /\ is_octet ucd o1 /\ is_octet ucd o2
    /\ is_octet ucd o3 /\ is_octet ucd o4
    /\ forallb (is_digit ucd) port = true /\ 1 <= len port
    /\ calls (snd (datagram_received ucd data addr)) = [ci].
Proof.
  rewrite datagram_received_calls. unfold invitation, parse_datagram.
  destruct (decode data) as [message|e]; [|contradiction]. cbn [rbind].
  destruct (_parse_sip ucd message) as [[[method hs] body]|e];
    [|contradiction].
  destruct (truthy method && _); [contradiction|].
  destruct (scan_body ucd (splitlines body) None) as [[rtp|]|e];
    try contradiction.
  destruct (dict_get (py "to") hs) as [to|] eqn:Eto; [|contradiction].
  destruct (_SIP_IP_match ucd to) as [ip|] eqn:Eip; [|contradiction].
  intros [<-|[]]. cbn [headers server_ip caller_ip caller_sip_port].
  destruct (_SIP_IP_match_shape _ _ _ Eip)
    as (o1 & o2 & o3 & o4 & port & params & -> & Hip & H1 & H2 & H3 & H4
        & Hp & Hl & _).
  exists method, body, o1, o2, o3, o4, port, params.
  repeat split; try assumption; try reflexivity; try apply H1; try apply H2;
    try apply H3; try apply H4.
Qed.

Lemma invitation_shape_witness :
  exists method body o1 o2 o3 o4 port params,
    parse_datagram ascii_tables datagram_two_media_lines
    = Ok (method, headers call_two_media_lines, body)
    /\ caller_ip call_two_media_lines = fst (py "192.0.2.20", 5060)
    /\ caller_sip_port call_two_media_lines = snd (py "192.0.2.20", 5060)
    /\ dict_get (py "to") (headers call_two_media_lines)
       = Some (py "<sip:" ++ server_ip call_two_media_lines ++ [58] ++ port
               ++ [62] ++ params)
    /\ server_ip call_two_media_lines
       = o1 ++ [46] ++ o2 ++ [46] ++ o3 ++ [46] ++ o4
    /\ is_octet ascii_tables o1 /\ is_octet ascii_tables o2
    /\ is_octet ascii_tables o3 /\ is_octet ascii_tables o4
    /\ forallb (is_digit ascii_tables) port = true /\ 1 <= len port
    /\ calls (snd (datagram_received ascii_tables datagram_two_media_lines
                     (py "192.0.2.20", 5060)))
       = [call_two_media_lines].
Proof.
  apply (invitation_shape ascii_tables datagram_two_media_lines
           (py "192.0.2.20", 5060) call_two_media_lines).
  left. reflexivity.
Defined.

(** X5: [_SIP_IP] accepts every text [<sip:A.B.C.D:PORT>] whose four
    groups hold one to three digits and whose port holds at least one,
    alone or followed by [;] and parameters without a newline, and
    group 1 is [A.B.C.D]. *)
Theorem sip_ip_pattern_accepts
    (ucd : UnicodeData) (o1 o2 o3 o4 port params : str) :
  is_octet ucd o1 -> is_octet ucd o2 -> is_octet ucd o3 -> is_octet ucd o4 ->
  forallb (is_digit ucd) port = true -> 1 <= len port ->
  params = [] \/ (exists c p, params = 59 :: c :: p /\ ~ In LF (c :: p)) ->
  _SIP_IP_match ucd
    (py "<sip:" ++ (o1 ++ [46] ++ o2 ++ [46] ++ o3 ++ [46] ++ o4)
     ++ [58] ++ port ++ [62] ++ params)
  = Some (o1 ++ [46] ++ o2 ++ [46] ++ o3 ++ [46] ++ o4).
Proof.
  intros [D1 L1] [D2 L2] [D3 L3] [D4 L4] Dp Lp Hparams.
  unfold _SIP_IP_match.
  change (strip_prefix (py "<sip:") (py "<sip:" ++ ?x)) with (Some x).
  cbn [strip_prefix].
  rewrite <- !app_assoc. cbn [app].
  rewrite !re_digits_then_complete by (assumption || reflexivity).
  rewrite re_digits_then_complete; [|assumption|reflexivity|].
  2: { split; [assumption|]. rewrite len_app. unfold len. lia. }
  replace (re_params_eol params) with true; [reflexivity|].
  destruct Hparams as [->|(c & p & -> & Hno)]; [reflexivity|].
  cbn [re_params_eol].
  destruct (Z.eqb_spec c LF) as [->|_]; [elim Hno; now left|].
  cbn [negb andb]. symmetry. apply re_dots_eol_without_newline.
  intros Hin. apply Hno. now right.
Qed.

Lemma sip_ip_pattern_accepts_witness :
  _SIP_IP_match ascii_tables
    (py "<sip:" ++ (py "192" ++ [46] ++ py "0" ++ [46] ++ py "2" ++ [46] ++ py "10")
     ++ [58] ++ py "5060" ++ [62] ++ py ";tag=abc")
  = Some (py "192" ++ [46] ++ py "0" ++ [46] ++ py "2" ++ [46] ++ py "10").
Proof.
  apply (sip_ip_pattern_accepts ascii_tables (py "192") (py "0") (py "2") (py "10")
           (py "5060") (py ";tag=abc"));
    try (split; [reflexivity|vm_compute; intuition discriminate]);
    try reflexivity.
  - vm_compute. discriminate.
  - right. exists 116, (py "ag=abc"). split; [reflexivity|].
    vm_compute. intuition discriminate.
Defined.

(** ** Body lines the scan refuses, and what makes a call *)

Lemma scan_line_audio_ok (ucd : UnicodeData) (line tok : str) (rtp : Z)
    (acc : option Z) :
  is_audio_media (strip line) = true ->
  media_port_token (strip line) = Some tok ->
  int_of_str ucd tok = Ok rtp ->
  scan_line ucd line acc = Ok (Some rtp).
Proof.
  unfold is_audio_media, media_port_token, scan_line.
  destruct (strip line) as [|c l]; [discriminate|].
  cbn [nonempty].
  destruct (split1 61 (c :: l)) as [|key [|value [|x l']]]; try discriminate.
  cbn [unpack2 rbind]. intros Ha Ht Hi.
  apply andb_true_iff in Ha as [-> Ha].
  destruct (split value) as [|p0 ps]; [discriminate Ha|].
  unfold getitem. cbn [nth_error rbind]. rewrite Ha.
  destruct ps as [|p1 ps]; [discriminate Ht|].
  cbn [nth_error] in Ht. injection Ht as ->.
  cbn [nth_error rbind]. now rewrite Hi.
Qed.

Lemma scan_line_audio_bad (ucd : UnicodeData) (line : str) (acc : option Z) :
  is_audio_media (strip line) = true ->
  media_port_token (strip line) = None
  \/ (exists tok e, media_port_token (strip line) = Some tok
                    /\ int_of_str ucd tok = Raise e) ->
  exists e, scan_line ucd line acc = Raise e.
Proof.
  intros Ha Hbad.
  destruct (scan_line ucd line acc) as [r|e] eqn:Es; [|eauto].
  destruct (scan_line_audio ucd line acc r Ha Es) as (tok & port & Ht & Hi & _).
  destruct Hbad as [Hn|(tok' & e & Ht' & Hi')]; [congruence|].
  rewrite Ht in Ht'. injection Ht' as <-. congruence.
Qed.

(** X6: an audio media line without a port token, or whose port
    token [int] refuses, drops the datagram, wherever the line stands:
    a well-formed audio line before or after it does not help. *)
Theorem bad_media_port_drops_datagram
    (ucd : UnicodeData) (data : bytes) (addr : address)
    (message : str) (method : option str) (headers : dict) (body line : str) :
  decode data = Ok message ->
  _parse_sip ucd message = Ok (method, headers, body) ->
  In line (splitlines body) ->
  is_audio_media (strip line) = true ->
  media_port_token (strip line) = None
  \/ (exists tok e, media_port_token (strip line) = Some tok
                    /\ int_of_str ucd tok = Raise e) ->
  calls (snd (datagram_received ucd data addr)) = [].
Proof.
  intros Hd Hp Hin Ha Hbad.
  rewrite datagram_received_calls. unfold invitation. rewrite Hd, Hp.
  destruct (truthy method && _); [reflexivity|].
  assert (Hr : forall lines acc, In line lines ->
            exists e, scan_body ucd lines acc = Raise e).
  { induction lines as [|l lines IH]; intros acc Hl; [contradiction|].
    cbn [scan_body]. destruct Hl as [->|Hl].
    - destruct (scan_line_audio_bad ucd line acc Ha Hbad) as [e ->].
      cbn [rbind]. eauto.
    - destruct (scan_line ucd l acc) as [acc'|e]; cbn [rbind]; [|eauto].
      now apply IH. }
  destruct (Hr _ None Hin) as [e ->]. reflexivity.
Qed.

Lemma bad_media_port_witness :
  calls (snd (datagram_received ascii_tables datagram_with_bad_port
                (py "192.0.2.20", 5060))) = [].
Proof.
  apply (bad_media_port_drops_datagram ascii_tables
           datagram_with_bad_port (py "192.0.2.20", 5060)
           datagram_with_bad_port (Some (py "INVITE"))
           [(py "to", to_header_example)]
           (_CRLF ++ py "m=audio 49170 RTP/AVP 0" ++ _CRLF
            ++ py "m=audio 4917O RTP/AVP 0" ++ _CRLF
            ++ py "m=audio 5004 RTP/AVP 0" ++ _CRLF)
           (py "m=audio 4917O RTP/AVP 0")).
  - reflexivity.
  - reflexivity.
  - vm_compute. tauto.
  - reflexivity.
  - right. exists (py "4917O"), ValueError. split; reflexivity.
Defined.

(** X7: what makes a datagram a call.  An invitation (or a message
    with no method) whose body lines are all well formed, whose [to]
    header the pattern accepts, and whose last audio media line has a
    port token that [int] reads, leaves the two debug records and one
    [on_call] with the source address, the integer read, the address
    matched and the parsed headers.  The integer is passed on as read:
    it is not checked against the range of UDP ports. *)
Theorem datagram_accepted
    (ucd : UnicodeData) (data : bytes) (ip : str) (port : Z)
    (message : str) (method : option str) (headers : dict) (body : str)
    (before after : list str) (line tok : str) (rtp : Z) (to sip : str) :
  decode data = Ok message ->
  _parse_sip ucd message = Ok (method, headers, body) ->
  is_invite ucd method ->
  map strip (splitlines body) = before ++ line :: after ->
  (forall l, In l before -> well_formed_line ucd l = true) ->
  is_audio_media line = true ->
  media_port_token line = Some tok ->
  int_of_str ucd tok = Ok rtp ->
  (forall l, In l after ->
     well_formed_line ucd l = true /\ is_audio_media l = false) ->
  dict_get (py "to") headers = Some to ->
  _SIP_IP_match ucd to = Some sip ->
  datagram_received ucd data (ip, port)
  = (Ok tt,
     [ LogDebugIncoming ip port; LogDebugServerIp sip;
       OnCall {| caller_ip := ip;
                 caller_sip_port := port;
                 caller_rtp_port := rtp;
                 server_ip := sip;
                 headers := headers |} ]).
Proof.
  intros Hd Hp Hinv Hmap Hbefore Ha Ht Hi Hafter Hto Hsip.
  assert (Hscan : scan_body ucd (splitlines body) None = Ok (Some rtp)).
  { apply map_strip_split in Hmap as (lb & l0 & la & -> & <- & Hl0 & <-).
    rewrite scan_body_app.
    destruct (scan_body_well_formed ucd lb) with (acc := @None Z) as [acc1 ->].
    { intros l Hin. apply Hbefore. now apply in_map. }
    cbn [rbind scan_body]. subst line.
    rewrite (scan_line_audio_ok ucd l0 tok rtp acc1 Ha Ht Hi). cbn [rbind].
    destruct (scan_body_well_formed ucd la) with (acc := Some rtp) as [r Hr].
    { intros l Hin. apply Hafter. now apply in_map. }
    rewrite Hr. apply scan_body_other in Hr; [now subst r|].
    intros l Hin. apply Hafter. now apply in_map. }
  unfold datagram_received, datagram_received_try, try_except.
  rewrite Hd. cbn [lift mbind app]. rewrite Hp. cbn [lift mbind app].
  rewrite (is_invite_passes _ _ Hinv).
  cbn [emit lift mbind app]. rewrite Hscan.
  cbn [emit lift mbind app assert_some]. unfold dict_getitem. rewrite Hto.
  cbn [emit lift mbind app assert_some]. rewrite Hsip. reflexivity.
Qed.

Lemma datagram_accepted_witness :
  datagram_received ascii_tables invite_with_port_out_of_range
    (py "192.0.2.20", 5060)
  = (Ok tt,
     [ LogDebugIncoming (py "192.0.2.20") 5060;
       LogDebugServerIp (py "999.0.2.10");
       OnCall {| caller_ip := py "192.0.2.20";
                 caller_sip_port := 5060;
                 caller_rtp_port := -70000;
                 server_ip := py "999.0.2.10";
                 headers := [(py "to", py "<sip:999.0.2.10:5060>")] |} ]).
Proof.
  apply (datagram_accepted ascii_tables invite_with_port_out_of_range
           (py "192.0.2.20") 5060 invite_with_port_out_of_range
           (Some (py "invite")) [(py "to", py "<sip:999.0.2.10:5060>")]
           (_CRLF ++ py "v=0" ++ _CRLF
            ++ py "m=audio 5004 RTP/AVP 0" ++ _CRLF
            ++ py "m=audio -70000 RTP/AVP 0" ++ _CRLF
            ++ py "a=sendrecv" ++ _CRLF)
           [ []; py "v=0"; py "m=audio 5004 RTP/AVP 0" ]
           [ py "a=sendrecv" ]
           (py "m=audio -70000 RTP/AVP 0") (py "-70000") (-70000)
           (py "<sip:999.0.2.10:5060>") (py "999.0.2.10")).
  - reflexivity.
  - reflexivity.
  - reflexivity.
  - reflexivity.
  - intros l [<-|[<-|[<-|[]]]]; reflexivity.
  - reflexivity.
  - reflexivity.
  - reflexivity.
  - intros l [<-|[]]; split; reflexivity.
  - reflexivity.
  - reflexivity.
Defined.

(** X8: an invitation whose body gives a port is still dropped when
    its [to] header cannot be used: with no [to] header the record is
    the [KeyError] of the lookup, with a [to] header the pattern
    refuses it is the failed assertion.  In both cases [on_call] is
    not invoked and the server address is never logged. *)
Theorem unusable_to_header_drops_datagram
    (ucd : UnicodeData) (data : bytes) (ip : str) (port : Z)
    (message : str) (method : option str) (headers : dict) (body : str)
    (rtp : Z) :
  decode data = Ok message ->
  _parse_sip ucd message = Ok (method, headers, body) ->
  is_invite ucd method ->
  scan_body ucd (splitlines body) None = Ok (Some rtp) ->
  (forall to, dict_get (py "to") headers = Some to ->
     _SIP_IP_match ucd to = None) ->
  datagram_received ucd data (ip, port)
  = (Ok tt,
     [ LogDebugIncoming ip port;
       LogException match dict_get (py "to") headers with
                    | None => KeyError (py "to")
                    | Some _ => AssertionError
                    end ]).
Proof.
  intros Hd Hp Hinv Hscan Hto.
  unfold datagram_received, datagram_received_try, try_except.
  rewrite Hd. cbn [lift mbind app]. rewrite Hp. cbn [lift mbind app].
  rewrite (is_invite_passes _ _ Hinv).
  cbn [emit lift mbind app]. rewrite Hscan.
  cbn [emit lift mbind app assert_some]. unfold dict_getitem.
  destruct (dict_get (py "to") headers) as [to|]; [|reflexivity].
  cbn [emit lift mbind app assert_some].
  rewrite (Hto to eq_refl). reflexivity.
Qed.

Lemma unusable_to_header_witness :
  datagram_received ascii_tables invite_without_to (py "192.0.2.20", 5060)
  = (Ok tt, [LogDebugIncoming (py "192.0.2.20") 5060;
             LogException (KeyError (py "to"))])
  /\ datagram_received ascii_tables invite_to_host_name (py "192.0.2.20", 5060)
     = (Ok tt, [LogDebugIncoming (py "192.0.2.20") 5060;
                LogException AssertionError]).
Proof.
  split.
  - apply (unusable_to_header_drops_datagram ascii_tables invite_without_to
             (py "192.0.2.20") 5060 invite_without_to (Some (py "INVITE"))
             [(py "to ", py "<sip:192.0.2.10:5060>")]
             (_CRLF ++ py "m=audio 49170 RTP/AVP 0" ++ _CRLF) 49170);
      try reflexivity.
    intros to H. discriminate H.
  - apply (unusable_to_header_drops_datagram ascii_tables invite_to_host_name
             (py "192.0.2.20") 5060 invite_to_host_name (Some (py "INVITE"))
             [(py "to", py "<sip:user@example.com>")]
             (_CRLF ++ py "m=audio 49170 RTP/AVP 0" ++ _CRLF) 49170);
      try reflexivity.
    intros to H. injection H as <-. reflexivity.
Defined.

(** ** What [_parse_sip] accepts, and the body it returns *)

Lemma _parse_sip_loop_accepts (ucd : UnicodeData) (lines : list str) :
  forall i method headers offset,
    Forall (fun l => In 58 l) (take_nonempty lines) ->
    exists headers' offset',
      _parse_sip_loop ucd (S i) lines method headers offset
      = Ok (method, headers', offset').
Proof.
  induction lines as [|line rest IH]; intros i m hs off Hall;
    cbn [_parse_sip_loop Nat.eqb]; [eauto|].
  cbn [take_nonempty] in Hall.
  destruct (nonempty line); cbn [negb]; [|eauto].
  inversion Hall as [|? ? Hline Hrest]; subst.
  destruct (split1_cases 58 line) as [[_ Hno]|(a & b & -> & _ & _)];
    [contradiction|].
  cbn [unpack2 rbind]. apply IH. exact Hrest.
Qed.

Lemma _parse_sip_loop_rejects (ucd : UnicodeData) (lines : list str) (bad : str) :
  In bad (take_nonempty lines) -> ~ In 58 bad ->
  forall i method headers offset,
    _parse_sip_loop ucd (S i) lines method headers offset = Raise ValueError.
Proof.
  intros Hin Hbad.
  induction lines as [|line rest IH]; intros i m hs off;
    cbn [_parse_sip_loop Nat.eqb]; [contradiction|].
  cbn [take_nonempty] in Hin.
  destruct (nonempty line); cbn [negb]; [|contradiction].
  destruct (split1_cases 58 line) as [[-> Hno]|(a & b & -> & -> & Hno)].
  - reflexivity.
  - cbn [unpack2 rbind]. destruct Hin as [<-|Hin].
    + elim Hbad. apply in_or_app. right. now left.
    + now apply IH.
Qed.

(** X9: what [_parse_sip] does with any message.  The empty message
    gives no method, no header and an empty body.  Otherwise a first
    line without a token raises [IndexError]; a line between the first
    line and the first empty one that has no colon raises [ValueError];
    and in every other case the message is accepted, its method being
    the first token of the first line. *)
Theorem parse_sip_outcome (ucd : UnicodeData) (message : str) :
  (splitlines message = [] -> _parse_sip ucd message = Ok (None, [], []))
  /\ (forall first rest, splitlines message = first :: rest ->
        (split first = [] -> _parse_sip ucd message = Raise IndexError)
        /\ (forall bad, split first <> [] ->
              In bad (take_nonempty rest) -> ~ In 58 bad ->
              _parse_sip ucd message = Raise ValueError)
        /\ (forall tok toks, split first = tok :: toks ->
              Forall (fun l => In 58 l) (take_nonempty rest) ->
              exists headers body,
                _parse_sip ucd message = Ok (Some tok, headers, body))).
Proof.
  unfold _parse_sip. split.
  - intros E. rewrite E. apply splitlines_nil in E. now subst message.
  - intros first rest E. rewrite E. cbn [_parse_sip_loop Nat.eqb].
    split; [|split].
    + intros ->. reflexivity.
    + intros bad Hs Hin Hbad.
      destruct (split first) as [|tok toks]; [congruence|].
      cbn [getitem nth_error rbind].
      now rewrite (_parse_sip_loop_rejects ucd rest bad Hin Hbad).
    + intros tok toks -> Hall. cbn [getitem nth_error rbind].
      destruct (_parse_sip_loop_accepts ucd rest 0 (Some tok) []
                  (if nonempty first then 0 + len first + len _CRLF else 0)
                  Hall) as (hs & off & ->).
      cbn [rbind]. eauto.
Qed.

Lemma parse_sip_outcome_witness :
  _parse_sip ascii_tables [] = Ok (None, [], [])
  /\ _parse_sip ascii_tables (py " " ++ _CRLF ++ py "To: b") = Raise IndexError
  /\ _parse_sip ascii_tables
       (py "INVITE sip:a SIP/2.0" ++ _CRLF ++ py "To b" ++ _CRLF)
     = Raise ValueError
  /\ exists headers body,
       _parse_sip ascii_tables message_with_body
       = Ok (Some (py "INVITE"), headers, body).
Proof.
  split; [apply (parse_sip_outcome ascii_tables []); reflexivity|].
  split; [|split].
  - destruct (parse_sip_outcome ascii_tables (py " " ++ _CRLF ++ py "To: b"))
      as [_ H].
    destruct (H (py " ") [py "To: b"] eq_refl) as [H1 _].
    apply H1. reflexivity.
  - destruct (parse_sip_outcome ascii_tables
                (py "INVITE sip:a SIP/2.0" ++ _CRLF ++ py "To b" ++ _CRLF))
      as [_ H].
    destruct (H (py "INVITE sip:a SIP/2.0") [py "To b"] eq_refl)
      as [_ [H2 _]].
    apply (H2 (py "To b")).
    + discriminate.
    + left. reflexivity.
    + vm_compute. intros Hin.
      repeat (destruct Hin as [Hin|Hin]; [discriminate Hin|]). exact Hin.
  - destruct (parse_sip_outcome ascii_tables message_with_body) as [_ H].
    destruct (H (py "INVITE sip:a SIP/2.0") [py "To: b"; []; py "body"] eq_refl)
      as [_ [_ H3]].
    apply (H3 (py "INVITE") [py "sip:a"; py "SIP/2.0"]).
    + reflexivity.
    + vm_compute. constructor; [|constructor].
      do 2 right. left. reflexivity.
Defined.

Ltac len_lia :=
  unfold len in *; cbn [List.length] in *;
  change (List.length _CRLF) with 2%nat in *; lia.

Lemma splitlines_line_lf (l rest : str) :
  no_linebreak l -> splitlines (l ++ LF :: rest) = l :: splitlines rest.
Proof.
  unfold no_linebreak. induction l as [|c l IH]; intros H.
  - cbn [app splitlines]. change (is_linebreak LF) with true. cbn iota.
    destruct rest; reflexivity.
  - simpl in H. apply andb_true_iff in H as [Hc Hl].
    apply negb_true_iff in Hc.
    change ((c :: l) ++ LF :: rest) with (c :: (l ++ LF :: rest)).
    cbn [splitlines]. rewrite Hc, (IH Hl). reflexivity.
Qed.

Lemma splitlines_lf_lines (lines : list str) (rest : str) :
  Forall no_linebreak lines ->
  splitlines (lf_lines lines ++ rest) = lines ++ splitlines rest.
Proof.
  induction 1 as [|l lines Hl _ IH]; [reflexivity|].
  unfold lf_lines in *. cbn [map List.concat].
  rewrite <- !app_assoc. cbn [app].
  rewrite splitlines_line_lf by assumption. now rewrite IH.
Qed.

Lemma len_lf_lines (lines : list str) :
  len (crlf_lines lines) = len (lf_lines lines) + len lines.
Proof.
  induction lines as [|l lines IH]; [reflexivity|].
  rewrite len_crlf_lines_cons, IH.
  unfold lf_lines. cbn [map List.concat]. rewrite <- app_assoc, !len_app.
  unfold len. cbn [List.length]. change (List.length _CRLF) with 2%nat. lia.
Qed.

(** X10: on a message whose lines end in a bare LF the offset, which
    counts two characters per line end, overshoots by one per line: the
    body returned is what follows the blank line less as many
    characters as there are header lines.  With the request line alone
    before the blank line it is exactly what follows the blank line. *)
Theorem parse_body_with_bare_lf
    (ucd : UnicodeData) (first : str) (hlines : list str) (rest : str)
    (method : option str) (headers : dict) (body : str) :
  Forall (fun l => nonempty l = true /\ no_linebreak l) (first :: hlines) ->
  _parse_sip ucd (lf_lines (first :: hlines) ++ [LF] ++ rest)
  = Ok (method, headers, body) ->
  body = skipn (List.length hlines) rest.
Proof.
  intros Hall. unfold _parse_sip.
  assert (Hnl : Forall no_linebreak (first :: hlines))
    by (eapply Forall_impl; [|exact Hall]; simpl; tauto).
  assert (Hne : Forall (fun l => nonempty l = true) (first :: hlines))
    by (eapply Forall_impl; [|exact Hall]; simpl; tauto).
  rewrite splitlines_lf_lines by assumption.
  change ([LF] ++ rest) with ([] ++ LF :: rest).
  rewrite (splitlines_line_lf [] rest) by reflexivity.
  inversion Hne as [|? ? Hf Hh]; subst.
  rewrite <- app_comm_cons. cbn [_parse_sip_loop Nat.eqb]. rewrite Hf.
  destruct (getitem (split first) 0) as [tok|e]; cbn [rbind]; [|discriminate].
  destruct (_parse_sip_loop ucd 1 _ _ _ _) as [[[m hs] off]|e] eqn:El;
    cbn [rbind]; [|discriminate].
  apply _parse_sip_loop_offset in El; [|assumption].
  intros H. apply Ok_inj in H.
  apply pair_equal_spec in H as [_ <-]. subst off.
  unfold slice_from.
  match goal with
  | |- skipn (Z.to_nat ?n) _ = _ =>
      replace (Z.to_nat n)
        with (List.length (lf_lines (first :: hlines))
              + S (List.length hlines))%nat
  end.
  - rewrite skipn_app.
    rewrite skipn_all2 by lia.
    replace (_ - _)%nat with (S (List.length hlines)) by lia.
    reflexivity.
  - pose proof (len_lf_lines (first :: hlines)) as Hlen.
    rewrite len_crlf_lines_cons in Hlen. len_lia.
Qed.

Lemma parse_body_with_bare_lf_witness :
  exists method headers body,
    _parse_sip ascii_tables
      (lf_lines [py "INVITE sip:a SIP/2.0"; py "To: b"; py "Via: c"]
       ++ [LF] ++ py "v=0")
    = Ok (method, headers, body)
    /\ body = skipn 2 (py "v=0").
Proof.
  exists (Some (py "INVITE")), [(py "to", py "b"); (py "via", py "c")], (py "0").
  split; [reflexivity|].
  apply (parse_body_with_bare_lf ascii_tables
           (py "INVITE sip:a SIP/2.0") [py "To: b"; py "Via: c"] (py "v=0")
           (Some (py "INVITE")) [(py "to", py "b"); (py "via", py "c")]
           (py "0")).
  - repeat constructor.
  - reflexivity.
Defined.

Lemma splitlines_length_upto (n : nat) :
  forall s, (List.length s <= n)%nat ->
    len s <= len (crlf_lines (splitlines s)).
Proof.
  induction n as [|n IH]; intros s Hn.
  - destruct s; [unfold len; simpl; lia|simpl in Hn; lia].
  - destruct s as [|c s]; [unfold len; simpl; lia|]. simpl in Hn.
    cbn [splitlines]. destruct (is_linebreak c).
    + rewrite len_crlf_lines_cons.
      destruct s as [|d s'].
      * unfold len, crlf_lines. simpl. lia.
      * destruct ((c =? CR) && (d =? LF)).
        -- pose proof (IH s' ltac:(simpl in Hn; lia)). len_lia.
        -- pose proof (IH (d :: s') ltac:(lia)). len_lia.
    + pose proof (IH s ltac:(lia)) as Hs.
      destruct (splitlines s) as [|l ls].
      * unfold crlf_lines, len, _CRLF in *.
        cbn [map List.concat app List.length] in *. lia.
      * rewrite len_crlf_lines_cons in *. len_lia.
Qed.

Lemma splitlines_length (s : str) : len s <= len (crlf_lines (splitlines s)).
Proof. apply (splitlines_length_upto (List.length s)). lia. Qed.

Lemma _parse_sip_loop_offset_all (ucd : UnicodeData) (lines : list str) :
  forall i method headers offset method' headers' offset',
    Forall (fun l => nonempty l = true) lines ->
    _parse_sip_loop ucd (S i) lines method headers offset
    = Ok (method', headers', offset') ->
    offset' = offset + len (crlf_lines lines).
Proof.
  induction lines as [|l lines IH];
    intros i m hs off m' hs' off' Hne Hloop.
  - simpl in Hloop. injection Hloop as _ _ <-. unfold crlf_lines, len. simpl. lia.
  - inversion Hne as [|? ? Hl Hrest]; subst.
    cbn [_parse_sip_loop] in Hloop.
    rewrite Hl in Hloop. cbn [Nat.eqb negb] in Hloop.
    destruct (unpack2 (split1 58 l)) as [[key value]|e]; simpl in Hloop;
      [|discriminate].
    apply IH in Hloop; [|assumption].
    rewrite len_crlf_lines_cons. lia.
Qed.

(** X11: an accepted message with no empty line after its first line
    has an empty body, whatever its line ends are. *)
Theorem parse_body_without_blank_line
    (ucd : UnicodeData) (message : str)
    (method : option str) (headers : dict) (body : str) :
  _parse_sip ucd message = Ok (method, headers, body) ->
  Forall (fun l => nonempty l = true) (tl (splitlines message)) ->
  body = [].
Proof.
  unfold _parse_sip. intros Hp Hall.
  pose proof (splitlines_length message) as Hlen.
  destruct (splitlines message) as [|first rest] eqn:E.
  - apply splitlines_nil in E. subst message.
    simpl in Hp. now injection Hp as _ _ <-.
  - cbn [tl] in Hall. cbn [_parse_sip_loop Nat.eqb] in Hp.
    destruct (split first) as [|tok toks] eqn:Es; [discriminate Hp|].
    assert (Hf : nonempty first = true)
      by (destruct first; [discriminate Es|reflexivity]).
    rewrite Hf in Hp. cbn [getitem nth_error rbind] in Hp.
    destruct (_parse_sip_loop ucd 1 rest _ _ _) as [[[m hs] off]|e] eqn:El;
      cbn [rbind] in Hp; [|discriminate Hp].
    apply _parse_sip_loop_offset_all in El; [|assumption].
    apply Ok_inj in Hp. apply pair_equal_spec in Hp as [_ <-].
    unfold slice_from. apply skipn_all2.
    rewrite len_crlf_lines_cons in Hlen. len_lia.
Qed.

Lemma parse_body_without_blank_line_witness :
  exists method headers body,
    _parse_sip ascii_tables message_without_blank_line
    = Ok (method, headers, body)
    /\ body = [].
Proof.
  exists (Some (py "INVITE")), [(py "to", py "b"); (py "via", py "c")], [].
  split; [reflexivity|].
  apply (parse_body_without_blank_line ascii_tables message_without_blank_line
           (Some (py "INVITE")) [(py "to", py "b"); (py "via", py "c")] []).
  - reflexivity.
  - repeat constructor.
Defined.

(** ** Rendering an int and reading it back *)

Lemma digit_value_ascii (ucd : UnicodeData) (c : char) :
  48 <= c <= 57 -> digit_value ucd c = Some (c - 48).
Proof.
  intros H. unfold digit_value, is_ascii.
  replace ((0 <=? c) && (c <? 128)) with true by lia.
  now replace ((48 <=? c) && (c <=? 57)) with true by lia.
Qed.

Lemma int_digits_step (ucd : UnicodeData) (c : char) (s : str)
    (acc n : Z) (after_digit : bool) :
  48 <= c <= 57 ->
  int_digits ucd (c :: s) acc n after_digit
  = int_digits ucd s (acc * 10 + (c - 48)) (n + 1) true.
Proof.
  intros H. cbn [int_digits].
  replace (c =? 95) with false by lia.
  now rewrite digit_value_ascii.
Qed.

Lemma int_digits_str_of_uint (ucd : UnicodeData) (u : Decimal.uint) :
  forall acc n,
    int_digits ucd (str_of_uint u) acc n true
    = Some (uint_val u acc, n + len (str_of_uint u)).
Proof.
  induction u; intros acc n; cbn [str_of_uint uint_val].
  1: { cbn [int_digits]. f_equal. f_equal. unfold len. simpl. lia. }
  all: rewrite int_digits_step by lia; rewrite IHu;
    f_equal; f_equal; try (f_equal; lia); unfold len; cbn [List.length]; lia.
Qed.

Lemma of_uint_acc_val (u : Decimal.uint) :
  forall p, Z.pos (Pos.of_uint_acc u p) = uint_val u (Z.pos p).
Proof.
  induction u; intros p; cbn [Pos.of_uint_acc uint_val].
  1: reflexivity.
  all: rewrite IHu; f_equal; lia.
Qed.

Lemma of_uint_val (u : Decimal.uint) : Z.of_uint u = uint_val u 0.
Proof.
  unfold Z.of_uint.
  induction u; cbn [Pos.of_uint uint_val]; try reflexivity;
    try (cbn [Z.of_N]; rewrite of_uint_acc_val; f_equal; lia).
  rewrite IHu. f_equal.
Qed.

Lemma uint_val_lower (u : Decimal.uint) :
  forall acc, 0 <= acc ->
    acc * 10 ^ len (str_of_uint u) <= uint_val u acc.
Proof.
  assert (Hstep : forall (s : str) (c : char) acc k, 0 <= acc -> 0 <= k ->
            acc * 10 ^ len (c :: s) <= (acc * 10 + k) * 10 ^ len s).
  { intros s c acc k Ha Hk. unfold len. cbn [List.length].
    rewrite Nat2Z.inj_succ, Z.pow_succ_r by lia.
    assert (0 < 10 ^ Z.of_nat (List.length s)) by (apply Z.pow_pos_nonneg; lia).
    nia. }
  induction u; intros acc Hacc; cbn [str_of_uint uint_val].
  1: { unfold len. simpl. lia. }
  all: (eapply Z.le_trans; [|apply IHu; lia]);
    first [ apply Hstep; lia
          | replace (acc * 10) with (acc * 10 + 0) by lia; apply Hstep; lia ].
Qed.

Lemma to_int_normal (z : Z) : Decimal.norm (Z.to_int z) = Z.to_int z.
Proof. now rewrite <- DecimalZ.to_of, DecimalZ.of_to. Qed.

(** A rendered int has at most [int_max_str_digits] digits when the
    interpreter agrees to render it. *)
Lemma rendered_digits (z : Z) (u : Decimal.uint) :
  Z.abs z < 10 ^ int_max_str_digits ->
  Z.to_int z = Decimal.Pos u \/ Z.to_int z = Decimal.Neg u ->
  u <> Decimal.Nil
  /\ Z.abs z = uint_val u 0
  /\ len (str_of_uint u) <= int_max_str_digits.
Proof.
  intros Hz Hu.
  assert (Hval : Z.abs z = uint_val u 0).
  { rewrite <- of_uint_val, <- (DecimalZ.of_to z).
    destruct Hu as [-> | ->]; cbn [Z.of_int].
    - apply Z.abs_eq. unfold Z.of_uint. lia.
    - rewrite Z.abs_opp. apply Z.abs_eq. unfold Z.of_uint. lia. }
  assert (Hnil : u <> Decimal.Nil).
  { intros ->. pose proof (to_int_normal z) as Hn.
    destruct Hu as [E|E]; rewrite E in Hn; discriminate Hn. }
  split; [exact Hnil|]. split; [exact Hval|].
  pose proof (to_int_normal z) as Hn.
  assert (Hhead : u = Decimal.D0 Decimal.Nil \/ Decimal.nzhead u = u).
  { destruct Hu as [E|E]; rewrite E in Hn; cbn [Decimal.norm] in Hn.
    - injection Hn as Hn. unfold Decimal.unorm in Hn.
      destruct (Decimal.nzhead u) eqn:En; auto.
    - destruct (Decimal.nzhead u) eqn:En; try discriminate Hn;
        injection Hn as Hn; auto. }
  destruct Hhead as [-> | Hhead].
  { unfold len, int_max_str_digits. simpl. lia. }
  destruct (Z.le_gt_cases (len (str_of_uint u)) int_max_str_digits)
    as [Hle|Hgt]; [exact Hle|exfalso].
  assert (Hbig : 10 ^ int_max_str_digits <= uint_val u 0); [|lia].
  destruct u; try (now elim Hnil);
    try (exfalso; eapply DecimalFacts.nzhead_nonzero; exact Hhead);
    cbn [uint_val str_of_uint] in *;
    (eapply Z.le_trans; [|apply uint_val_lower; lia]);
    match goal with
    | |- _ <= ?k * 10 ^ ?e =>
        apply Z.le_trans with (1 * 10 ^ e);
          [ rewrite Z.mul_1_l; apply Z.pow_le_mono_r; [lia|];
            unfold len in *; cbn [List.length] in Hgt; lia
          | apply Z.mul_le_mono_nonneg_r; [apply Z.pow_nonneg|]; lia ]
    end.
Qed.

(** [int(str(z)) = z]: what [str_of_int] renders, [int_of_str] reads
    back. *)
Lemma int_of_str_of_int (ucd : UnicodeData) (z : Z) :
  Z.abs z < 10 ^ int_max_str_digits ->
  int_of_str ucd (str_of_int z) = Ok z.
Proof.
  intros Hz. unfold str_of_int.
  destruct (Z.to_int z) as [u|u] eqn:E.
  - destruct (rendered_digits z u Hz (or_introl E)) as (Hnil & Hval & Hlen).
    assert (Hpos : 0 <= z).
    { rewrite <- (DecimalZ.of_to z), E. cbn [Z.of_int]. unfold Z.of_uint. lia. }
    assert (Hread : int_digits ucd (str_of_uint u) 0 0 false
                    = Some (uint_val u 0, len (str_of_uint u))).
    { destruct u; try (now elim Hnil); cbn [str_of_uint uint_val];
        rewrite int_digits_step by lia; rewrite int_digits_str_of_uint;
        f_equal; f_equal; unfold len; cbn [List.length]; lia. }
    unfold int_of_str.
    assert (Hsign : match str_of_uint u with
                    | 43 :: r => (1, r)
                    | 45 :: r => (-1, r)
                    | _ => (1, str_of_uint u)
                    end = (1, str_of_uint u)).
    { destruct u; reflexivity. }
    rewrite Hsign, Hread.
    replace (int_max_str_digits <? len (str_of_uint u)) with false by lia.
    f_equal. lia.
  - destruct (rendered_digits z u Hz (or_intror E)) as (Hnil & Hval & Hlen).
    assert (Hneg : z <= 0).
    { rewrite <- (DecimalZ.of_to z), E. cbn [Z.of_int]. unfold Z.of_uint. lia. }
    assert (Hread : int_digits ucd (str_of_uint u) 0 0 false
                    = Some (uint_val u 0, len (str_of_uint u))).
    { destruct u; try (now elim Hnil); cbn [str_of_uint uint_val];
        rewrite int_digits_step by lia; rewrite int_digits_str_of_uint;
        f_equal; f_equal; unfold len; cbn [List.length]; lia. }
    unfold int_of_str. rewrite Hread.
    replace (int_max_str_digits <? len (str_of_uint u)) with false by lia.
    f_equal. lia.
Qed.

(** ** The SDP body of [answer], scanned by the receive path *)

Lemma split_token_app (tok rest : str) :
  tok <> [] ->
  forallb (fun c => negb (is_space c)) tok = true ->
  match rest with [] => True | d :: _ => is_space d = true end ->
  split (tok ++ rest) = tok :: split rest.
Proof.
  induction tok as [|c tok IH]; [congruence|]. intros _ Hc Hrest.
  cbn [forallb] in Hc. apply andb_true_iff in Hc as [Hc Htok].
  apply negb_true_iff in Hc.
  destruct tok as [|c' tok].
  - cbn [app split]. rewrite Hc. destruct rest as [|d rest]; [reflexivity|].
    now rewrite Hrest.
  - change ((c :: c' :: tok) ++ rest) with (c :: ((c' :: tok) ++ rest)).
    cbn [split]. rewrite Hc.
    change ((c' :: tok) ++ rest) with (c' :: (tok ++ rest)).
    cbn [forallb] in Htok. pose proof Htok as Htok'.
    apply andb_true_iff in Htok' as [Hc' _]. apply negb_true_iff in Hc'.
    rewrite Hc'.
    change (c' :: (tok ++ rest)) with ((c' :: tok) ++ rest).
    rewrite IH; [reflexivity|discriminate|exact Htok|exact Hrest].
Qed.

Lemma split_space (c : char) (s : str) :
  is_space c = true -> split (c :: s) = split s.
Proof. intros H. cbn [split]. now rewrite H. Qed.

Lemma lstrip_app_clean (a b : str) :
  b <> [] -> starts_clean b -> lstrip (a ++ b) = lstrip a ++ b.
Proof.
  intros Hb Hclean. induction a as [|c a IH]; cbn [app lstrip].
  - now apply lstrip_clean.
  - destruct (is_space c); [exact IH|reflexivity].
Qed.

(** Stripping a text that begins with a fixed part whose two ends are
    not blank only trims what follows that part. *)
Lemma strip_after_prefix (p x : str) :
  p <> [] -> starts_clean p -> starts_clean (rev p) ->
  strip (p ++ x) = p ++ rstrip x.
Proof.
  intros Hp Hfront Hback. unfold strip.
  rewrite (lstrip_clean (p ++ x)) by (destruct p; [congruence|exact Hfront]).
  unfold rstrip. rewrite rev_app_distr.
  rewrite lstrip_app_clean; [|destruct p; [congruence|]|exact Hback].
  - now rewrite rev_app_distr, rev_involutive.
  - intros H. apply (f_equal (@List.length Z)) in H.
    rewrite length_rev in H. discriminate H.
Qed.

Lemma strip_clean_ends (s : str) :
  starts_clean s -> starts_clean (rev s) -> strip s = s.
Proof.
  intros Hfront Hback. unfold strip, rstrip.
  rewrite (lstrip_clean s Hfront), (lstrip_clean (rev s) Hback).
  apply rev_involutive.
Qed.

(** A body line [k=...] whose key is one character other than [m]
    leaves the port as it is. *)
Lemma scan_line_one_letter_key (ucd : UnicodeData) (k : char) (rest : str)
    (acc : option Z) :
  is_space k = false -> k <> 61 -> k <> 109 ->
  scan_line ucd (k :: 61 :: rest) acc = Ok acc.
Proof.
  intros Hk H61 H109. unfold scan_line.
  change (k :: 61 :: rest) with ([k; 61] ++ rest).
  rewrite strip_after_prefix; [|discriminate|exact Hk|reflexivity].
  change ([k; 61] ++ rstrip rest) with ([k] ++ 61 :: rstrip rest).
  cbn [nonempty app].
  change (k :: 61 :: rstrip rest) with ([k] ++ 61 :: rstrip rest).
  rewrite split1_at_first by (intros [H|[]]; congruence).
  cbn [unpack2 rbind].
  replace (str_eqb [k] (py "m")) with false; [reflexivity|].
  symmetry. apply str_eqb_neq. intros H. injection H as H. congruence.
Qed.

Lemma nonempty_app_l (a b : str) : a <> [] -> nonempty (a ++ b) = true.
Proof. destruct a; [congruence|reflexivity]. Qed.

Lemma str_of_int_nonempty (z : Z) : str_of_int z <> [].
Proof.
  unfold str_of_int. pose proof (to_int_normal z) as Hn.
  destruct (Z.to_int z) as [u|u]; [|discriminate].
  destruct u; discriminate.
Qed.

(** The media line [answer] writes is read as the port it was given. *)
Lemma scan_line_media (ucd : UnicodeData) (port : Z) (acc : option Z) :
  Z.abs port < 10 ^ int_max_str_digits ->
  scan_line ucd (py "m=audio " ++ str_of_int port ++ py " RTP/AVP " ++ _OPUS_PAYLOAD)
    acc
  = Ok (Some port).
Proof.
  intros Hport. unfold scan_line.
  set (digits := str_of_int port).
  assert (Hns : forallb (fun c => negb (is_space c)) digits = true).
  { apply (forallb_imp is_int_char); [|apply str_of_int_chars].
    unfold is_int_char, is_space. intros c H. lia. }
  rewrite strip_clean_ends.
  2: reflexivity.
  2: { rewrite !rev_app_distr. reflexivity. }
  change (py "m=audio " ++ digits ++ py " RTP/AVP " ++ _OPUS_PAYLOAD)
    with (py "m" ++ 61 :: (py "audio" ++ 32 :: (digits ++ 32 :: py "RTP/AVP 123"))).
  rewrite nonempty_app_l by discriminate.
  rewrite split1_at_first by (vm_compute; intuition discriminate).
  cbn [unpack2 rbind]. rewrite str_eqb_refl.
  rewrite (split_token_app (py "audio")); [|discriminate|reflexivity|reflexivity].
  rewrite split_space by reflexivity.
  rewrite (split_token_app digits);
    [|apply str_of_int_nonempty|exact Hns|reflexivity].
  cbn [getitem nth_error rbind]. rewrite str_eqb_refl.
  unfold digits. rewrite int_of_str_of_int by assumption. reflexivity.
Qed.

Lemma splitlines_join_terminated (ls : list str) :
  ls <> [] -> Forall no_linebreak ls ->
  splitlines (join _CRLF (ls ++ [_CRLF])) = ls ++ [[]].
Proof.
  intros Hne Hnl. rewrite join_terminated by assumption.
  fold (crlf_lines ls). rewrite splitlines_crlf_lines by assumption.
  reflexivity.
Qed.

Lemma scan_body_split (ucd : UnicodeData) (n : nat) (ls : list str)
    (acc : option Z) :
  scan_body ucd ls acc
  = rbind (scan_body ucd (firstn n ls) acc) (scan_body ucd (skipn n ls)).
Proof. now rewrite <- scan_body_app, firstn_skipn. Qed.

Lemma scan_body_cons (ucd : UnicodeData) (l : str) (ls : list str)
    (acc : option Z) :
  scan_body ucd (l :: ls) acc
  = rbind (scan_line ucd l acc) (scan_body ucd ls).
Proof. reflexivity. Qed.

Lemma scan_body_skip (ucd : UnicodeData) (ls : list str) (acc : option Z) :
  Forall (fun l => forall a, scan_line ucd l a = Ok a) ls ->
  scan_body ucd ls acc = Ok acc.
Proof.
  induction 1 as [|l ls Hl _ IH]; cbn [scan_body]; [reflexivity|].
  now rewrite Hl.
Qed.

(** X12: the SDP body [answer] writes is one the receive path's scan
    accepts, and the port it reads from it is the port [answer] was
    given. *)
Theorem answer_body_read_back
    (ucd : UnicodeData) (server_ip : str) (server_rtp_port : Z) :
  no_linebreak server_ip ->
  Z.abs server_rtp_port < 10 ^ int_max_str_digits ->
  exists body,
    answer_body server_ip server_rtp_port = Ok body
    /\ scan_body ucd (splitlines body) None = Ok (Some server_rtp_port).
Proof.
  intros Hip Hport. unfold answer_body.
  rewrite format_int_ok by assumption. cbn [rbind].
  eexists. split; [reflexivity|].
  set (port := str_of_int server_rtp_port).
  change (body_lines server_ip port)
    with (removelast (body_lines server_ip port) ++ [_CRLF]).
  assert (Hpn : no_linebreak port) by apply str_of_int_no_linebreak.
  rewrite splitlines_join_terminated.
  2: discriminate.
  2: { unfold body_lines. cbn [removelast].
       repeat constructor;
         repeat (apply no_linebreak_app; try assumption; try reflexivity);
         reflexivity. }
  unfold body_lines. cbn [removelast app].
  rewrite (scan_body_split ucd 5). cbn [firstn skipn].
  rewrite scan_body_skip.
  2: { repeat constructor; intros acc;
         first [ apply (scan_line_one_letter_key ucd 118)
               | apply (scan_line_one_letter_key ucd 111)
               | apply (scan_line_one_letter_key ucd 115)
               | apply (scan_line_one_letter_key ucd 99)
               | apply (scan_line_one_letter_key ucd 116) ];
         try reflexivity; lia. }
  cbn [rbind]. unfold port.
  rewrite scan_body_cons, scan_line_media by assumption. cbn [rbind].
  apply scan_body_skip.
  repeat constructor; intros acc;
    first [ apply (scan_line_one_letter_key ucd 97); try reflexivity; lia
          | reflexivity ].
Qed.

Lemma answer_body_read_back_witness :
  exists body,
    answer_body (py "192.0.2.10") 5004 = Ok body
    /\ scan_body ascii_tables (splitlines body) None = Ok (Some 5004).
Proof.
  apply (answer_body_read_back ascii_tables (py "192.0.2.10") 5004).
  - reflexivity.
  - vm_compute. reflexivity.
Defined.

(** ** More on [answer] *)

(** X13: with a bound transport and a port that can be rendered, a
    call of [answer] whose headers lack one of [via], [from], [to],
    [call-id], [cseq], [contact] raises [KeyError] for the first one
    missing, in that order, and sends nothing. *)
Theorem answer_missing_header
    (self : SIPDatagramProtocol) (t : Transport) (headers : dict) (key : str)
    (caller_ip : str) (caller_sip_port : Z)
    (server_ip : str) (server_rtp_port : Z) :
  transport self = Some t ->
  Z.abs server_rtp_port < 10 ^ int_max_str_digits ->
  first_missing_header headers = Some key ->
  answer self headers caller_ip caller_sip_port server_ip server_rtp_port
  = (Raise (KeyError key), self).
Proof.
  intros Ht Hport Hmiss. unfold answer, response_bytes, answer_body.
  rewrite Ht, format_int_ok by assumption. cbn [rbind].
  unfold first_missing_header, required_headers in Hmiss.
  unfold response_headers, dict_getitem.
  cbn [find] in Hmiss.
  repeat match type of Hmiss with
  | context [dict_get ?k headers] =>
      destruct (dict_get k headers);
        [ cbn [rbind]
        | apply (f_equal (fun o => match o with Some x => x | None => [] end))
            in Hmiss; subst key; reflexivity ]
  end.
  discriminate Hmiss.
Qed.

Lemma answer_missing_header_witness :
  answer (connection_made __init__ {| sent := [] |}) headers_without_call_id
    (py "192.0.2.20") 5060 (py "192.0.2.10") 5004
  = (Raise (KeyError (py "call-id")),
     connection_made __init__ {| sent := [] |}).
Proof.
  apply (answer_missing_header (connection_made __init__ {| sent := [] |})
           {| sent := [] |} headers_without_call_id (py "call-id")).
  - reflexivity.
  - vm_compute. reflexivity.
  - reflexivity.
Defined.

Lemma parse_of_status_line (ucd : UnicodeData) (message : str)
    (rest : list str) (method : option str) (headers : dict) (body : str) :
  splitlines message = py "SIP/2.0 200 OK" :: rest ->
  _parse_sip ucd message = Ok (method, headers, body) ->
  method = Some (py "SIP/2.0").
Proof.
  intros E Hp. apply _parse_sip_method_token in Hp.
  destruct method as [m|].
  - destruct Hp as (line & rest' & toks & E' & Hs).
    rewrite E in E'. injection E' as <- _.
    vm_compute in Hs. now injection Hs as <- _.
  - subst message. discriminate E.
Qed.

(** X14: fed back to [datagram_received], a datagram built by [answer]
    is never taken for a call: it is dropped in silence, or, when its
    text does not parse (which takes header values that break the line
    structure), with one exception record. *)
Theorem own_answer_is_not_a_call
    (ucd : UnicodeData) (headers : dict) (server_ip : str)
    (server_rtp_port : Z) (data : bytes) (addr : address) :
  response_bytes headers server_ip server_rtp_port = Ok data ->
  datagram_received ucd data addr = (Ok tt, [])
  \/ exists e, datagram_received ucd data addr = (Ok tt, [LogException e]).
Proof.
  unfold response_bytes. intros Hresp.
  destruct (answer_body server_ip server_rtp_port) as [body|e];
    [|discriminate Hresp].
  cbn [rbind] in Hresp.
  destruct (response_headers headers body) as [hs|e] eqn:Hh;
    [|discriminate Hresp].
  cbn [rbind] in Hresp. apply decode_encode in Hresp.
  assert (Hlines : exists rest,
            splitlines (response_str hs body) = py "SIP/2.0 200 OK" :: rest).
  { unfold response_str, response_lines.
    assert (Hjoin : forall more,
              join _CRLF ([py "SIP/2.0 200 OK"] ++ more ++ [_CRLF])
              = py "SIP/2.0 200 OK" ++ _CRLF ++ join _CRLF (more ++ [_CRLF])).
    { intros more. destruct more; reflexivity. }
    rewrite Hjoin, <- !app_assoc.
    rewrite splitlines_line_crlf by reflexivity. eauto. }
  destruct Hlines as [rest Hlines].
  unfold datagram_received, datagram_received_try, try_except.
  rewrite Hresp. cbn [lift mbind app].
  destruct (_parse_sip ucd (response_str hs body))
    as [[[method hs'] body']|e] eqn:Hp; cbn [lift mbind app emit].
  - apply (parse_of_status_line _ _ _ _ _ _ Hlines) in Hp. subst method.
    left. reflexivity.
  - right. eauto.
Qed.

Lemma own_answer_witness :
  datagram_received ascii_tables
    (match response_bytes headers_example (py "192.0.2.10") 5004 with
     | Ok data => data
     | Raise _ => []
     end) (py "192.0.2.20", 5060) = (Ok tt, [])
  \/ exists e,
       datagram_received ascii_tables
         (match response_bytes headers_example (py "192.0.2.10") 5004 with
          | Ok data => data
          | Raise _ => []
          end) (py "192.0.2.20", 5060) = (Ok tt, [LogException e]).
Proof.
  apply (own_answer_is_not_a_call ascii_tables headers_example
           (py "192.0.2.10") 5004).
  vm_compute. reflexivity.
Defined.

Lemma encode_app_inv (a b : str) (d : bytes) :
  encode (a ++ b) = Ok d ->
  exists x y, encode a = Ok x /\ encode b = Ok y /\ d = x ++ y.
Proof.
  revert d. induction a as [|c a IH]; intros d; cbn [app encode].
  - intros H. exists [], d. auto.
  - destruct (encode_char c) as [bc|e]; cbn [rbind]; [|discriminate].
    destruct (encode (a ++ b)) as [r|e] eqn:Er; cbn [rbind]; [|discriminate].
    intros H. apply Ok_inj in H. subst d.
    destruct (IH r eq_refl) as (x & y & -> & Hy & ->).
    exists (bc ++ x), y. cbn [rbind]. now rewrite app_assoc.
Qed.

Lemma encode_char_len (c : char) (b : bytes) :
  encode_char c = Ok b ->
  1 <= len b /\ (len b = 1 <-> is_ascii c = true).
Proof.
  unfold encode_char, is_surrogate, is_ascii. intros H.
  assert (Hcases : c < 0 \/ 0 <= c < 128 \/ 128 <= c < 2048
                   \/ 2048 <= c < 55296 \/ 57343 < c < 65536
                   \/ 55296 <= c <= 57343
                   \/ 65536 <= c <= 1114111 \/ 1114111 < c) by lia.
  destruct Hcases as [Hc|[Hc|[Hc|[Hc|[Hc|[Hc|[Hc|Hc]]]]]]];
    eval_tests_in H; try discriminate H;
    apply Ok_inj in H; subst b; unfold len; cbn [List.length];
    (split; [lia|]); split; intros; lia.
Qed.

(** UTF-8 takes one byte for an ASCII character and more for any
    other. *)
Lemma encode_len (s : str) (bs : bytes) :
  encode s = Ok bs ->
  len s <= len bs /\ (len bs = len s <-> forallb is_ascii s = true).
Proof.
  revert bs. induction s as [|c s IH]; intros bs; cbn [encode].
  - intros H. apply Ok_inj in H. subst bs. unfold len. simpl.
    split; [lia|]. split; reflexivity.
  - destruct (encode_char c) as [bc|e] eqn:Ec; cbn [rbind]; [|discriminate].
    destruct (encode s) as [r|e]; cbn [rbind]; [|discriminate].
    intros H. apply Ok_inj in H. subst bs.
    destruct (encode_char_len c bc Ec) as [Hb1 Hb2].
    destruct (IH r eq_refl) as [Hr1 Hr2].
    rewrite len_app. cbn [forallb]. rewrite andb_true_iff.
    unfold len in *. cbn [List.length]. split; [lia|].
    split.
    + intros H. split; [apply Hb2|apply Hr2]; lia.
    + intros [Hc Hs]. apply Hb2 in Hc. apply Hr2 in Hs. lia.
Qed.

Lemma forallb_join_inv (p : char -> bool) (sep : str) (ls : list str) :
  forallb p (join sep ls) = true ->
  Forall (fun l => forallb p l = true) ls.
Proof.
  induction ls as [|l ls IH]; [constructor|].
  destruct ls as [|l' ls].
  - cbn [join]. intros H. now repeat constructor.
  - change (join sep (l :: l' :: ls)) with (l ++ sep ++ join sep (l' :: ls)).
    rewrite !forallb_app. intros H.
    apply andb_true_iff in H as [Hl H]. apply andb_true_iff in H as [_ H].
    constructor; [exact Hl|now apply IH].
Qed.

Lemma body_ascii_iff (server_ip : str) (n : Z) :
  forallb is_ascii (join _CRLF (body_lines server_ip (str_of_int n))) = true
  <-> forallb is_ascii server_ip = true.
Proof.
  split.
  - intros H. apply forallb_join_inv in H. unfold body_lines in H.
    rewrite Forall_forall in H.
    specialize (H (py "c=IN IP4 " ++ server_ip)).
    rewrite forallb_app in H.
    apply andb_true_iff in H as [_ H]; [exact H|].
    do 3 right. now left.
  - intros H. apply body_ascii; [exact H|apply str_of_int_ascii].
Qed.

(** The datagram built by [answer] parses, whatever the local address:
    the status line gives the method [SIP/2.0], the header lines give
    the mapping, and what remains is the separator and the body. *)
Lemma response_parses
    (ucd : UnicodeData) (headers : dict)
    (via from to call_id cseq contact : str)
    (server_ip : str) (server_rtp_port : Z) (data : bytes) :
  dict_get (py "via") headers = Some via ->
  dict_get (py "from") headers = Some from ->
  dict_get (py "to") headers = Some to ->
  dict_get (py "call-id") headers = Some call_id ->
  dict_get (py "cseq") headers = Some cseq ->
  dict_get (py "contact") headers = Some contact ->
  header_value via -> header_value from -> header_value to ->
  header_value call_id -> header_value cseq -> header_value contact ->
  response_bytes headers server_ip server_rtp_port = Ok data ->
  let body := join _CRLF (body_lines server_ip (str_of_int server_rtp_port)) in
  answer_body server_ip server_rtp_port = Ok body
  /\ (exists body_bytes, encode body = Ok body_bytes)
  /\ parse_datagram ucd data
     = Ok (Some (py "SIP/2.0"),
           [ (py "via", via); (py "from", from); (py "to", to);
             (py "call-id", call_id);
             (py "content-type", py "application/sdp");
             (py "content-length", str_of_int (len body));
             (py "cseq", cseq); (py "contact", contact);
             (py "user-agent", py "homeassistant 1.0");
             (py "allow", py "INVITE, ACK, BYE, CANCEL, OPTIONS") ],
           _CRLF ++ body).
Proof.
  intros Hvia Hfrom Hto Hcall Hcseq Hcontact
         [Sv Lv] [Sf Lf] [St Lt] [Sc Lc] [Sq Lq] [Sk Lk] Hresp body.
  unfold response_bytes, answer_body, format_int in *.
  destruct (10 ^ int_max_str_digits <=? Z.abs server_rtp_port);
    [discriminate Hresp|].
  cbn [rbind] in *. fold body in Hresp.
  unfold response_headers, dict_getitem in Hresp.
  rewrite Hvia, Hfrom, Hto, Hcall, Hcseq, Hcontact in Hresp.
  cbn [rbind] in Hresp.
  split; [reflexivity|]. split.
  { unfold response_str in Hresp.
    apply encode_app_inv in Hresp as (x & y & _ & Hy & _). eauto. }
  apply decode_encode in Hresp.
  unfold parse_datagram. rewrite Hresp. cbn [rbind].
  unfold response_str, response_lines.
  apply (_parse_sip_formatted ucd _ (py "SIP/2.0") [py "200"; py "OK"]).
  - reflexivity.
  - reflexivity.
  - repeat constructor; cbn [fst snd];
      try assumption; try reflexivity;
      try apply str_of_int_stripped;
      try (vm_compute; intuition discriminate).
  - repeat constructor; cbn [fst snd];
      try assumption; try reflexivity; apply str_of_int_no_linebreak.
Qed.

(** X15: the [Content-Length] that [answer] writes is the number of
    characters of the body.  The encoded body is never shorter, and it
    has exactly that many bytes if and only if the local address is
    ASCII. *)
Theorem content_length_counts_characters
    (ucd : UnicodeData) (headers : dict)
    (via from to call_id cseq contact : str)
    (server_ip : str) (server_rtp_port : Z) (data : bytes) :
  dict_get (py "via") headers = Some via ->
  dict_get (py "from") headers = Some from ->
  dict_get (py "to") headers = Some to ->
  dict_get (py "call-id") headers = Some call_id ->
  dict_get (py "cseq") headers = Some cseq ->
  dict_get (py "contact") headers = Some contact ->
  header_value via -> header_value from -> header_value to ->
  header_value call_id -> header_value cseq -> header_value contact ->
  response_bytes headers server_ip server_rtp_port = Ok data ->
  exists method parsed rest body body_bytes,
    parse_datagram ucd data = Ok (method, parsed, rest)
    /\ answer_body server_ip server_rtp_port = Ok body
    /\ encode body = Ok body_bytes
    /\ dict_get (py "content-length") parsed = Some (str_of_int (len body))
    /\ len body <= len body_bytes
    /\ (len body_bytes = len body <-> forallb is_ascii server_ip = true).
Proof.
  intros Hvia Hfrom Hto Hcall Hcseq Hcontact Vv Vf Vt Vc Vq Vk Hresp.
  destruct (response_parses ucd headers via from to call_id cseq contact
              server_ip server_rtp_port data)
    as (Hbody & [body_bytes Henc] & Hparse); try assumption.
  destruct (encode_len _ _ Henc) as [Hle Hiff].
  do 3 eexists. exists (join _CRLF (body_lines server_ip (str_of_int server_rtp_port))),
    body_bytes.
  split; [exact Hparse|]. split; [exact Hbody|]. split; [exact Henc|].
  split; [reflexivity|]. split; [exact Hle|].
  rewrite Hiff. apply body_ascii_iff.
Qed.

Lemma content_length_witness :
  exists method parsed rest body body_bytes,
    parse_datagram ascii_tables response_to_arabic_indic
    = Ok (method, parsed, rest)
    /\ answer_body arabic_indic_address 5004 = Ok body
    /\ encode body = Ok body_bytes
    /\ dict_get (py "content-length") parsed = Some (str_of_int (len body))
    /\ len body <= len body_bytes
    /\ (len body_bytes = len body
        <-> forallb is_ascii arabic_indic_address = true).
Proof.
  apply (content_length_counts_characters ascii_tables headers_example
           (py "SIP/2.0/UDP 192.0.2.20:5060")
           (py "<sip:caller@192.0.2.20>;tag=1")
           (py "<sip:192.0.2.10:5060>;tag=abc")
           (py "a84b4c76e66710")
           (py "1 INVITE")
           (py "<sip:caller@192.0.2.20:5060>")
           arabic_indic_address 5004 response_to_arabic_indic);
    try reflexivity; try (split; reflexivity).
Defined.

(** ** From an inbound datagram to the answer and back, in general *)

(** X16: the headers of any datagram the codec accepts can be
    answered: with the six dialog headers present, a bound transport,
    a local address free of surrogates and a port that can be
    rendered, [answer] hands one datagram to the transport, addressed
    to the caller, and that datagram parses to a message with method
    [SIP/2.0] whose six dialog headers are those of the inbound one and
    whose body is the separator followed by the SDP text. *)
Theorem answer_echoes_dialog_headers
    (ucd : UnicodeData) (inbound : bytes)
    (method0 : option str) (headers : dict) (body0 : str)
    (self : SIPDatagramProtocol) (t : Transport)
    (via from to call_id cseq contact : str)
    (caller_ip : str) (caller_sip_port : Z)
    (server_ip : str) (server_rtp_port : Z) :
  parse_datagram ucd inbound = Ok (method0, headers, body0) ->
  dict_get (py "via") headers = Some via ->
  dict_get (py "from") headers = Some from ->
  dict_get (py "to") headers = Some to ->
  dict_get (py "call-id") headers = Some call_id ->
  dict_get (py "cseq") headers = Some cseq ->
  dict_get (py "contact") headers = Some contact ->
  forallb is_scalar server_ip = true ->
  Z.abs server_rtp_port < 10 ^ int_max_str_digits ->
  transport self = Some t ->
  exists data parsed body,
    answer self headers caller_ip caller_sip_port server_ip server_rtp_port
    = (Ok tt, {| transport := Some (sendto t data (caller_ip, caller_sip_port)) |})
    /\ answer_body server_ip server_rtp_port = Ok body
    /\ parse_datagram ucd data = Ok (Some (py "SIP/2.0"), parsed, _CRLF ++ body)
    /\ dict_get (py "via") parsed = Some via
    /\ dict_get (py "from") parsed = Some from
    /\ dict_get (py "to") parsed = Some to
    /\ dict_get (py "call-id") parsed = Some call_id
    /\ dict_get (py "cseq") parsed = Some cseq
    /\ dict_get (py "contact") parsed = Some contact.
Proof.
  intros Hin Hvia Hfrom Hto Hcall Hcseq Hcontact Hip Hport Ht.
  unfold parse_datagram in Hin.
  destruct (decode inbound) as [message|e] eqn:Hd; [|discriminate Hin].
  cbn [rbind] in Hin. apply decode_scalar in Hd.
  pose proof (parsed_values_are_header_values _ _ _ _ _ Hin) as Hval.
  pose proof (parsed_values_keep is_scalar _ _ _ _ _ Hin Hd) as Hsc.
  destruct (answer_sends self t headers via from to call_id cseq
              contact caller_ip caller_sip_port server_ip server_rtp_port)
    as (data & Hresp & Hans); eauto.
  destruct (response_parses ucd headers via from to call_id cseq contact
              server_ip server_rtp_port data)
    as (Hbody & _ & Hparse); eauto.
  eexists data, _, _. split; [exact Hans|]. split; [exact Hbody|].
  split; [exact Hparse|]. repeat split; reflexivity.
Qed.

Lemma answer_echoes_witness :
  exists data parsed body,
    answer bound_protocol dialog_headers (py "192.0.2.20") 5060
      (py "192.0.2.10") 5004
    = (Ok tt, {| transport := Some (sendto {| sent := [] |} data
                                      (py "192.0.2.20", 5060)) |})
    /\ answer_body (py "192.0.2.10") 5004 = Ok body
    /\ parse_datagram ascii_tables data
       = Ok (Some (py "SIP/2.0"), parsed, _CRLF ++ body)
    /\ dict_get (py "via") parsed
       = Some (py "SIP/2.0/UDP 192.0.2.20:5060;branch=z9hG4bK776")
    /\ dict_get (py "from") parsed
       = Some (py "<sip:caller@192.0.2.20>;tag=1928301774")
    /\ dict_get (py "to") parsed = Some (py "<sip:192.0.2.10:5060>")
    /\ dict_get (py "call-id") parsed = Some (py "a84b4c76e66710@192.0.2.20")
    /\ dict_get (py "cseq") parsed = Some (py "314159 INVITE")
    /\ dict_get (py "contact") parsed
       = Some (py "<sip:caller@192.0.2.20:5060>").
Proof.
  apply (answer_echoes_dialog_headers ascii_tables invite_with_dialog_headers
           (Some (py "INVITE")) dialog_headers
           (_CRLF ++ py "v=0" ++ _CRLF ++ py "m=audio 49170 RTP/AVP 0" ++ _CRLF)
           bound_protocol {| sent := [] |});
    reflexivity.
Defined.
